(** * cnw-license-sdk: a shallow embedding of the enforcement core

    The development follows the Go packages [cnwlicense] and
    [cnwlicense/noderegistry]: error values and the server-error mapper
    (errors.go), the machine fingerprint (fingerprint.go), hardware limits,
    the offline verifier (offline.go), the online client, the two node
    registries (postgres.go and the MongoDB one) and the two managers: the one
    of license.go, which has a node registry, and the one that resolves a
    client-level fingerprint and has no registry.

    Go values are modelled as follows.
    - [int] and [int64] are [Z]; they are compared and printed; the one
      operation on them, the negation of a [time.Duration], is written with
      its wrap-around.
    - [string] is [string]; [[]byte] is [list byte].
    - [time.Time] is [Time], the number of clock ticks since Go's zero
      instant, so that [IsZero] is a comparison with [0] and [Before] is [<].
      What a store keeps of an instant is the store's matter ([pgx_timestamptz]
      and [bson_DateTime] of [GoLib]): a TIMESTAMPTZ column keeps microseconds
      and a BSON date milliseconds of what the clock reads.
    - A function that returns [(T, error)] with exactly one of them set is a
      function into [Result T]; [Verify], which can return both, returns a
      pair of options, and [List], which can return a slice with an error,
      returns a list (the nil slice is the empty list) and an [option error];
      a function that returns only [error] returns an [option error].
    - Everything read from the host or the network is an explicit input:
      the [Host] record, the [Do] function of the HTTP client and the
      connection [Conn] of a registry, whose driver calls can fail.
    - The functions of Go's standard library and of the two database drivers
      that the package relies on are the fields of the class [GoLib].
    - A call of a manager runs in a [World]: the connection of the registry
      and the trace of what the call did to its collaborators. *)

From Stdlib Require Import ZArith List String Bool Lia.
From Stdlib.Strings Require Import Byte.
From Stdlib Require Import Ascii OrderedTypeEx.
From stdpp Require Import base decidable option list strings gmap sorting pretty.

Set Warnings "-register-all".

Open Scope string_scope.
Open Scope list_scope.
Open Scope Z_scope.

(** ** Results *)

Inductive result (E A : Type) : Type :=
| Ok (a : A)
| Err (e : E).
Arguments Ok {E A} a.
Arguments Err {E A} e.

Definition is_ok {E A} (r : result E A) : bool :=
  match r with
  | Ok _ => true
  | Err _ => false
  end.

Definition Time := Z.

Definition IsZero (t : Time) : bool := t =? 0.

Definition Before (t u : Time) : bool := t <? u.

(** ** errors.go *)

Module Errors.

(** The nine package-level values made with [errors.New].  Each is a distinct
    pointer, so comparing two of them with [==] is comparing constructors. *)
Inductive Sentinel :=
| ErrLicenseNotFound
| ErrLicenseInactive
| ErrLicenseExpired
| ErrActivationLimit
| ErrSignatureInvalid
| ErrPublicKeyInvalid
| ErrLicenseFileInvalid
| ErrCPULimitExceeded
| ErrNodeLimitExceeded.

#[export] Instance Sentinel_eq_dec : EqDecision Sentinel.
Proof. solve_decision. Defined.

Definition sentinel_text (s : Sentinel) : string :=
  match s with
  | ErrLicenseNotFound => "license not found"
  | ErrLicenseInactive => "license is not active"
  | ErrLicenseExpired => "license expired"
  | ErrActivationLimit => "activation limit reached"
  | ErrSignatureInvalid => "signature verification failed"
  | ErrPublicKeyInvalid => "invalid public key"
  | ErrLicenseFileInvalid => "invalid license file format"
  | ErrCPULimitExceeded => "CPU limit exceeded"
  | ErrNodeLimitExceeded => "node limit exceeded"
  end.

Record ServerError := {
  StatusCode : Z;
  Code : string;
  Message : string
}.

(** The dynamic types an [error] takes in this package. *)
Inductive error :=
| Sentinel_ (s : Sentinel)
    (* one of the package-level errors.New values *)
| Server (se : ServerError)
    (* *ServerError *)
| mappedError (sentinel : error) (server : ServerError)
    (* *mappedError *)
| wrapError (msg : string) (err : error)
    (* what fmt.Errorf builds when the format has one %w *)
| fmtError (msg : string)
    (* what fmt.Errorf builds when the format has no %w *)
| External (msg : string).
    (* an error made outside the package: encoding/json, encoding/base64,
       net/http, os, a database driver *)

(** (e *ServerError) Error() *)
Definition ServerError_Error (e : ServerError) : string :=
  "server error " +:+ pretty (StatusCode e) +:+ ": [" +:+ Code e +:+ "] " +:+ Message e.

(** The [Error()] method of each dynamic type. *)
Fixpoint Error (e : error) : string :=
  match e with
  | Sentinel_ s => sentinel_text s
  | Server se => ServerError_Error se
  | mappedError sentinel _ => Error sentinel
  | wrapError msg _ => msg
  | fmtError msg => msg
  | External msg => msg
  end.

(** fmt.Errorf("%w: ...", sentinel, ...): the message starts with the text of
    the wrapped error, [rest] is what the remaining verbs print. *)
Definition Errorf_w (wrapped : error) (rest : string) : error :=
  wrapError (Error wrapped +:+ rest) wrapped.

(** fmt.Errorf("prefix: %w", err) *)
Definition Errorf_prefix (prefix : string) (err : error) : error :=
  wrapError (prefix +:+ Error err) err.

(** [err == target] for a sentinel [target]. *)
Definition is_sentinel (err : error) (target : Sentinel) : bool :=
  match err with
  | Sentinel_ s => bool_decide (s = target)
  | _ => false
  end.

(** errors.Is(err, target) for a sentinel [target]: at each link of the chain,
    first [err == target], then the link's own [Is] method (only *mappedError
    has one: [target == e.sentinel]), then [Unwrap]. *)
Fixpoint errors_Is (err : error) (target : Sentinel) : bool :=
  is_sentinel err target ||
  match err with
  | mappedError sentinel _ => is_sentinel sentinel target || errors_Is sentinel target
  | wrapError _ inner => errors_Is inner target
  | _ => false
  end.

(** errors.As(err, &se) for [se] of type *ServerError: at each link, first
    whether the link is a *ServerError, then the link's own [As] method (only
    *mappedError has one, it hands out [e.server]), then [Unwrap]. *)
Fixpoint errors_As (err : error) : option ServerError :=
  match err with
  | Server se => Some se
  | mappedError _ server => Some server
  | wrapError _ inner => errors_As inner
  | _ => None
  end.

Definition mapServerError (se : ServerError) : error :=
  if (Code se =? "NOT_FOUND")%string then
    mappedError (Sentinel_ ErrLicenseNotFound) se
  else if (Code se =? "FORBIDDEN")%string then
    if (Message se =? "license expired")%string then
      mappedError (Sentinel_ ErrLicenseExpired) se
    else
      mappedError (Sentinel_ ErrLicenseInactive) se
  else if (Code se =? "ACTIVATION_LIMIT")%string then
    mappedError (Sentinel_ ErrActivationLimit) se
  else
    Server se.

End Errors.

Export Errors.

Definition Result : Type -> Type := result error.

(** What a collaborator outside the package returns (the standard library, the
    operating system, the HTTP transport, a database driver): a value, or the
    message of an error of its own. *)
Definition Lib : Type -> Type := result string.

(** Such a result as the package sees it. *)
Definition ext {A} (r : Lib A) : Result A :=
  match r with
  | Ok a => Ok a
  | Err msg => Err (External msg)
  end.

(** ** The host and Go's standard library *)

(** One entry of net.Interfaces(): whether [Flags&net.FlagLoopback != 0], and
    [HardwareAddr.String()]. *)
Record Interface := {
  loopback : bool;
  HardwareAddr : string
}.

(** What the process reads from its machine during one call. *)
Record Host := {
  os_Getenv_CNW_FINGERPRINT : string;     (* os.Getenv, empty when unset *)
  os_Hostname : Lib string;               (* os.Hostname() *)
  net_Interfaces : Lib (list Interface);  (* net.Interfaces() *)
  runtime_GOOS : string;                  (* runtime.GOOS *)
  runtime_GOARCH : string;                (* runtime.GOARCH *)
  os_ReadFile_machine_id : Lib string;    (* os.ReadFile("/etc/machine-id") *)
  runtime_NumCPU : Z;                     (* runtime.NumCPU() *)
  time_Now : Time                         (* time.Now() *)
}.

(** types.go.  A value of type interface{} as encoding/json and the callers
    produce it; a map[string]interface{} is an optional finite map, [None]
    being the nil map. *)
Inductive any :=
| Float64 (mantissa exponent : Z)
    (* the finite float64 [mantissa * 2^exponent]; encoding/json gives every
       JSON number this type *)
| Int (n : Z)
| Int64 (n : Z)
| Str (s : string)
| Boolean (b : bool)
| Nil
| Slice (l : list any)
| Object (l : list (string * any)).

Definition Features := option (gmap string any).

Record OfflineLicenseFile := {
  License : list Byte.byte;       (* json.RawMessage *)
  Signature : string;
  PublicKey : string
}.

Record OfflineLicenseData := {
  data_LicenseKey : string;
  data_CompanyID : string;
  data_AppID : string;
  data_Plan : string;
  data_Features : Features;
  data_ExpiresAt : Time;
  data_IssuedAt : Time
}.

Record ValidateRequest := {
  req_LicenseKey : string;
  req_Fingerprint : string;
  req_Version : string
}.

Record ValidateResponse := {
  Valid : bool;
  Reason : string;
  Plan : string;
  ExpiresAt : option Time;
  resp_Features : Features;
  ActivationRemaining : Z
}.

Record ActivateRequest := {
  act_LicenseKey : string;
  act_Fingerprint : string;
  act_Hostname : string;
  act_IP : string;
  act_OS : string
}.

Record ActivateResponse := {
  ID : string;
  LicenseID : string;
  actr_Fingerprint : string;
  actr_Hostname : string;
  actr_IP : string;
  actr_OS : string;
  ActivatedAt : Time;
  actr_LastSeenAt : Time
}.

(** The functions of Go's standard library the package calls, and what the
    two database drivers make of a [time.Time].  They are not code of this
    repository; every theorem holds for whatever they compute. *)
Class GoLib := {
  (* fmt.Sprintf("%x", sha256 digest of the argument) *)
  sha256_hex : string -> string;
  strings_TrimSpace : string -> string;
  (* base64.StdEncoding.DecodeString *)
  base64_DecodeString : string -> Lib (list Byte.byte);
  (* ed25519.Verify(publicKey, message, sig) *)
  ed25519_Verify : list Byte.byte -> list Byte.byte -> list Byte.byte -> bool;
  (* json.Unmarshal into each of the destination types used *)
  Unmarshal_OfflineLicenseFile : list Byte.byte -> Lib OfflineLicenseFile;
  Unmarshal_OfflineLicenseData : list Byte.byte -> Lib OfflineLicenseData;
  Unmarshal_ValidateResponse : list Byte.byte -> Lib ValidateResponse;
  Unmarshal_ActivateResponse : list Byte.byte -> Lib ActivateResponse;
  (* json.Unmarshal into struct{Error struct{Code, Message string}} *)
  Unmarshal_errResp : list Byte.byte -> Lib (string * string);
  (* string(body) *)
  string_of_bytes : list Byte.byte -> string;
  (* the error of http.NewRequestWithContext for a POST to the given URL,
     if it reports one *)
  http_NewRequest : string -> option string;
  (* t.Add(d), [d] a time.Duration *)
  time_Add : Time -> Z -> Time;
  (* the instant a TIMESTAMPTZ holds for a time.Time handed to pgx as a
     parameter: PostgreSQL keeps microseconds *)
  pgx_timestamptz : Time -> Time;
  (* the instant a BSON date holds for a time.Time in a bson.M: milliseconds *)
  bson_DateTime : Time -> Time
}.

(** ed25519.PublicKeySize *)
Definition PublicKeySize : Z := 32.

(** ** fingerprint.go *)

Module Machine.

Definition string_le (a b : string) : Prop := String.leb a b = true.

#[export] Instance string_le_dec a b : Decision (string_le a b).
Proof. unfold string_le. apply _. Defined.

(** sort.Strings *)
Definition sort_Strings (l : list string) : list string := merge_sort string_le l.

(** strings.Join *)
Fixpoint Join (parts : list string) (sep : string) : string :=
  match parts with
  | [] => ""
  | [p] => p
  | p :: rest => p +:+ sep +:+ Join rest sep
  end.

Definition getMACAddresses (h : Host) : Result (list string) :=
  match ext (net_Interfaces h) with
  | Err e => Err e
  | Ok ifaces =>
      let macs :=
        omap (fun iface =>
                if loopback iface then None
                else if (HardwareAddr iface =? "")%string then None
                else Some (HardwareAddr iface)) ifaces in
      Ok (sort_Strings macs)
  end.

Definition GenerateFingerprint `{GoLib} (h : Host) : Result string :=
  if negb (os_Getenv_CNW_FINGERPRINT h =? "")%string then
    Ok (os_Getenv_CNW_FINGERPRINT h)
  else
    match ext (os_Hostname h) with
    | Err err => Err (Errorf_prefix "get hostname: " err)
    | Ok hostname =>
        let parts := [hostname] in
        let parts :=
          match getMACAddresses h with
          | Ok macs => parts ++ macs
          | Err _ => parts
          end in
        let parts := parts ++ [runtime_GOOS h; runtime_GOARCH h] in
        let parts :=
          match ext (os_ReadFile_machine_id h) with
          | Ok machineID => parts ++ [strings_TrimSpace machineID]
          | Err _ => parts
          end in
        Ok (sha256_hex (Join parts "|"))
    end.

End Machine.

Export Machine.

(** ** hardware.go *)

Module Hardware.

Record HardwareLimits := {
  MaxCPUPerNode : Z;
  MaxNodes : Z
}.

Definition int_min : Z := - 2 ^ 63.

Definition int_max : Z := 2 ^ 63 - 1.

(** The integer part of [mantissa * 2^exponent], rounding toward zero. *)
Definition truncate (mantissa exponent : Z) : Z :=
  if 0 <=? exponent then mantissa * 2 ^ exponent
  else Z.quot mantissa (2 ^ (- exponent)).

(** The conversion int(n) of a float64.  The language leaves the result to
    the implementation when the integer part does not fit an int; the value
    taken here is the one of the amd64 conversion instruction. *)
Definition int_of_float64 (mantissa exponent : Z) : Z :=
  let t := truncate mantissa exponent in
  if (int_min <=? t) && (t <=? int_max) then t else int_min.

Definition toInt (v : any) : Z :=
  match v with
  | Float64 m e => int_of_float64 m e
  | Int n => n
  | Int64 n => n
  | _ => 0
  end.

Definition ExtractHardwareLimits (features : Features) : HardwareLimits :=
  match features with
  | None => {| MaxCPUPerNode := 0; MaxNodes := 0 |}
  | Some features =>
      let cpu :=
        match features !! "max_cpu_per_node" with
        | Some v => toInt v
        | None => 0
        end in
      let nodes :=
        match features !! "max_nodes" with
        | Some v => toInt v
        | None => 0
        end in
      {| MaxCPUPerNode := cpu; MaxNodes := nodes |}
  end.

Definition CheckCPU (h : Host) (limits : HardwareLimits) : option error :=
  if MaxCPUPerNode limits <=? 0 then None
  else
    let cpuCount := runtime_NumCPU h in
    if cpuCount >? MaxCPUPerNode limits then
      Some (Errorf_w (Sentinel_ ErrCPULimitExceeded)
              (": machine has " +:+ pretty cpuCount +:+ " CPUs, limit is "
               +:+ pretty (MaxCPUPerNode limits)))
    else None.

Definition CheckNodeCount (limits : HardwareLimits) (currentNodes : Z) : option error :=
  if MaxNodes limits <=? 0 then None
  else if currentNodes >? MaxNodes limits then
    Some (Errorf_w (Sentinel_ ErrNodeLimitExceeded)
            (": " +:+ pretty currentNodes +:+ " nodes active, limit is "
             +:+ pretty (MaxNodes limits)))
  else None.

End Hardware.

Export Hardware.

(** ** offline.go *)

Module Offline.

Record OfflineValidator := {
  trustedPublicKey : string
}.

(** options_offline.go: WithTrustedPublicKey applied to a validator. *)
Definition WithTrustedPublicKey (base64PubKey : string) (v : OfflineValidator)
  : OfflineValidator :=
  {| trustedPublicKey := base64PubKey |}.

Definition NewOfflineValidator (opts : list (OfflineValidator -> OfflineValidator))
  : OfflineValidator :=
  fold_left (fun v opt => opt v) opts {| trustedPublicKey := "" |}.

(** The key [Verify] decodes: the trusted one when it is set, else the one of
    the file. *)
Definition resolvePublicKey (v : OfflineValidator) (file : OfflineLicenseFile) : string :=
  let pubKeyBase64 := PublicKey file in
  if negb (trustedPublicKey v =? "")%string then trustedPublicKey v else pubKeyBase64.

Definition Verify `{GoLib} (h : Host) (v : OfflineValidator) (raw : list Byte.byte)
  : option OfflineLicenseData * option error :=
  match ext (Unmarshal_OfflineLicenseFile raw) with
  | Err err =>
      (None, Some (Errorf_w (Sentinel_ ErrLicenseFileInvalid) (": " +:+ Error err)))
  | Ok file =>
      if (Z.of_nat (length (License file)) =? 0) || (Signature file =? "")%string then
        (None, Some (Sentinel_ ErrLicenseFileInvalid))
      else
        let pubKeyBase64 := resolvePublicKey v file in
        if (pubKeyBase64 =? "")%string then
          (None, Some (Sentinel_ ErrPublicKeyInvalid))
        else
          match ext (base64_DecodeString pubKeyBase64) with
          | Err err =>
              (None, Some (Errorf_w (Sentinel_ ErrPublicKeyInvalid)
                             (": base64 decode: " +:+ Error err)))
          | Ok pubKeyBytes =>
              if negb (Z.of_nat (length pubKeyBytes) =? PublicKeySize) then
                (None, Some (Errorf_w (Sentinel_ ErrPublicKeyInvalid)
                               (": key length " +:+ pretty (Z.of_nat (length pubKeyBytes))
                                +:+ ", expected " +:+ pretty PublicKeySize)))
              else
                match ext (base64_DecodeString (Signature file)) with
                | Err err =>
                    (None, Some (Errorf_w (Sentinel_ ErrSignatureInvalid)
                                   (": signature decode: " +:+ Error err)))
                | Ok sigBytes =>
                    if negb (ed25519_Verify pubKeyBytes (License file) sigBytes) then
                      (None, Some (Sentinel_ ErrSignatureInvalid))
                    else
                      match ext (Unmarshal_OfflineLicenseData (License file)) with
                      | Err err =>
                          (None, Some (Errorf_w (Sentinel_ ErrLicenseFileInvalid)
                                         (": parse license data: " +:+ Error err)))
                      | Ok data =>
                          if negb (IsZero (data_ExpiresAt data))
                             && Before (data_ExpiresAt data) (time_Now h) then
                            (Some data, Some (Sentinel_ ErrLicenseExpired))
                          else
                            (Some data, None)
                      end
                end
          end
  end.

End Offline.

Export Offline.

(** ** noderegistry: registry.go, postgres.go, mongo.go *)

Module Noderegistry.

Record NodeInfo := {
  Fingerprint : string;
  Hostname : string;
  IP : string;
  OS : string;
  LicenseKey : string;
  RegisteredAt : Time;
  LastSeenAt : Time
}.

(** The table (or collection) behind a registry, as the driver sees it: the
    stored records in the order a scan without ordering yields them, and what
    the next driver calls run into.  Each driver call takes the head of
    [faults]: [Some msg] makes that call fail with the driver's error [msg] and leaves the
    records alone, [None] (or an empty list) lets it run. *)
Record Conn := {
  rows : list NodeInfo;
  faults : list (option string)
}.

(** One statement sent through the driver. *)
Definition driver {A} (run : list NodeInfo -> A * list NodeInfo) (c : Conn)
  : Result A * Conn :=
  match faults c with
  | Some msg :: rest => (Err (External msg), {| rows := rows c; faults := rest |})
  | None :: rest =>
      let '(a, rs) := run (rows c) in (Ok a, {| rows := rs; faults := rest |})
  | [] =>
      let '(a, rs) := run (rows c) in (Ok a, {| rows := rs; faults := [] |})
  end.

(** The interface NodeRegistry.  [now] is the clock reading the method takes
    (time.Now() on the caller's host, NOW() on the database server); the
    [Z] of [Prune] is the time.Duration, an int64. *)
Class NodeRegistry (R : Type) := {
  Register : R -> Time -> NodeInfo -> Conn -> Result NodeInfo * Conn;
  Deregister : R -> string -> Conn -> option error * Conn;
  Count : R -> string -> Conn -> Result Z * Conn;
  List : R -> string -> Conn -> (list NodeInfo * option error) * Conn;
  Ping : R -> Time -> string -> Conn -> option error * Conn;
  Prune : R -> Time -> string -> Z -> Conn -> Result Z * Conn;
  Close : R -> option error
}.

Definition has_fingerprint (fp : string) (n : NodeInfo) : bool :=
  (Fingerprint n =? fp)%string.

Definition has_license (key : string) (n : NodeInfo) : bool :=
  (LicenseKey n =? key)%string.

(** The record the first matching position holds after [f] is applied there,
    with the updated list; [None] when nothing matches. *)
Fixpoint update_first (p : NodeInfo -> bool) (f : NodeInfo -> NodeInfo)
  (l : list NodeInfo) : option (NodeInfo * list NodeInfo) :=
  match l with
  | [] => None
  | n :: rest =>
      if p n then Some (f n, f n :: rest)
      else
        match update_first p f rest with
        | Some (n', rest') => Some (n', n :: rest')
        | None => None
        end
  end.

Fixpoint delete_first (p : NodeInfo -> bool) (l : list NodeInfo) : list NodeInfo :=
  match l with
  | [] => []
  | n :: rest => if p n then rest else n :: delete_first p rest
  end.

Definition error_of {A} (r : Result A * Conn) (wrap : error -> error)
  : option error * Conn :=
  match r with
  | (Ok _, c) => (None, c)
  | (Err err, c) => (Some (wrap err), c)
  end.

Definition wrap_err {A} (r : Result A * Conn) (wrap : error -> error)
  : Result A * Conn :=
  match r with
  | (Ok a, c) => (Ok a, c)
  | (Err err, c) => (Err (wrap err), c)
  end.

(** A call into the driver that reads or writes no record, such as
    rows.Next(), rows.Scan() and cursor.All(). *)
Definition driver_call (c : Conn) : Result unit * Conn :=
  driver (fun tbl => (tt, tbl)) c.

(** The negation [-d] of an int64 [d]: it wraps at the least int64. *)
Definition neg_int64 (d : Z) : Z :=
  (- d + 2 ^ 63) mod 2 ^ 64 - 2 ^ 63.

(** *** postgres.go *)

Record PostgresRegistry := {
  tableName : string
}.

(** INSERT ... VALUES ($1, ..., $6, $6) ON CONFLICT (fingerprint) DO UPDATE
    SET hostname, ip, os, license_key, last_seen_at ... RETURNING
    registered_at, last_seen_at.  $6 is time.Now() as a TIMESTAMPTZ.
    fingerprint is the primary key, so at most one row conflicts. *)
Definition pg_upsert `{GoLib} (now : Time) (node : NodeInfo) (tbl : list NodeInfo)
  : (Time * Time) * list NodeInfo :=
  let excluded :=
    {| Fingerprint := Fingerprint node; Hostname := Hostname node; IP := IP node;
       OS := OS node; LicenseKey := LicenseKey node;
       RegisteredAt := pgx_timestamptz now; LastSeenAt := pgx_timestamptz now |} in
  match update_first (has_fingerprint (Fingerprint node))
          (fun row =>
             {| Fingerprint := Fingerprint row; Hostname := Hostname excluded;
                IP := IP excluded; OS := OS excluded;
                LicenseKey := LicenseKey excluded;
                RegisteredAt := RegisteredAt row;
                LastSeenAt := LastSeenAt excluded |}) tbl with
  | Some (row, tbl') => ((RegisteredAt row, LastSeenAt row), tbl')
  | None => ((RegisteredAt excluded, LastSeenAt excluded), tbl ++ [excluded])
  end.

Definition pg_Register `{GoLib} (r : PostgresRegistry) (now : Time) (node : NodeInfo)
  (c : Conn) : Result NodeInfo * Conn :=
  match driver (pg_upsert now node) c with
  | (Err err, c') => (Err (Errorf_prefix "register node: " err), c')
  | (Ok (registered_at, last_seen_at), c') =>
      (* Scan(&node.RegisteredAt, &node.LastSeenAt); return &node *)
      (Ok {| Fingerprint := Fingerprint node; Hostname := Hostname node;
             IP := IP node; OS := OS node; LicenseKey := LicenseKey node;
             RegisteredAt := registered_at; LastSeenAt := last_seen_at |}, c')
  end.

(** DELETE FROM t WHERE fingerprint = $1 *)
Definition pg_Deregister (r : PostgresRegistry) (fingerprint : string) (c : Conn)
  : option error * Conn :=
  error_of
    (driver (fun tbl => (tt, filter (fun n => has_fingerprint fingerprint n = false) tbl)) c)
    (Errorf_prefix "deregister node: ").

(** SELECT COUNT( * ) FROM t WHERE license_key = $1 *)
Definition pg_Count (r : PostgresRegistry) (licenseKey : string) (c : Conn)
  : Result Z * Conn :=
  wrap_err
    (driver (fun tbl =>
               (Z.of_nat (length (filter (fun n => has_license licenseKey n = true) tbl)),
                tbl)) c)
    (Errorf_prefix "count nodes: ").

Definition registered_le (a b : NodeInfo) : Prop := RegisteredAt a <= RegisteredAt b.

#[export] Instance registered_le_dec a b : Decision (registered_le a b).
Proof. unfold registered_le. apply _. Defined.

(** ORDER BY registered_at: the rows in ascending order of that column (the
    order among equal values is the database's choice; a stable sort is one). *)
Definition order_by_registered_at (l : list NodeInfo) : list NodeInfo :=
  merge_sort registered_le l.

(** for rows.Next() { rows.Scan(...); nodes = append(nodes, n) }
    return nodes, rows.Err()
    over the rows [found] of the result set: when rows.Next() fails the loop
    ends and rows.Err() is returned as it is, next to the nodes read so far;
    when rows.Scan fails nil is returned with the error behind
    "scan node: ". *)
Fixpoint pg_scan (found nodes : list NodeInfo) (c : Conn)
  : (list NodeInfo * option error) * Conn :=
  match driver_call c with                        (* rows.Next() *)
  | (Err err, c') => ((nodes, Some err), c')
  | (Ok _, c') =>
      match found with
      | [] => ((nodes, None), c')
      | n :: rest =>
          match driver_call c' with               (* rows.Scan(...) *)
          | (Err err, c'') => (([], Some (Errorf_prefix "scan node: " err)), c'')
          | (Ok _, c'') => pg_scan rest (nodes ++ [n]) c''
          end
      end
  end.

(** SELECT ... FROM t WHERE license_key = $1 ORDER BY registered_at *)
Definition pg_List (r : PostgresRegistry) (licenseKey : string) (c : Conn)
  : (list NodeInfo * option error) * Conn :=
  match driver (fun tbl =>
                  (order_by_registered_at
                     (filter (fun n => has_license licenseKey n = true) tbl), tbl)) c with
  | (Err err, c') => (([], Some (Errorf_prefix "list nodes: " err)), c')
  | (Ok found, c') => pg_scan found [] c'
  end.

Definition set_LastSeenAt (t : Time) (n : NodeInfo) : NodeInfo :=
  {| Fingerprint := Fingerprint n; Hostname := Hostname n; IP := IP n; OS := OS n;
     LicenseKey := LicenseKey n; RegisteredAt := RegisteredAt n; LastSeenAt := t |}.

(** UPDATE t SET last_seen_at = NOW() WHERE fingerprint = $1; [now] is the
    NOW() of the database server, a TIMESTAMPTZ. *)
Definition pg_Ping (r : PostgresRegistry) (now : Time) (fingerprint : string) (c : Conn)
  : option error * Conn :=
  error_of
    (driver (fun tbl =>
               (tt, (fun n => if has_fingerprint fingerprint n
                              then set_LastSeenAt now n else n) <$> tbl)) c)
    (Errorf_prefix "ping node: ").

Definition stale (licenseKey : string) (cutoff : Time) (n : NodeInfo) : bool :=
  has_license licenseKey n && (LastSeenAt n <? cutoff).

(** cutoff := time.Now().Add(-olderThan);
    DELETE FROM t WHERE license_key = $1 AND last_seen_at < $2, $2 being the
    cutoff as a TIMESTAMPTZ *)
Definition pg_Prune `{GoLib} (r : PostgresRegistry) (now : Time) (licenseKey : string)
  (olderThan : Z) (c : Conn) : Result Z * Conn :=
  let cutoff := pgx_timestamptz (time_Add now (neg_int64 olderThan)) in
  wrap_err
    (driver (fun tbl =>
               (Z.of_nat (length (filter (fun n => stale licenseKey cutoff n = true) tbl)),
                filter (fun n => stale licenseKey cutoff n = false) tbl)) c)
    (Errorf_prefix "prune nodes: ").

#[export] Instance PostgresRegistry_NodeRegistry `{GoLib}
  : NodeRegistry PostgresRegistry := {
  Register := pg_Register;
  Deregister := pg_Deregister;
  Count := pg_Count;
  List := pg_List;
  Ping := pg_Ping;
  Prune := pg_Prune;
  Close := fun _ => None
}.

(** *** mongo.go *)

Record MongoRegistry := {
  collectionName : string
}.

(** FindOneAndUpdate(filter {fingerprint}, {$set: hostname, ip, os,
    license_key, last_seen_at; $setOnInsert: registered_at}) with upsert and
    ReturnDocument(After): the first document that matches is updated, or a
    new one is inserted; the document as it is afterwards is returned.  The
    two instants are time.Now() as a BSON date. *)
Definition mongo_findOneAndUpdate `{GoLib} (now : Time) (node : NodeInfo)
  (coll : list NodeInfo) : NodeInfo * list NodeInfo :=
  match update_first (has_fingerprint (Fingerprint node))
          (fun doc =>
             {| Fingerprint := Fingerprint doc; Hostname := Hostname node;
                IP := IP node; OS := OS node; LicenseKey := LicenseKey node;
                RegisteredAt := RegisteredAt doc;
                LastSeenAt := bson_DateTime now |}) coll with
  | Some (doc, coll') => (doc, coll')
  | None =>
      let doc :=
        {| Fingerprint := Fingerprint node; Hostname := Hostname node;
           IP := IP node; OS := OS node; LicenseKey := LicenseKey node;
           RegisteredAt := bson_DateTime now; LastSeenAt := bson_DateTime now |} in
      (doc, coll ++ [doc])
  end.

Definition mongo_Register `{GoLib} (r : MongoRegistry) (now : Time) (node : NodeInfo)
  (c : Conn) : Result NodeInfo * Conn :=
  wrap_err (driver (mongo_findOneAndUpdate now node) c)
    (Errorf_prefix "register node: ").

(** DeleteOne({fingerprint}) *)
Definition mongo_Deregister (r : MongoRegistry) (fingerprint : string) (c : Conn)
  : option error * Conn :=
  error_of
    (driver (fun coll => (tt, delete_first (has_fingerprint fingerprint) coll)) c)
    (Errorf_prefix "deregister node: ").

(** CountDocuments({license_key}) *)
Definition mongo_Count (r : MongoRegistry) (licenseKey : string) (c : Conn)
  : Result Z * Conn :=
  wrap_err
    (driver (fun coll =>
               (Z.of_nat (length (filter (fun n => has_license licenseKey n = true) coll)),
                coll)) c)
    (Errorf_prefix "count nodes: ").

(** Find({license_key}) with no sort option, then cursor.All: the matching
    documents in the order the collection yields them; nil and the error
    behind "decode nodes: " when cursor.All fails. *)
Definition mongo_List (r : MongoRegistry) (licenseKey : string) (c : Conn)
  : (list NodeInfo * option error) * Conn :=
  match driver (fun coll =>
                  (filter (fun n => has_license licenseKey n = true) coll, coll)) c with
  | (Err err, c') => (([], Some (Errorf_prefix "list nodes: " err)), c')
  | (Ok found, c') =>
      match driver_call c' with                   (* cursor.All(ctx, &nodes) *)
      | (Err err, c'') => (([], Some (Errorf_prefix "decode nodes: " err)), c'')
      | (Ok _, c'') => ((found, None), c'')
      end
  end.

(** UpdateOne({fingerprint}, {$set: {last_seen_at: time.Now()}}); the
    instant becomes a BSON date. *)
Definition mongo_Ping `{GoLib} (r : MongoRegistry) (now : Time) (fingerprint : string)
  (c : Conn) : option error * Conn :=
  error_of
    (driver (fun coll =>
               (tt, match update_first (has_fingerprint fingerprint)
                            (set_LastSeenAt (bson_DateTime now)) coll with
                    | Some (_, coll') => coll'
                    | None => coll
                    end)) c)
    (Errorf_prefix "ping node: ").

(** cutoff := time.Now().Add(-olderThan);
    DeleteMany({license_key, last_seen_at: {$lt: cutoff}}), the cutoff being a
    BSON date *)
Definition mongo_Prune `{GoLib} (r : MongoRegistry) (now : Time) (licenseKey : string)
  (olderThan : Z) (c : Conn) : Result Z * Conn :=
  let cutoff := bson_DateTime (time_Add now (neg_int64 olderThan)) in
  wrap_err
    (driver (fun coll =>
               (Z.of_nat (length (filter (fun n => stale licenseKey cutoff n = true) coll)),
                filter (fun n => stale licenseKey cutoff n = false) coll)) c)
    (Errorf_prefix "prune nodes: ").

#[export] Instance MongoRegistry_NodeRegistry `{GoLib}
  : NodeRegistry MongoRegistry := {
  Register := mongo_Register;
  Deregister := mongo_Deregister;
  Count := mongo_Count;
  List := mongo_List;
  Ping := mongo_Ping;
  Prune := mongo_Prune;
  Close := fun _ => None
}.

(** The uniqueness both stores enforce: the primary key of the table, the
    unique index of the collection. *)
Definition unique_fingerprints (l : list NodeInfo) : Prop :=
  NoDup (Fingerprint <$> l).

End Noderegistry.

Export Noderegistry.

(** ** The world a manager call runs in *)

Inductive Payload :=
| ValidateBody (req : ValidateRequest)
| ActivateBody (req : ActivateRequest).

(** The POST request [doJSON] hands to the HTTP client.  The body is kept as
    the value json.Marshal is applied to; marshalling these structs of strings
    cannot fail, so the "marshal request" error has no counterpart. *)
Record HttpRequest := {
  URL : string;
  ContentType : string;
  X_API_Key : string;
  UserAgent : option string;
  Body : Payload
}.

(** What http.Client.Do gives back: the status and what reading the body
    gives. *)
Record HttpResponse := {
  http_StatusCode : Z;
  http_Body : Lib (list Byte.byte)
}.

(** What a call did to its collaborators, oldest first. *)
Inductive Event :=
| HttpDo (req : HttpRequest)
| CallRegister (node : NodeInfo)
| CallCount (licenseKey : string)
| CallDeregister (fingerprint : string).

Record World := {
  conn : Conn;
  trace : list Event
}.

Definition IO (A : Type) : Type := World -> A * World.

Definition ret {A} (a : A) : IO A := fun w => (a, w).

Definition bind {A B} (m : IO A) (k : A -> IO B) : IO B :=
  fun w => let '(a, w') := m w in k a w'.

Notation "x <- m ;; k" := (bind m (fun x => k))
  (at level 100, m at next level, right associativity).

Definition emit (ev : Event) : IO unit :=
  fun w => (tt, {| conn := conn w; trace := trace w ++ [ev] |}).

(** A registry method run on the connection of the world. *)
Definition on_conn {A} (ev : Event) (op : Conn -> A * Conn) : IO A :=
  fun w =>
    let '(a, c) := op (conn w) in
    (a, {| conn := c; trace := trace w ++ [ev] |}).

(** ** client.go *)

Module Online.

Definition maxResponseBytes : nat := 2 ^ 20.

Record OnlineClient := {
  serverURL : string;
  apiKey : string;
  httpClient_Do : HttpRequest -> Lib HttpResponse;
  timeout : Z;
  userAgent : string;
  fingerprint : string
}.

(** (c *OnlineClient) Fingerprint() *)
Definition Fingerprint_of (c : OnlineClient) : string := fingerprint c.

Definition parseError `{GoLib} (c : OnlineClient) (statusCode : Z) (body : list Byte.byte)
  : error :=
  match ext (Unmarshal_errResp body) with
  | Err _ =>
      Server {| StatusCode := statusCode; Code := "UNKNOWN";
                Message := string_of_bytes body |}
  | Ok (code, message) =>
      mapServerError {| StatusCode := statusCode; Code := code; Message := message |}
  end.

Definition doJSON `{GoLib} {A} (c : OnlineClient) (path : string) (body : Payload)
  (decode : list Byte.byte -> Lib A) : IO (Result A) :=
  let req :=
    {| URL := serverURL c +:+ path;
       ContentType := "application/json";
       X_API_Key := apiKey c;
       UserAgent := if (userAgent c =? "")%string then None else Some (userAgent c);
       Body := body |} in
  match http_NewRequest (URL req) with
  | Some msg => ret (Err (Errorf_prefix "create request: " (External msg)))
  | None =>
      _ <- emit (HttpDo req) ;;
      match ext (httpClient_Do c req) with
      | Err err => ret (Err (Errorf_prefix "http request: " err))
      | Ok resp =>
          match ext (http_Body resp) with
          | Err err => ret (Err (Errorf_prefix "read response: " err))
          | Ok bytes =>
              let respBody := take maxResponseBytes bytes in
              if http_StatusCode resp >=? 400 then
                ret (Err (parseError c (http_StatusCode resp) respBody))
              else
                match ext (decode respBody) with
                | Err err => ret (Err (Errorf_prefix "decode response: " err))
                | Ok dest => ret (Ok dest)
                end
          end
      end
  end.

Definition Validate `{GoLib} (c : OnlineClient) (req : ValidateRequest)
  : IO (Result ValidateResponse) :=
  let req :=
    if (req_Fingerprint req =? "")%string && negb (fingerprint c =? "")%string then
      {| req_LicenseKey := req_LicenseKey req; req_Fingerprint := fingerprint c;
         req_Version := req_Version req |}
    else req in
  doJSON c "/v1/validate" (ValidateBody req) Unmarshal_ValidateResponse.

Definition Activate `{GoLib} (c : OnlineClient) (req : ActivateRequest)
  : IO (Result ActivateResponse) :=
  let req :=
    if (act_Fingerprint req =? "")%string && negb (fingerprint c =? "")%string then
      {| act_LicenseKey := act_LicenseKey req; act_Fingerprint := fingerprint c;
         act_Hostname := act_Hostname req; act_IP := act_IP req; act_OS := act_OS req |}
    else req in
  doJSON c "/v1/activate" (ActivateBody req) Unmarshal_ActivateResponse.

End Online.

Export Online.

(** Modelled from the spec: the declaration of LicenseInfo that has the
    NodeCount field license.go assigns is not among the sources (the types.go
    at hand declares the other six fields).  The record has the fields of the
    spec's data model: valid, license key, plan, feature map, expiration,
    fingerprint, node count.  The manager without a registry leaves the node
    count at its zero value. *)
Record LicenseInfo := {
  info_Valid : bool;
  info_LicenseKey : string;
  info_Plan : string;
  info_Features : Features;
  info_ExpiresAt : option Time;
  info_Fingerprint : string;
  info_NodeCount : Z
}.

(** ** license.go: the manager with a node registry *)

Module Manager.

Record Manager (R : Type) := {
  client : option OnlineClient;
  offline : option OfflineValidator;
  registry : option R
}.
Arguments client {R} m.
Arguments offline {R} m.
Arguments registry {R} m.

Definition ValidateAndEnforce `{GoLib} {R} `{NodeRegistry R}
  (m : Manager R) (h : Host) (licenseKey : string) : IO (Result LicenseInfo) :=
  match client m with
  | None => ret (Err (fmtError "online client is required for ValidateAndEnforce"))
  | Some c =>
      (* 1. Generate fingerprint *)
      match GenerateFingerprint h with
      | Err err => ret (Err (Errorf_prefix "generate fingerprint: " err))
      | Ok fingerprint =>
          (* 2. Validate license *)
          r <- Validate c {| req_LicenseKey := licenseKey;
                             req_Fingerprint := fingerprint;
                             req_Version := "" |} ;;
          match r with
          | Err err => ret (Err (Errorf_prefix "validate license: " err))
          | Ok resp =>
              if negb (Valid resp) then
                ret (Ok {| info_Valid := false; info_LicenseKey := licenseKey;
                           info_Plan := ""; info_Features := None;
                           info_ExpiresAt := None; info_Fingerprint := fingerprint;
                           info_NodeCount := 0 |})
              else
                (* 3. Extract hardware limits *)
                let limits := ExtractHardwareLimits (resp_Features resp) in
                (* 4. Check CPU *)
                match CheckCPU h limits with
                | Some err => ret (Err err)
                | None =>
                    let info count :=
                      {| info_Valid := true; info_LicenseKey := licenseKey;
                         info_Plan := ""; info_Features := resp_Features resp;
                         info_ExpiresAt := ExpiresAt resp;
                         info_Fingerprint := fingerprint;
                         info_NodeCount := count |} in
                    (* 5 & 6. Node registry operations (if configured) *)
                    match registry m with
                    | None => ret (Ok (info 0))
                    | Some reg =>
                        let hostname :=
                          match os_Hostname h with
                          | Ok name => name
                          | Err _ => ""
                          end in
                        let node :=
                          {| Fingerprint := fingerprint; Hostname := hostname;
                             IP := ""; OS := runtime_GOOS h;
                             LicenseKey := licenseKey;
                             RegisteredAt := 0; LastSeenAt := 0 |} in
                        registered <- on_conn (CallRegister node)
                                        (Register reg (time_Now h) node) ;;
                        match registered with
                        | Err err => ret (Err (Errorf_prefix "register node: " err))
                        | Ok _ =>
                            counted <- on_conn (CallCount licenseKey)
                                         (Count reg licenseKey) ;;
                            match counted with
                            | Err err => ret (Err (Errorf_prefix "count nodes: " err))
                            | Ok count =>
                                match CheckNodeCount limits count with
                                | Some err =>
                                    (* Deregister this node since we exceeded the
                                       limit; the error of Deregister is dropped *)
                                    _ <- on_conn (CallDeregister fingerprint)
                                           (Deregister reg fingerprint) ;;
                                    ret (Err err)
                                | None => ret (Ok (info count))
                                end
                            end
                        end
                    end
                end
          end
      end
  end.

Definition ActivateNode `{GoLib} {R} `{NodeRegistry R}
  (m : Manager R) (h : Host) (licenseKey : string) : IO (Result ActivateResponse) :=
  match client m with
  | None => ret (Err (fmtError "online client is required for ActivateNode"))
  | Some c =>
      match GenerateFingerprint h with
      | Err err => ret (Err (Errorf_prefix "generate fingerprint: " err))
      | Ok fingerprint =>
          let hostname :=
            match os_Hostname h with
            | Ok name => name
            | Err _ => ""
            end in
          r <- Activate c {| act_LicenseKey := licenseKey;
                             act_Fingerprint := fingerprint;
                             act_Hostname := hostname; act_IP := "";
                             act_OS := runtime_GOOS h |} ;;
          match r with
          | Err err => ret (Err err)
          | Ok activation =>
              match registry m with
              | None => ret (Ok activation)
              | Some reg =>
                  let node :=
                    {| Fingerprint := fingerprint; Hostname := hostname;
                       IP := ""; OS := runtime_GOOS h; LicenseKey := licenseKey;
                       RegisteredAt := 0; LastSeenAt := 0 |} in
                  registered <- on_conn (CallRegister node)
                                  (Register reg (time_Now h) node) ;;
                  match registered with
                  | Err err => ret (Err (Errorf_prefix "register node: " err))
                  | Ok _ => ret (Ok activation)
                  end
              end
          end
      end
  end.

Definition Shutdown `{GoLib} {R} `{NodeRegistry R} (m : Manager R) (h : Host)
  : IO (option error) :=
  match registry m with
  | None => ret None
  | Some reg =>
      match GenerateFingerprint h with
      | Err err => ret (Some (Errorf_prefix "generate fingerprint: " err))
      | Ok fingerprint =>
          on_conn (CallDeregister fingerprint) (Deregister reg fingerprint)
      end
  end.

End Manager.

(** ** The manager with a client-level fingerprint (no node registry) *)

Module ManagerLite.

Record Manager := {
  client : option OnlineClient;
  offline : option OfflineValidator
}.

Definition resolveFingerprint `{GoLib} (m : Manager) (h : Host) : Result string :=
  match client m with
  | Some c =>
      let fp := Fingerprint_of c in
      if negb (fp =? "")%string then Ok fp else GenerateFingerprint h
  | None => GenerateFingerprint h
  end.

Definition ValidateAndEnforce `{GoLib} (m : Manager) (h : Host) (licenseKey : string)
  : IO (Result LicenseInfo) :=
  match client m with
  | None => ret (Err (fmtError "online client is required for ValidateAndEnforce"))
  | Some c =>
      (* 1. Resolve fingerprint *)
      match resolveFingerprint m h with
      | Err err => ret (Err (Errorf_prefix "resolve fingerprint: " err))
      | Ok fingerprint =>
          (* 2. Validate license *)
          r <- Validate c {| req_LicenseKey := licenseKey;
                             req_Fingerprint := fingerprint;
                             req_Version := "" |} ;;
          match r with
          | Err err => ret (Err (Errorf_prefix "validate license: " err))
          | Ok resp =>
              if negb (Valid resp) then
                ret (Ok {| info_Valid := false; info_LicenseKey := licenseKey;
                           info_Plan := ""; info_Features := None;
                           info_ExpiresAt := None; info_Fingerprint := fingerprint;
                           info_NodeCount := 0 |})
              else
                (* 3. Extract hardware limits *)
                let limits := ExtractHardwareLimits (resp_Features resp) in
                (* 4. Check CPU *)
                match CheckCPU h limits with
                | Some err => ret (Err err)
                | None =>
                    ret (Ok {| info_Valid := true; info_LicenseKey := licenseKey;
                               info_Plan := Plan resp;
                               info_Features := resp_Features resp;
                               info_ExpiresAt := ExpiresAt resp;
                               info_Fingerprint := fingerprint;
                               info_NodeCount := 0 |})
                end
          end
      end
  end.

Definition ActivateNode `{GoLib} (m : Manager) (h : Host) (licenseKey : string)
  : IO (Result ActivateResponse) :=
  match client m with
  | None => ret (Err (fmtError "online client is required for ActivateNode"))
  | Some c =>
      match resolveFingerprint m h with
      | Err err => ret (Err (Errorf_prefix "resolve fingerprint: " err))
      | Ok fingerprint =>
          Activate c {| act_LicenseKey := licenseKey; act_Fingerprint := fingerprint;
                        act_Hostname := ""; act_IP := ""; act_OS := "" |}
      end
  end.

End ManagerLite.

(** ** Stand-ins for running the definitions

    Small replacements for the standard library, a host, a server and a
    table, on which the definitions above evaluate.  They serve the examples
    of the last part; no general theorem depends on them. *)

Module Fixture.

Definition T_key : string := "TTTTTTTTTTTTTTTTTTTTTTTTTTTTTTTT".

Definition E_key : string := "EEEEEEEEEEEEEEEEEEEEEEEEEEEEEEEE".

Definition payload : list Byte.byte := list_byte_of_string "{plan:pro}".

Definition license_data (expires : Time) : OfflineLicenseData :=
  {| data_LicenseKey := "CNW-1"; data_CompanyID := "c1"; data_AppID := "a1";
     data_Plan := "pro";
     data_Features := Some {[ "max_nodes" := Float64 2 0 ]};
     data_ExpiresAt := expires; data_IssuedAt := 10 |}.

(** A file whose payload is signed under [signer] and which embeds [E_key]. *)
Definition file_signed_by (signer : string) : OfflineLicenseFile :=
  {| License := payload;
     Signature := signer +:+ string_of_list_byte payload;
     PublicKey := E_key |}.

Definition valid_features : Features := Some {[ "max_nodes" := Float64 2 0 ]}.

(** - base64: every character stands for one byte;
    - signatures: the signature of [m] under the key [k] is [k ++ m];
    - the file decoder reads the signer off the first byte ('T' or not);
    - the payload decoder yields a payload that expires at instant 100;
    - the response decoder reads validity off the first byte ('1' or not);
    - the other decoders reject every input;
    - every URL makes a request;
    - the clock ticks no faster than the stores count: a duration is a number
      of ticks, and both stores keep an instant as the clock reads it. *)
#[export] Instance lib : GoLib := {
  sha256_hex := fun s => "sha256:" +:+ s;
  strings_TrimSpace := fun s => s;
  base64_DecodeString := fun s => Ok (list_byte_of_string s);
  ed25519_Verify := fun k m sig =>
    (string_of_list_byte sig =? string_of_list_byte (k ++ m))%string;
  Unmarshal_OfflineLicenseFile := fun raw =>
    match raw with
    | [] => Err "unexpected end of JSON input"
    | b :: _ =>
        if Byte.eqb b "T"%byte then Ok (file_signed_by T_key)
        else Ok (file_signed_by E_key)
    end;
  Unmarshal_OfflineLicenseData := fun _ => Ok (license_data 100);
  Unmarshal_ValidateResponse := fun body =>
    match body with
    | [] => Err "unexpected end of JSON input"
    | b :: _ =>
        if Byte.eqb b "1"%byte then
          Ok {| Valid := true; Reason := ""; Plan := "pro"; ExpiresAt := None;
                resp_Features := valid_features; ActivationRemaining := 3 |}
        else
          Ok {| Valid := false; Reason := "license not found"; Plan := "";
                ExpiresAt := None; resp_Features := None;
                ActivationRemaining := 0 |}
    end;
  Unmarshal_ActivateResponse := fun _ => Err "unexpected end of JSON input";
  Unmarshal_errResp := fun _ => Err "unexpected end of JSON input";
  string_of_bytes := string_of_list_byte;
  http_NewRequest := fun _ => None;
  time_Add := fun t d => t + d;
  pgx_timestamptz := fun t => t;
  bson_DateTime := fun t => t
}.

(** A server that answers 200 with the given body. *)
Definition answer (body : string) : HttpRequest -> Lib HttpResponse :=
  fun _ => Ok {| http_StatusCode := 200; http_Body := Ok (list_byte_of_string body) |}.

Definition online (body fp : string) : OnlineClient :=
  {| serverURL := "https://license.example.com"; apiKey := "k";
     httpClient_Do := answer body; timeout := 10;
     userAgent := "cnw-license-sdk-go/1.0"; fingerprint := fp |}.

(** A host with four CPUs whose clock reads [now]; [env] is the value of
    CNW_FINGERPRINT. *)
Definition host (env : string) (now : Time) : Host :=
  {| os_Getenv_CNW_FINGERPRINT := env; os_Hostname := Ok "worker-03";
     net_Interfaces := Ok [ {| loopback := true; HardwareAddr := "" |};
                            {| loopback := false; HardwareAddr := "02:42:ac:11:00:02" |} ];
     runtime_GOOS := "linux"; runtime_GOARCH := "amd64";
     os_ReadFile_machine_id := Err "open /etc/machine-id: no such file or directory";
     runtime_NumCPU := 4; time_Now := now |}.

Definition node (fp key : string) (registered seen : Time) : NodeInfo :=
  {| Fingerprint := fp; Hostname := "h-" +:+ fp; IP := ""; OS := "linux";
     LicenseKey := key; RegisteredAt := registered; LastSeenAt := seen |}.

Definition pg : PostgresRegistry := {| tableName := "cnw_license_nodes" |}.

Definition mongo : MongoRegistry := {| collectionName := "cnw_license_nodes" |}.

Definition world (rs : list NodeInfo) (fs : list (option string)) : World :=
  {| conn := {| rows := rs; faults := fs |}; trace := [] |}.

Definition empty_conn : Conn := {| rows := []; faults := [] |}.

(** Two hosts register under the license "K" through the MongoDB backend:
    node-a first, at an instant its clock reads as 10; node-b second, at an
    instant its own clock reads as 5; node-b registers again when its clock
    reads 20. *)
Definition skewed_clocks : Conn :=
  snd (Register mongo 20 (node "node-b" "K" 0 0)
         (snd (Register mongo 5 (node "node-b" "K" 0 0)
                 (snd (Register mongo 10 (node "node-a" "K" 0 0) empty_conn))))).

End Fixture.

(** ** Vocabulary of the offline statements *)

(** The envelope [raw] decodes to [file], which has a payload and a
    signature. *)
Definition well_formed_envelope `{GoLib} (raw : list Byte.byte) (file : OfflineLicenseFile)
  : Prop :=
  Unmarshal_OfflineLicenseFile raw = Ok file /\
  License file <> [] /\
  Signature file <> "".

(** The base64 text [key] is not empty and decodes to a public key of the
    size Ed25519 requires. *)
Definition usable_key `{GoLib} (key : string) (pubKeyBytes : list Byte.byte) : Prop :=
  key <> "" /\
  base64_DecodeString key = Ok pubKeyBytes /\
  Z.of_nat (length pubKeyBytes) = PublicKeySize.

(** The signature of [file] decodes and is valid for the raw payload under
    [key]. *)
Definition signed_under `{GoLib} (file : OfflineLicenseFile) (key : string) : Prop :=
  exists pubKeyBytes sigBytes,
    usable_key key pubKeyBytes /\
    base64_DecodeString (Signature file) = Ok sigBytes /\
    ed25519_Verify pubKeyBytes (License file) sigBytes = true.

(** The signature of [file] decodes but is not valid for the raw payload
    under [key]. *)
Definition not_signed_under `{GoLib} (file : OfflineLicenseFile) (key : string) : Prop :=
  exists pubKeyBytes sigBytes,
    usable_key key pubKeyBytes /\
    base64_DecodeString (Signature file) = Ok sigBytes /\
    ed25519_Verify pubKeyBytes (License file) sigBytes = false.

(** ** Vocabulary of the registry statements *)

(** The records of [l] filed under the fingerprint [fp]. *)
Definition records_of (fp : string) (l : list NodeInfo) : list NodeInfo :=
  filter (fun n => has_fingerprint fp n = true) l.

(** The upsert both stores perform on their records, [stamp] being the
    instant of the call as the store keeps it. *)
Definition upsert (stamp : Time) (node : NodeInfo) (l : list NodeInfo)
  : NodeInfo * list NodeInfo :=
  match update_first (has_fingerprint (Fingerprint node))
          (fun old =>
             {| Fingerprint := Fingerprint old; Hostname := Hostname node;
                IP := IP node; OS := OS node; LicenseKey := LicenseKey node;
                RegisteredAt := RegisteredAt old; LastSeenAt := stamp |}) l with
  | Some (new, l') => (new, l')
  | None =>
      let new :=
        {| Fingerprint := Fingerprint node; Hostname := Hostname node;
           IP := IP node; OS := OS node; LicenseKey := LicenseKey node;
           RegisteredAt := stamp; LastSeenAt := stamp |} in
      (new, l ++ [new])
  end.

(** What two successful registrations of one fingerprint leave behind:
    [s1] and [s2] are the records the two calls returned, [c0] and [c2] the
    connection before the first and after the second call, [t1] and [t2] the
    instants of the two calls as the store keeps them. *)
Definition upserted_twice (c0 : Conn) (t1 t2 : Time) (n2 : NodeInfo)
  (s1 s2 : NodeInfo) (c2 : Conn) : Prop :=
  records_of (Fingerprint n2) (rows c2) = [s2] /\
  RegisteredAt s2 = RegisteredAt s1 /\
  (records_of (Fingerprint n2) (rows c0) = [] -> RegisteredAt s2 = t1) /\
  LastSeenAt s2 = t2 /\
  Fingerprint s2 = Fingerprint n2 /\
  Hostname s2 = Hostname n2 /\
  IP s2 = IP n2 /\
  OS s2 = OS n2 /\
  LicenseKey s2 = LicenseKey n2.

(** ** Vocabulary of the manager statements *)

(** The request [Validate] sends for [req] on the client [c]: the client-level
    fingerprint fills in for an empty one. *)
Definition sent_for (c : OnlineClient) (req : ValidateRequest) : ValidateRequest :=
  if (req_Fingerprint req =? "")%string && negb (fingerprint c =? "")%string then
    {| req_LicenseKey := req_LicenseKey req; req_Fingerprint := fingerprint c;
       req_Version := req_Version req |}
  else req.

(** A call of ValidateAndEnforce that took the world from [w] to [w'] went
    through validation, registered [node] under the generated fingerprint,
    counted the nodes of the license, and then called Deregister for that
    fingerprint; [conn w'] is the connection as that last call left it, and
    when that call returned nil no record with the fingerprint is left. *)
Definition rolled_back `{GoLib} {R} `{NodeRegistry R}
  (m : Manager.Manager R) (h : Host) (licenseKey : string) (w w' : World) : Prop :=
  exists reg fp node req stored registered count before dres,
    Manager.registry m = Some reg /\
    GenerateFingerprint h = Ok fp /\
    Fingerprint node = fp /\
    LicenseKey node = licenseKey /\
    trace w' = trace w ++ [HttpDo req; CallRegister node; CallCount licenseKey;
                           CallDeregister fp] /\
    Register reg (time_Now h) node (conn w) = (Ok stored, registered) /\
    Count reg licenseKey registered = (Ok count, before) /\
    Deregister reg fp before = (dres, conn w') /\
    (dres = None -> fp ∉ Fingerprint <$> rows (conn w')).


(** The LicenseInfo of an invalid license. *)
Definition invalid_info (licenseKey fp : string) : LicenseInfo :=
  {| info_Valid := false; info_LicenseKey := licenseKey; info_Plan := "";
     info_Features := None; info_ExpiresAt := None; info_Fingerprint := fp;
     info_NodeCount := 0 |}.

(** ** More of the packages *)

(** client.go: the constructor. *)

(** 10 * time.Second, a time.Duration *)
Definition defaultTimeout : Z := 10 * 1000000000.

(** strings.TrimRight(s, "/") *)
Fixpoint TrimRight_slash (s : string) : string :=
  match s with
  | EmptyString => EmptyString
  | String a rest =>
      match TrimRight_slash rest with
      | EmptyString => if Ascii.eqb a "/" then EmptyString else String a EmptyString
      | trimmed => String a trimmed
      end
  end.

Definition ClientOption : Type := OnlineClient -> OnlineClient.

(** [http_Client_Do] is the [Do] of the client the constructor makes when no
    option supplied one (&http.Client{}); its Timeout is the [timeout] of the
    result. *)
Definition NewOnlineClient (http_Client_Do : HttpRequest -> Lib HttpResponse)
  (url key : string) (opts : list ClientOption) : OnlineClient :=
  fold_left (fun c opt => opt c) opts
    {| serverURL := TrimRight_slash url; apiKey := key;
       httpClient_Do := http_Client_Do; timeout := defaultTimeout;
       userAgent := "cnw-license-sdk-go/1.0"; fingerprint := "" |}.

(** options.go: the options of the package that has the node registry. *)






(** Modelled from the spec: the option WithFingerprint of the package without
    a node registry.  client.go names it ("the fingerprint configured via
    WithFingerprint") and its declaration is not among the sources; it sets
    the client-level fingerprint, which a request without fingerprint
    defaults to. *)
Definition WithFingerprint (fp : string) : ClientOption :=
  fun o =>
    {| serverURL := serverURL o; apiKey := apiKey o; httpClient_Do := httpClient_Do o;
       timeout := timeout o; userAgent := userAgent o; fingerprint := fp |}.

(** offline.go: VerifyFile.  [readFile] is os.ReadFile on the file system of
    the host. *)
Definition VerifyFile `{GoLib} (h : Host) (readFile : string -> Lib (list Byte.byte))
  (v : OfflineValidator) (filePath : string)
  : option OfflineLicenseData * option error :=
  match ext (readFile filePath) with
  | Err err => (None, Some (Errorf_prefix "read license file: " err))
  | Ok raw => Verify h v raw
  end.

(** postgres.go and mongo.go: the constructors. *)

Definition defaultPostgresTable : string := "cnw_license_nodes".

Definition defaultMongoCollection : string := "cnw_license_nodes".

Definition in_range (lo hi a : ascii) : bool :=
  ((N_of_ascii lo <=? N_of_ascii a) && (N_of_ascii a <=? N_of_ascii hi))%N.

(** The class [a-zA-Z_] *)
Definition initial_char (a : ascii) : bool :=
  in_range "a" "z" a || in_range "A" "Z" a || Ascii.eqb a "_".

(** The class [a-zA-Z0-9_] *)
Definition word_char (a : ascii) : bool :=
  in_range "a" "z" a || in_range "A" "Z" a || in_range "0" "9" a || Ascii.eqb a "_".

Fixpoint all_chars (p : ascii -> bool) (s : string) : bool :=
  match s with
  | EmptyString => true
  | String a rest => p a && all_chars p rest
  end.

(** validIdentifier.MatchString and validCollectionName.MatchString, for the
    expression ^[a-zA-Z_][a-zA-Z0-9_]*$ on the whole text. *)
Definition validIdentifier (name : string) : bool :=
  match name with
  | EmptyString => false
  | String a rest => initial_char a && all_chars word_char rest
  end.

Definition WithTableName (name : string) (r : PostgresRegistry) : PostgresRegistry :=
  {| tableName := name |}.

Definition WithCollectionName (name : string) (r : MongoRegistry) : MongoRegistry :=
  {| collectionName := name |}.

(** CREATE TABLE IF NOT EXISTS ...; CREATE INDEX IF NOT EXISTS ...: one
    statement through the pool, which changes no record. *)
Definition ensureTable (r : PostgresRegistry) (c : Conn) : option error * Conn :=
  error_of (driver (fun tbl => (tt, tbl)) c) (fun err => err).

(** Indexes().CreateMany: one call through the driver, which changes no
    document. *)
Definition ensureIndexes (r : MongoRegistry) (c : Conn) : option error * Conn :=
  error_of (driver (fun coll => (tt, coll)) c) (fun err => err).

(** [quote] is what the verb %q prints for a string. *)
Definition NewPostgresRegistry (quote : string -> string)
  (opts : list (PostgresRegistry -> PostgresRegistry)) (c : Conn)
  : Result PostgresRegistry * Conn :=
  let r := fold_left (fun r opt => opt r) opts {| tableName := defaultPostgresTable |} in
  if negb (validIdentifier (tableName r)) then
    (Err (fmtError ("invalid table name " +:+ quote (tableName r)
                    +:+ ": must match [a-zA-Z_][a-zA-Z0-9_]*")), c)
  else
    match ensureTable r c with
    | (Some err, c') => (Err (Errorf_prefix "create table: " err), c')
    | (None, c') => (Ok r, c')
    end.

Definition NewMongoRegistry (quote : string -> string)
  (opts : list (MongoRegistry -> MongoRegistry)) (c : Conn)
  : Result MongoRegistry * Conn :=
  let r := fold_left (fun r opt => opt r) opts
             {| collectionName := defaultMongoCollection |} in
  if negb (validIdentifier (collectionName r)) then
    (Err (fmtError ("invalid collection name " +:+ quote (collectionName r)
                    +:+ ": must match [a-zA-Z_][a-zA-Z0-9_]*")), c)
  else
    match ensureIndexes r c with
    | (Some err, c') => (Err (Errorf_prefix "create indexes: " err), c')
    | (None, c') => (Ok r, c')
    end.

(** ** Vocabulary of the further statements *)

(** The number of records of [l] filed under the license [key]. *)
Definition count_of (key : string) (l : list NodeInfo) : Z :=
  Z.of_nat (length (filter (fun n => has_license key n = true) l)).

(** The records of [l] that do not carry the fingerprint [fp]. *)
Definition others_of (fp : string) (l : list NodeInfo) : list NodeInfo :=
  filter (fun n => has_fingerprint fp n = false) l.

(** The hardware addresses getMACAddresses collects from [ifaces], before it
    sorts them. *)
Definition usable_macs (ifaces : list Interface) : list string :=
  omap (fun iface =>
          if loopback iface then None
          else if (HardwareAddr iface =? "")%string then None
          else Some (HardwareAddr iface)) ifaces.

(** [h] with another answer of net.Interfaces(). *)
Definition with_interfaces (h : Host) (ifaces : Lib (list Interface)) : Host :=
  {| os_Getenv_CNW_FINGERPRINT := os_Getenv_CNW_FINGERPRINT h;
     os_Hostname := os_Hostname h;
     net_Interfaces := ifaces;
     runtime_GOOS := runtime_GOOS h;
     runtime_GOARCH := runtime_GOARCH h;
     os_ReadFile_machine_id := os_ReadFile_machine_id h;
     runtime_NumCPU := runtime_NumCPU h;
     time_Now := time_Now h |}.

(** [c] with another transport. *)
Definition with_transport (c : OnlineClient) (do : HttpRequest -> Lib HttpResponse)
  : OnlineClient :=
  {| serverURL := serverURL c; apiKey := apiKey c; httpClient_Do := do;
     timeout := timeout c; userAgent := userAgent c; fingerprint := fingerprint c |}.

(** The four kinds of error the offline verifier reports. *)
Definition offline_kinds : list Sentinel :=
  [ErrLicenseFileInvalid; ErrPublicKeyInvalid; ErrSignatureInvalid; ErrLicenseExpired].

(** The four kinds of error the server-error mapper reports. *)
Definition server_kinds : list Sentinel :=
  [ErrLicenseNotFound; ErrLicenseInactive; ErrLicenseExpired; ErrActivationLimit].

(** The request [doJSON] builds on the client [c] for [path] and [body]. *)
Definition request_for (c : OnlineClient) (path : string) (body : Payload) : HttpRequest :=
  {| URL := serverURL c +:+ path;
     ContentType := "application/json";
     X_API_Key := apiKey c;
     UserAgent := if (userAgent c =? "")%string then None else Some (userAgent c);
     Body := body |}.

(** The activation request [Activate] sends for [req] on the client [c]. *)
Definition activation_sent_for (c : OnlineClient) (req : ActivateRequest) : ActivateRequest :=
  if (act_Fingerprint req =? "")%string && negb (fingerprint c =? "")%string then
    {| act_LicenseKey := act_LicenseKey req; act_Fingerprint := fingerprint c;
       act_Hostname := act_Hostname req; act_IP := act_IP req; act_OS := act_OS req |}
  else req.

(** The error the next driver call on [c] runs into, if it does. *)
Definition next_call_fails (c : Conn) : option string :=
  match faults c with
  | Some msg :: _ => Some msg
  | _ => None
  end.

(** [c] once a driver call has been made that left the records as [rs]. *)
Definition after_call (rs : list NodeInfo) (c : Conn) : Conn :=
  {| rows := rs; faults := tail (faults c) |}.

(** The next [n] driver calls on [c] succeed. *)
Definition answers (n : nat) (c : Conn) : Prop :=
  Forall (fun f => f = None) (take n (faults c)).

(** Stand-ins for a host whose clock counts nanoseconds, with a TIMESTAMPTZ
    of microseconds and a BSON date of milliseconds, both cut off. *)
Module Coarse.

#[export] Instance lib : GoLib := {
  sha256_hex := fun s => "sha256:" +:+ s;
  strings_TrimSpace := fun s => s;
  base64_DecodeString := fun s => Ok (list_byte_of_string s);
  ed25519_Verify := fun _ _ _ => false;
  Unmarshal_OfflineLicenseFile := fun _ => Err "unexpected end of JSON input";
  Unmarshal_OfflineLicenseData := fun _ => Err "unexpected end of JSON input";
  Unmarshal_ValidateResponse := fun _ => Err "unexpected end of JSON input";
  Unmarshal_ActivateResponse := fun _ => Err "unexpected end of JSON input";
  Unmarshal_errResp := fun _ => Err "unexpected end of JSON input";
  string_of_bytes := string_of_list_byte;
  http_NewRequest := fun _ => None;
  time_Add := fun t d => t + d;
  pgx_timestamptz := fun t => 1000 * (t / 1000);
  bson_DateTime := fun t => 1000000 * (t / 1000000)
}.

End Coarse.

(** Stand-ins for a server that refuses: every error document reads
    ACTIVATION_LIMIT, and the transport answers 409. *)
Module Refusal.

#[export] Instance lib : GoLib := {
  sha256_hex := fun s => "sha256:" +:+ s;
  strings_TrimSpace := fun s => s;
  base64_DecodeString := fun s => Ok (list_byte_of_string s);
  ed25519_Verify := fun _ _ _ => false;
  Unmarshal_OfflineLicenseFile := fun _ => Err "unexpected end of JSON input";
  Unmarshal_OfflineLicenseData := fun _ => Err "unexpected end of JSON input";
  Unmarshal_ValidateResponse := fun _ => Err "unexpected end of JSON input";
  Unmarshal_ActivateResponse := fun _ => Err "unexpected end of JSON input";
  Unmarshal_errResp := fun body =>
    match body with
    | [] => Err "unexpected end of JSON input"
    | _ :: _ => Ok ("ACTIVATION_LIMIT", "activation limit reached")
    end;
  string_of_bytes := string_of_list_byte;
  http_NewRequest := fun _ => None;
  time_Add := fun t d => t + d;
  pgx_timestamptz := fun t => t;
  bson_DateTime := fun t => t
}.

Definition online : OnlineClient :=
  {| serverURL := "https://license.example.com"; apiKey := "k";
     httpClient_Do := fun _ =>
       Ok {| http_StatusCode := 409; http_Body := Ok (list_byte_of_string "{}") |};
     timeout := 10; userAgent := "cnw-license-sdk-go/1.0"; fingerprint := "" |}.

End Refusal.

(** A statement about a registry, made for both backends. *)
Definition both_backends `{GoLib} (P : forall R, NodeRegistry R -> R -> Prop) : Prop :=
  (forall r : PostgresRegistry, P PostgresRegistry _ r) /\
  (forall r : MongoRegistry, P MongoRegistry _ r).

(** What Ping does to one record. *)
Definition seen (now : Time) (fp : string) (n : NodeInfo) : NodeInfo :=
  if has_fingerprint fp n then set_LastSeenAt now n else n.

(** [res] is what a Ping for [fp] on [c] returns when it succeeds and stores
    the instant [stamp]: the record of [fp] has [stamp] as its last_seen_at
    and nothing else is changed. *)
Definition pinged (stamp : Time) (fp : string) (c : Conn) (res : option error * Conn)
  : Prop :=
  exists rs,
    res = (None, after_call rs c) /\
    records_of fp rs = set_LastSeenAt stamp <$> records_of fp (rows c) /\
    others_of fp rs = others_of fp (rows c) /\
    length rs = length (rows c) /\
    (forall key, count_of key rs = count_of key (rows c)) /\
    (records_of fp (rows c) = [] -> rs = rows c).

(** [res] is what a Prune of the license [key] on [c] returns when it
    succeeds with the cutoff [cutoff]: the records of [key] seen strictly
    before [cutoff] are gone, and no other. *)
Definition pruned (cutoff : Time) (key : string) (c : Conn) (res : Result Z * Conn)
  : Prop :=
  exists removed rs,
    res = (Ok removed, after_call rs c) /\
    (forall n, n ∈ rs <->
       n ∈ rows c /\ ~ (LicenseKey n = key /\ LastSeenAt n < cutoff)) /\
    removed = Z.of_nat (length (rows c)) - Z.of_nat (length rs) /\
    count_of key rs = count_of key (rows c) - removed /\
    (forall other, other <> key -> count_of other rs = count_of other (rows c)).

(** Stand-ins for a store: two nodes under the license "K", one under "K2";
    [healthy] answers every call, [failing] fails the next one. *)
Module Stored.

Definition nodes : list NodeInfo :=
  [Fixture.node "fp-a" "K" 10 10; Fixture.node "fp-b" "K2" 12 30;
   Fixture.node "fp-c" "K" 5 40].

Definition healthy : Conn := {| rows := nodes; faults := [] |}.

Definition failing : Conn := {| rows := nodes; faults := [Some "connection refused"] |}.

End Stored.

(** The characters of the class [a-zA-Z0-9_], by their codes. *)
Definition letter_digit_underscore (a : ascii) : Prop :=
  (48 <= N_of_ascii a <= 57 \/ 65 <= N_of_ascii a <= 90 \/
   97 <= N_of_ascii a <= 122 \/ N_of_ascii a = 95)%N.

(** The host name the manager files a node under: empty when os.Hostname
    fails. *)
Definition hostname_of (h : Host) : string :=
  match os_Hostname h with
  | Ok name => name
  | Err _ => ""
  end.

(** The node the manager with a registry hands to Register. *)
Definition node_of (h : Host) (fp licenseKey : string) : NodeInfo :=
  {| Fingerprint := fp; Hostname := hostname_of h; IP := ""; OS := runtime_GOOS h;
     LicenseKey := licenseKey; RegisteredAt := 0; LastSeenAt := 0 |}.

(** The validation request a manager makes. *)
Definition validation_of (licenseKey fp : string) : ValidateRequest :=
  {| req_LicenseKey := licenseKey; req_Fingerprint := fp; req_Version := "" |}.

(** The activation request the manager with a registry makes. *)
Definition activation_of (h : Host) (licenseKey fp : string) : ActivateRequest :=
  {| act_LicenseKey := licenseKey; act_Fingerprint := fp;
     act_Hostname := hostname_of h; act_IP := ""; act_OS := runtime_GOOS h |}.

(** Stand-ins for a server that grants a license bound to two CPUs per node
    and accepts every activation. *)
Module Granting.

Definition activation : ActivateResponse :=
  {| ID := "act-1"; LicenseID := "lic-1"; actr_Fingerprint := "node-3";
     actr_Hostname := "worker-03"; actr_IP := ""; actr_OS := "linux";
     ActivatedAt := 100; actr_LastSeenAt := 100 |}.

#[export] Instance lib : GoLib := {
  sha256_hex := fun s => "sha256:" +:+ s;
  strings_TrimSpace := fun s => s;
  base64_DecodeString := fun s => Ok (list_byte_of_string s);
  ed25519_Verify := fun _ _ _ => false;
  Unmarshal_OfflineLicenseFile := fun _ => Err "unexpected end of JSON input";
  Unmarshal_OfflineLicenseData := fun _ => Err "unexpected end of JSON input";
  Unmarshal_ValidateResponse := fun _ =>
    Ok {| Valid := true; Reason := ""; Plan := "pro"; ExpiresAt := None;
          resp_Features := Some {[ "max_cpu_per_node" := Float64 2 0 ]};
          ActivationRemaining := 3 |};
  Unmarshal_ActivateResponse := fun _ => Ok activation;
  Unmarshal_errResp := fun _ => Err "unexpected end of JSON input";
  string_of_bytes := string_of_list_byte;
  http_NewRequest := fun _ => None;
  time_Add := fun t d => t + d;
  pgx_timestamptz := fun t => t;
  bson_DateTime := fun t => t
}.

End Granting.

(** * Theorems *)

(** ** Error mapping *)

Lemma errors_Is_mapped (s t : Sentinel) (se : ServerError) :
  errors_Is (mappedError (Sentinel_ s) se) t = bool_decide (t = s).
Proof.
  simpl. destruct (decide (s = t)) as [->|Hne].
  - rewrite !bool_decide_eq_true_2 by done. reflexivity.
  - rewrite !bool_decide_eq_false_2 by congruence. reflexivity.
Qed.

Lemma errors_Is_wrap (msg : string) (inner : error) (t : Sentinel) :
  errors_Is (wrapError msg inner) t = errors_Is inner t.
Proof. reflexivity. Qed.

Lemma errors_Is_Errorf_w (s t : Sentinel) (rest : string) :
  errors_Is (Errorf_w (Sentinel_ s) rest) t = bool_decide (s = t).
Proof.
  unfold Errorf_w. rewrite errors_Is_wrap. simpl. apply orb_false_r.
Qed.

Lemma mapServerError_cases (se : ServerError) :
  mapServerError se = Server se \/
  exists s, mapServerError se = mappedError (Sentinel_ s) se.
Proof.
  unfold mapServerError.
  repeat match goal with |- context [if ?b then _ else _] => destruct b end;
    eauto.
Qed.

(** C3. mapServerError follows the mapping table row by row: NOT_FOUND gives
    LicenseNotFound, FORBIDDEN gives LicenseExpired when the message is
    "license expired" and LicenseInactive otherwise, ACTIVATION_LIMIT gives
    ActivationLimit, and any other code gives back the ServerError itself.
    A mapped result answers errors.Is for its sentinel (and for no other
    sentinel), and every result answers errors.As with the original status,
    code and message. *)
Theorem C3_mapServerError_table (se : ServerError) :
  (Code se = "NOT_FOUND" ->
     mapServerError se = mappedError (Sentinel_ ErrLicenseNotFound) se /\
     forall t, errors_Is (mapServerError se) t = bool_decide (t = ErrLicenseNotFound)) /\
  (Code se = "FORBIDDEN" -> Message se = "license expired" ->
     mapServerError se = mappedError (Sentinel_ ErrLicenseExpired) se /\
     forall t, errors_Is (mapServerError se) t = bool_decide (t = ErrLicenseExpired)) /\
  (Code se = "FORBIDDEN" -> Message se <> "license expired" ->
     mapServerError se = mappedError (Sentinel_ ErrLicenseInactive) se /\
     forall t, errors_Is (mapServerError se) t = bool_decide (t = ErrLicenseInactive)) /\
  (Code se = "ACTIVATION_LIMIT" ->
     mapServerError se = mappedError (Sentinel_ ErrActivationLimit) se /\
     forall t, errors_Is (mapServerError se) t = bool_decide (t = ErrActivationLimit)) /\
  (Code se <> "NOT_FOUND" -> Code se <> "FORBIDDEN" -> Code se <> "ACTIVATION_LIMIT" ->
     mapServerError se = Server se /\
     forall t, errors_Is (mapServerError se) t = false) /\
  errors_As (mapServerError se) = Some se.
Proof.
  assert (Hneq : forall a b : string, a <> b -> (a =? b)%string = false)
    by (intros a b; apply String.eqb_neq).
  assert (Hrow : forall s, mapServerError se = mappedError (Sentinel_ s) se ->
            mapServerError se = mappedError (Sentinel_ s) se /\
            forall t, errors_Is (mapServerError se) t = bool_decide (t = s)).
  { intros s Heq. split; [exact Heq |].
    intros t. rewrite Heq. apply errors_Is_mapped. }
  split; [| split; [| split; [| split; [| split]]]].
  - intros Hc. apply Hrow. unfold mapServerError. rewrite Hc. reflexivity.
  - intros Hc Hm. apply Hrow. unfold mapServerError. rewrite Hc, Hm. reflexivity.
  - intros Hc Hm. apply Hrow. unfold mapServerError.
    rewrite Hc, (Hneq _ _ Hm). reflexivity.
  - intros Hc. apply Hrow. unfold mapServerError. rewrite Hc. reflexivity.
  - intros H1 H2 H3.
    assert (Heq : mapServerError se = Server se).
    { unfold mapServerError.
      rewrite (Hneq _ _ H1), (Hneq _ _ H2), (Hneq _ _ H3). reflexivity. }
    split; [exact Heq | intros t; rewrite Heq; reflexivity].
  - destruct (mapServerError_cases se) as [-> | [s ->]]; reflexivity.
Qed.

(** The server's 409 ACTIVATION_LIMIT answer, through the theorem. *)
Lemma C3_mapServerError_table_witness :
  let se := {| StatusCode := 409; Code := "ACTIVATION_LIMIT"; Message := "limit" |} in
  errors_Is (mapServerError se) ErrActivationLimit = true /\
  errors_As (mapServerError se) = Some se.
Proof.
  intros se.
  destruct (C3_mapServerError_table se) as (_ & _ & _ & Hact & _ & Has).
  split.
  - destruct (Hact eq_refl) as [_ His]. rewrite His. reflexivity.
  - exact Has.
Defined.

(** ** Hardware limits *)

Lemma CheckNodeCount_unlimited (limits : HardwareLimits) (count : Z) :
  MaxNodes limits <= 0 -> CheckNodeCount limits count = None.
Proof.
  intros Hle. unfold CheckNodeCount.
  destruct (Z.leb_spec (MaxNodes limits) 0); [reflexivity | lia].
Qed.

Lemma CheckCPU_unlimited (h : Host) (limits : HardwareLimits) :
  MaxCPUPerNode limits <= 0 -> CheckCPU h limits = None.
Proof.
  intros Hle. unfold CheckCPU.
  destruct (Z.leb_spec (MaxCPUPerNode limits) 0); [reflexivity | lia].
Qed.

Lemma CheckNodeCount_within (limits : HardwareLimits) (count : Z) :
  count <= MaxNodes limits -> CheckNodeCount limits count = None.
Proof.
  intros Hle. unfold CheckNodeCount.
  destruct (Z.leb_spec (MaxNodes limits) 0); [reflexivity |].
  destruct (Z.gtb_spec count (MaxNodes limits)); [lia | reflexivity].
Qed.

Lemma CheckNodeCount_exceeded (limits : HardwareLimits) (count : Z) :
  0 < MaxNodes limits -> MaxNodes limits < count ->
  CheckNodeCount limits count =
    Some (wrapError ("node limit exceeded: " +:+ pretty count
                     +:+ " nodes active, limit is " +:+ pretty (MaxNodes limits))
            (Sentinel_ ErrNodeLimitExceeded)).
Proof.
  intros Hpos Hlt. unfold CheckNodeCount.
  destruct (Z.leb_spec (MaxNodes limits) 0); [lia |].
  destruct (Z.gtb_spec count (MaxNodes limits)); [reflexivity | lia].
Qed.

Lemma CheckCPU_within (h : Host) (limits : HardwareLimits) :
  runtime_NumCPU h <= MaxCPUPerNode limits -> CheckCPU h limits = None.
Proof.
  intros Hle. unfold CheckCPU.
  destruct (Z.leb_spec (MaxCPUPerNode limits) 0); [reflexivity |].
  destruct (Z.gtb_spec (runtime_NumCPU h) (MaxCPUPerNode limits)); [lia | reflexivity].
Qed.

Lemma CheckCPU_exceeded (h : Host) (limits : HardwareLimits) :
  0 < MaxCPUPerNode limits -> MaxCPUPerNode limits < runtime_NumCPU h ->
  CheckCPU h limits =
    Some (wrapError ("CPU limit exceeded: machine has " +:+ pretty (runtime_NumCPU h)
                     +:+ " CPUs, limit is " +:+ pretty (MaxCPUPerNode limits))
            (Sentinel_ ErrCPULimitExceeded)).
Proof.
  intros Hpos Hlt. unfold CheckCPU.
  destruct (Z.leb_spec (MaxCPUPerNode limits) 0); [lia |].
  destruct (Z.gtb_spec (runtime_NumCPU h) (MaxCPUPerNode limits)); [reflexivity | lia].
Qed.

(** The only error CheckNodeCount makes is the node-limit one, and it makes it
    only for a positive limit that the count exceeds. *)
Lemma CheckNodeCount_Some (limits : HardwareLimits) (count : Z) (e : error) :
  CheckNodeCount limits count = Some e ->
  0 < MaxNodes limits < count /\ errors_Is e ErrNodeLimitExceeded = true /\
  forall t, errors_Is e t = bool_decide (ErrNodeLimitExceeded = t).
Proof.
  unfold CheckNodeCount.
  destruct (Z.leb_spec (MaxNodes limits) 0); [discriminate |].
  destruct (Z.gtb_spec count (MaxNodes limits)); [| discriminate].
  intros [= <-]. split; [lia |]. split.
  - rewrite errors_Is_Errorf_w. reflexivity.
  - intros t. apply errors_Is_Errorf_w.
Qed.

Lemma CheckCPU_Some (h : Host) (limits : HardwareLimits) (e : error) :
  CheckCPU h limits = Some e ->
  forall t, errors_Is e t = bool_decide (ErrCPULimitExceeded = t).
Proof.
  unfold CheckCPU.
  destruct (Z.leb_spec (MaxCPUPerNode limits) 0); [discriminate |].
  destruct (Z.gtb_spec (runtime_NumCPU h) (MaxCPUPerNode limits)); [| discriminate].
  intros [= <-] t. apply errors_Is_Errorf_w.
Qed.

(** C8. With a limit N > 0: a count equal to N passes, every count up to N
    passes, and a count above N fails with the semantic error of the check
    (NodeLimitExceeded for CheckNodeCount, CPULimitExceeded for CheckCPU on the
    host's CPU count), whose message carries the count and the limit.  With
    limit 0 both checks pass whatever the count. *)
Theorem C8_limit_boundary (h : Host) (N count other : Z) :
  0 < N ->
  let nodes := {| MaxCPUPerNode := other; MaxNodes := N |} in
  let cpus := {| MaxCPUPerNode := N; MaxNodes := other |} in
  CheckNodeCount nodes N = None /\
  (count <= N -> CheckNodeCount nodes count = None) /\
  (N < count ->
     exists e, CheckNodeCount nodes count = Some e /\
       errors_Is e ErrNodeLimitExceeded = true /\
       Error e = "node limit exceeded: " +:+ pretty count
                 +:+ " nodes active, limit is " +:+ pretty N) /\
  (runtime_NumCPU h = N -> CheckCPU h cpus = None) /\
  (runtime_NumCPU h <= N -> CheckCPU h cpus = None) /\
  (N < runtime_NumCPU h ->
     exists e, CheckCPU h cpus = Some e /\
       errors_Is e ErrCPULimitExceeded = true /\
       Error e = "CPU limit exceeded: machine has " +:+ pretty (runtime_NumCPU h)
                 +:+ " CPUs, limit is " +:+ pretty N) /\
  CheckNodeCount {| MaxCPUPerNode := other; MaxNodes := 0 |} count = None /\
  CheckCPU h {| MaxCPUPerNode := 0; MaxNodes := other |} = None.
Proof.
  intros Hpos nodes cpus.
  split; [apply CheckNodeCount_within; simpl; lia |].
  split; [intros Hle; apply CheckNodeCount_within; simpl; lia |].
  split.
  { intros Hlt. eexists. split; [apply CheckNodeCount_exceeded; simpl; lia |].
    split; reflexivity. }
  split; [intros Heq; apply CheckCPU_within; simpl; lia |].
  split; [intros Hle; apply CheckCPU_within; simpl; lia |].
  split.
  { intros Hlt. eexists. split; [apply CheckCPU_exceeded; simpl; lia |].
    split; reflexivity. }
  split; [apply CheckNodeCount_unlimited; simpl; lia |].
  apply CheckCPU_unlimited; simpl; lia.
Qed.

(** Limit 5 on a host with four CPUs: five nodes pass, six do not. *)
Lemma C8_limit_boundary_witness :
  CheckNodeCount {| MaxCPUPerNode := 0; MaxNodes := 5 |} 5 = None /\
  (exists e, CheckNodeCount {| MaxCPUPerNode := 0; MaxNodes := 5 |} 6 = Some e /\
     errors_Is e ErrNodeLimitExceeded = true /\
     Error e = "node limit exceeded: 6 nodes active, limit is 5") /\
  CheckCPU (Fixture.host "" 0) {| MaxCPUPerNode := 5; MaxNodes := 0 |} = None.
Proof.
  assert (Hpos : 0 < 5) by lia.
  destruct (C8_limit_boundary (Fixture.host "" 0) 5 6 0 Hpos)
    as (Heq & _ & Hgt & _ & Hcpu & _).
  split; [exact Heq |].
  split; [apply Hgt; lia |].
  apply Hcpu. simpl. lia.
Defined.

(** C10. A limit that is zero or negative switches the check off: CheckCPU and
    CheckNodeCount return nil for every count.  ExtractHardwareLimits does
    produce negative limits: the JSON number -3.5 becomes -3. *)
Theorem C10_nonpositive_limit_is_unlimited
  (h : Host) (limit other count : Z) :
  limit <= 0 ->
  CheckNodeCount {| MaxCPUPerNode := other; MaxNodes := limit |} count = None /\
  CheckCPU h {| MaxCPUPerNode := limit; MaxNodes := other |} = None /\
  CheckNodeCount {| MaxCPUPerNode := other; MaxNodes := limit |} count =
    CheckNodeCount {| MaxCPUPerNode := other; MaxNodes := 0 |} count /\
  CheckCPU h {| MaxCPUPerNode := limit; MaxNodes := other |} =
    CheckCPU h {| MaxCPUPerNode := 0; MaxNodes := other |} /\
  ExtractHardwareLimits
    (Some {[ "max_nodes" := Float64 (-7) (-1); "max_cpu_per_node" := Float64 (-7) (-1) ]})
  = {| MaxCPUPerNode := -3; MaxNodes := -3 |}.
Proof.
  intros Hle.
  assert (Hn : forall k, k <= 0 ->
            CheckNodeCount {| MaxCPUPerNode := other; MaxNodes := k |} count = None)
    by (intros k Hk; apply CheckNodeCount_unlimited; simpl; lia).
  assert (Hc : forall k, k <= 0 ->
            CheckCPU h {| MaxCPUPerNode := k; MaxNodes := other |} = None)
    by (intros k Hk; apply CheckCPU_unlimited; simpl; lia).
  split; [apply Hn, Hle |].
  split; [apply Hc, Hle |].
  split; [rewrite (Hn limit Hle), (Hn 0) by lia; reflexivity |].
  split; [rewrite (Hc limit Hle), (Hc 0) by lia; reflexivity |].
  vm_compute. reflexivity.
Qed.

(** A limit of -3 against a hundred nodes and four CPUs. *)
Lemma C10_nonpositive_limit_is_unlimited_witness :
  CheckNodeCount {| MaxCPUPerNode := 0; MaxNodes := -3 |} 100 = None /\
  CheckCPU (Fixture.host "" 0) {| MaxCPUPerNode := -3; MaxNodes := 0 |} = None.
Proof.
  assert (Hle : -3 <= 0) by lia.
  destruct (C10_nonpositive_limit_is_unlimited (Fixture.host "" 0) (-3) 0 100 Hle)
    as (Hn & Hc & _).
  split; [exact Hn | exact Hc].
Defined.

(** ** Offline verification *)

Section OfflineVerifier.
Context `{GoLib}.

Lemma resolvePublicKey_trusted (v : OfflineValidator) (file : OfflineLicenseFile) :
  trustedPublicKey v <> "" -> resolvePublicKey v file = trustedPublicKey v.
Proof.
  intros Hne. unfold resolvePublicKey.
  apply String.eqb_neq in Hne. rewrite Hne. reflexivity.
Qed.

Lemma resolvePublicKey_embedded (v : OfflineValidator) (file : OfflineLicenseFile) :
  trustedPublicKey v = "" -> resolvePublicKey v file = PublicKey file.
Proof. intros Heq. unfold resolvePublicKey. rewrite Heq. reflexivity. Qed.

Lemma length_zero_false {A} (l : list A) :
  l <> [] -> (Z.of_nat (length l) =? 0) = false.
Proof.
  intros Hne. destruct l as [|a l]; [congruence |].
  apply Z.eqb_neq. simpl length. lia.
Qed.

(** Verify from the signature check on, once the envelope and the resolved
    key have passed the earlier steps. *)
Lemma Verify_from_signature (h : Host) (v : OfflineValidator) (raw : list Byte.byte)
  (file : OfflineLicenseFile) (pubKeyBytes sigBytes : list Byte.byte) :
  well_formed_envelope raw file ->
  usable_key (resolvePublicKey v file) pubKeyBytes ->
  base64_DecodeString (Signature file) = Ok sigBytes ->
  Verify h v raw =
    if negb (ed25519_Verify pubKeyBytes (License file) sigBytes) then
      (None, Some (Sentinel_ ErrSignatureInvalid))
    else
      match ext (Unmarshal_OfflineLicenseData (License file)) with
      | Err err =>
          (None, Some (Errorf_w (Sentinel_ ErrLicenseFileInvalid)
                         (": parse license data: " +:+ Error err)))
      | Ok data =>
          if negb (IsZero (data_ExpiresAt data))
             && Before (data_ExpiresAt data) (time_Now h) then
            (Some data, Some (Sentinel_ ErrLicenseExpired))
          else (Some data, None)
      end.
Proof.
  intros (Hfile & Hlic & Hsig) (Hkey & Hdec & Hlen) Hsigdec.
  unfold Verify. rewrite Hfile. cbn [ext].
  rewrite (length_zero_false _ Hlic).
  apply String.eqb_neq in Hsig, Hkey. rewrite Hsig, Hkey. cbn [orb].
  rewrite Hdec. cbn [ext].
  apply Z.eqb_eq in Hlen. rewrite Hlen. cbn [negb].
  rewrite Hsigdec. cbn [ext]. reflexivity.
Qed.

(** C1. With a non-empty trusted key T, Verify resolves the key to T and the
    embedded public_key plays no part: two envelopes that differ only in the
    embedded key get the same result; a payload whose signature is valid under
    T (and that parses and is not expired) is returned with no error; a payload
    whose signature is not valid under T fails with SignatureInvalid, whatever
    key is embedded and whether or not the signature is valid under it. *)
Theorem C1_trusted_key_precedence (h : Host) (v : OfflineValidator)
  (raw : list Byte.byte) (file : OfflineLicenseFile) (data : OfflineLicenseData) :
  trustedPublicKey v <> "" ->
  Unmarshal_OfflineLicenseFile raw = Ok file ->
  resolvePublicKey v file = trustedPublicKey v /\
  (forall raw' file',
     Unmarshal_OfflineLicenseFile raw' = Ok file' ->
     License file' = License file -> Signature file' = Signature file ->
     Verify h v raw' = Verify h v raw) /\
  (well_formed_envelope raw file ->
   signed_under file (trustedPublicKey v) ->
   Unmarshal_OfflineLicenseData (License file) = Ok data ->
   data_ExpiresAt data = 0 \/ time_Now h <= data_ExpiresAt data ->
   Verify h v raw = (Some data, None)) /\
  (well_formed_envelope raw file ->
   not_signed_under file (trustedPublicKey v) ->
   Verify h v raw = (None, Some (Sentinel_ ErrSignatureInvalid))).
Proof.
  intros Htrusted Hfile.
  split; [apply resolvePublicKey_trusted, Htrusted |].
  split; [| split].
  - intros raw' file' Hfile' Hlic Hsig.
    unfold Verify. rewrite Hfile, Hfile'. cbn [ext].
    rewrite !resolvePublicKey_trusted by exact Htrusted.
    rewrite Hlic, Hsig. reflexivity.
  - intros Hwf (pk & sg & Hkey & Hsg & Hver) Hdata Hfresh.
    rewrite <- (resolvePublicKey_trusted v file Htrusted) in Hkey.
    rewrite (Verify_from_signature h v raw file pk sg Hwf Hkey Hsg).
    rewrite Hver, Hdata. cbn [negb ext].
    unfold IsZero, Before.
    destruct Hfresh as [Hzero | Hlater].
    + rewrite Hzero. reflexivity.
    + destruct (Z.ltb_spec (data_ExpiresAt data) (time_Now h)); [lia |].
      rewrite andb_false_r. reflexivity.
  - intros Hwf (pk & sg & Hkey & Hsg & Hver).
    rewrite <- (resolvePublicKey_trusted v file Htrusted) in Hkey.
    rewrite (Verify_from_signature h v raw file pk sg Hwf Hkey Hsg).
    rewrite Hver. reflexivity.
Qed.

(** C2. When the signature verifies under the resolved key, the payload
    parses, and its expiration instant is set and strictly before the current
    time, Verify returns the parsed data together with LicenseExpired. *)
Theorem C2_expired_returns_data_and_error (h : Host) (v : OfflineValidator)
  (raw : list Byte.byte) (file : OfflineLicenseFile) (data : OfflineLicenseData) :
  well_formed_envelope raw file ->
  signed_under file (resolvePublicKey v file) ->
  Unmarshal_OfflineLicenseData (License file) = Ok data ->
  data_ExpiresAt data <> 0 ->
  data_ExpiresAt data < time_Now h ->
  Verify h v raw = (Some data, Some (Sentinel_ ErrLicenseExpired)).
Proof.
  intros Hwf (pk & sg & Hkey & Hsg & Hver) Hdata Hset Hpast.
  rewrite (Verify_from_signature h v raw file pk sg Hwf Hkey Hsg).
  rewrite Hver, Hdata. cbn [negb ext].
  unfold IsZero, Before.
  destruct (Z.eqb_spec (data_ExpiresAt data) 0); [contradiction |].
  destruct (Z.ltb_spec (data_ExpiresAt data) (time_Now h)); [reflexivity | lia].
Qed.

End OfflineVerifier.

Section OfflineExamples.
#[local] Existing Instance Fixture.lib.

(** A file signed under the trusted key and one signed under the embedded
    key, both embedding the other key, checked by a validator that trusts
    [T_key] at instant 50 (the payload expires at 100). *)
Lemma C1_trusted_key_precedence_witness :
  let v := {| trustedPublicKey := Fixture.T_key |} in
  let h := Fixture.host "" 50 in
  Verify h v (list_byte_of_string "T") = (Some (Fixture.license_data 100), None) /\
  Verify h v (list_byte_of_string "E") = (None, Some (Sentinel_ ErrSignatureInvalid)).
Proof.
  intros v h.
  assert (Htrusted : trustedPublicKey v <> "") by discriminate.
  split.
  - assert (Hfile : Unmarshal_OfflineLicenseFile (list_byte_of_string "T")
                     = Ok (Fixture.file_signed_by Fixture.T_key)) by reflexivity.
    destruct (C1_trusted_key_precedence h v _ _ (Fixture.license_data 100)
                Htrusted Hfile) as (_ & _ & Hvalid & _).
    apply Hvalid.
    + repeat split; discriminate.
    + exists (list_byte_of_string Fixture.T_key),
        (list_byte_of_string (Signature (Fixture.file_signed_by Fixture.T_key))).
      repeat split; try discriminate; vm_compute; reflexivity.
    + reflexivity.
    + right. vm_compute. discriminate.
  - assert (Hfile : Unmarshal_OfflineLicenseFile (list_byte_of_string "E")
                     = Ok (Fixture.file_signed_by Fixture.E_key)) by reflexivity.
    destruct (C1_trusted_key_precedence h v _ _ (Fixture.license_data 100)
                Htrusted Hfile) as (_ & _ & _ & Hinvalid).
    apply Hinvalid.
    + repeat split; discriminate.
    + exists (list_byte_of_string Fixture.T_key),
        (list_byte_of_string (Signature (Fixture.file_signed_by Fixture.E_key))).
      repeat split; try discriminate; vm_compute; reflexivity.
Defined.

(** The same signed file read at instant 200, after its expiry at 100. *)
Lemma C2_expired_returns_data_and_error_witness :
  Verify (Fixture.host "" 200) {| trustedPublicKey := Fixture.T_key |}
    (list_byte_of_string "T")
  = (Some (Fixture.license_data 100), Some (Sentinel_ ErrLicenseExpired)).
Proof.
  apply (C2_expired_returns_data_and_error (Fixture.host "" 200)
           {| trustedPublicKey := Fixture.T_key |} (list_byte_of_string "T")
           (Fixture.file_signed_by Fixture.T_key) (Fixture.license_data 100)).
  - repeat split; discriminate.
  - exists (list_byte_of_string Fixture.T_key),
      (list_byte_of_string (Signature (Fixture.file_signed_by Fixture.T_key))).
    repeat split; try discriminate; vm_compute; reflexivity.
  - reflexivity.
  - discriminate.
  - vm_compute. reflexivity.
Defined.

End OfflineExamples.

(** ** Node registries *)

Lemma has_fingerprint_true (fp : string) (n : NodeInfo) :
  has_fingerprint fp n = true <-> Fingerprint n = fp.
Proof. unfold has_fingerprint. apply String.eqb_eq. Qed.

Lemma has_fingerprint_false (fp : string) (n : NodeInfo) :
  has_fingerprint fp n = false <-> Fingerprint n <> fp.
Proof. unfold has_fingerprint. apply String.eqb_neq. Qed.

Lemma records_of_none (fp : string) (l : list NodeInfo) :
  Forall (fun n => has_fingerprint fp n = false) l -> records_of fp l = [].
Proof.
  unfold records_of. induction 1 as [|n l Hn _ IH]; [reflexivity |].
  rewrite filter_cons_False by congruence. exact IH.
Qed.

Lemma records_of_nil_absent (fp : string) (l : list NodeInfo) :
  records_of fp l = [] -> fp ∉ Fingerprint <$> l.
Proof.
  intros Hnil Hin. apply list_elem_of_fmap in Hin as (n & -> & Hn).
  unfold records_of in Hnil.
  apply (filter_nil_not_elem_of _ _ n Hnil); [| exact Hn].
  apply has_fingerprint_true. reflexivity.
Qed.

(** How [update_first] splits the list. *)
Lemma update_first_spec (p : NodeInfo -> bool) (f : NodeInfo -> NodeInfo)
  (l : list NodeInfo) :
  match update_first p f l with
  | None => Forall (fun n => p n = false) l
  | Some (n', l') =>
      exists l1 n l2,
        l = l1 ++ n :: l2 /\ Forall (fun x => p x = false) l1 /\ p n = true /\
        n' = f n /\ l' = l1 ++ f n :: l2
  end.
Proof.
  induction l as [|a l IH]; simpl; [constructor |].
  destruct (p a) eqn:Hpa.
  - exists [], a, l. repeat split; [constructor | assumption].
  - destruct (update_first p f l) as [[n' l']|].
    + destruct IH as (l1 & n & l2 & -> & Hl1 & Hn & -> & ->).
      exists (a :: l1), n, l2. repeat split; [constructor |]; assumption.
    + constructor; assumption.
Qed.

(** In a list with unique fingerprints, the other records do not carry the
    fingerprint of a given one. *)
Lemma unique_fingerprints_split (l1 l2 : list NodeInfo) (n : NodeInfo) :
  unique_fingerprints (l1 ++ n :: l2) ->
  Forall (fun x => has_fingerprint (Fingerprint n) x = false) l1 /\
  Forall (fun x => has_fingerprint (Fingerprint n) x = false) l2.
Proof.
  unfold unique_fingerprints. rewrite fmap_app, fmap_cons.
  intros Hnd. apply NoDup_app in Hnd as (_ & Hdisj & Hnd2).
  apply NoDup_cons in Hnd2 as [Hnotin _].
  split; apply Forall_forall; intros x Hx; apply has_fingerprint_false.
  - intros Heq. apply (Hdisj (Fingerprint x)).
    + apply list_elem_of_fmap. eauto.
    + rewrite Heq. left.
  - intros Heq. apply Hnotin. rewrite <- Heq.
    apply list_elem_of_fmap. eauto.
Qed.

(** The upsert both backends perform, on the stored records. *)
Lemma upsert_spec (stamp : Time) (node : NodeInfo) (l : list NodeInfo)
  (d : NodeInfo) (l' : list NodeInfo) :
  unique_fingerprints l ->
  upsert stamp node l = (d, l') ->
  records_of (Fingerprint node) l' = [d] /\
  unique_fingerprints l' /\
  Fingerprint d = Fingerprint node /\ Hostname d = Hostname node /\
  IP d = IP node /\ OS d = OS node /\ LicenseKey d = LicenseKey node /\
  LastSeenAt d = stamp /\
  RegisteredAt d =
    match records_of (Fingerprint node) l with
    | [] => stamp
    | old :: _ => RegisteredAt old
    end.
Proof.
  intros Huniq. unfold upsert.
  pose proof (update_first_spec (has_fingerprint (Fingerprint node))
                (fun doc =>
                   {| Fingerprint := Fingerprint doc; Hostname := Hostname node;
                      IP := IP node; OS := OS node; LicenseKey := LicenseKey node;
                      RegisteredAt := RegisteredAt doc; LastSeenAt := stamp |}) l)
    as Hspec.
  destruct (update_first _ _ l) as [[n' l'']|].
  - destruct Hspec as (l1 & n & l2 & -> & Hl1 & Hn & -> & ->).
    intros [= <- <-].
    apply has_fingerprint_true in Hn.
    destruct (unique_fingerprints_split l1 l2 n Huniq) as [Hu1 Hu2].
    rewrite Hn in Hu1, Hu2.
    split; [| split].
    + unfold records_of. rewrite filter_app, filter_cons_True
        by (apply has_fingerprint_true; exact Hn).
      fold (records_of (Fingerprint node) l1). fold (records_of (Fingerprint node) l2).
      rewrite !records_of_none by assumption. reflexivity.
    + unfold unique_fingerprints in *.
      rewrite fmap_app, fmap_cons in *. exact Huniq.
    + simpl. repeat split; try assumption.
      unfold records_of. rewrite filter_app, filter_cons_True
        by (apply has_fingerprint_true; exact Hn).
      fold (records_of (Fingerprint node) l1).
      rewrite records_of_none by assumption. reflexivity.
  - intros [= <- <-]. simpl.
    split; [| split].
    + unfold records_of. rewrite filter_app.
      fold (records_of (Fingerprint node) l).
      rewrite records_of_none by assumption.
      rewrite filter_cons_True by (apply has_fingerprint_true; reflexivity).
      reflexivity.
    + unfold unique_fingerprints in *. rewrite fmap_app. simpl.
      apply NoDup_app. split; [exact Huniq |]. split; [| apply NoDup_singleton].
      intros fp Hin Hfp. apply list_elem_of_singleton in Hfp. subst fp.
      apply (records_of_nil_absent _ l (records_of_none _ _ Hspec)). exact Hin.
    + repeat split. rewrite records_of_none by assumption. reflexivity.
Qed.

Lemma driver_Ok {A} (run : list NodeInfo -> A * list NodeInfo) (c c' : Conn) (a : A) :
  driver run c = (Ok a, c') -> run (rows c) = (a, rows c').
Proof.
  unfold driver. destruct (faults c) as [|[msg|] rest].
  - destruct (run (rows c)) as [a' rs]. intros [= <- <-]. reflexivity.
  - discriminate.
  - destruct (run (rows c)) as [a' rs]. intros [= <- <-]. reflexivity.
Qed.

Lemma driver_Err {A} (run : list NodeInfo -> A * list NodeInfo) (c c' : Conn) (e : error) :
  driver run c = (Err e, c') -> rows c' = rows c /\ exists msg, e = External msg.
Proof.
  unfold driver. destruct (faults c) as [|[msg|] rest].
  - destruct (run (rows c)) as [a' rs]. discriminate.
  - intros [= <- <-]. eauto.
  - destruct (run (rows c)) as [a' rs]. discriminate.
Qed.

(** One driver call, by what it runs into. *)
Lemma driver_unfold {A} (run : list NodeInfo -> A * list NodeInfo) (c : Conn) :
  driver run c =
    match next_call_fails c with
    | Some msg => (Err (External msg), after_call (rows c) c)
    | None => (Ok (fst (run (rows c))), after_call (snd (run (rows c))) c)
    end.
Proof.
  unfold driver, next_call_fails, after_call.
  destruct (faults c) as [|[msg|] rest]; cbn [tail];
    try reflexivity; destruct (run (rows c)); reflexivity.
Qed.

Lemma driver_call_unfold (c : Conn) :
  driver_call c =
    match next_call_fails c with
    | Some msg => (Err (External msg), after_call (rows c) c)
    | None => (Ok tt, after_call (rows c) c)
    end.
Proof. unfold driver_call. apply driver_unfold. Qed.

Lemma answers_next (n : nat) (c : Conn) :
  answers (S n) c -> next_call_fails c = None.
Proof.
  unfold answers, next_call_fails. destruct (faults c) as [|[msg|] rest];
    [reflexivity | | reflexivity].
  cbn [take]. intros Hall. apply Forall_cons in Hall as [Hhead _]. discriminate Hhead.
Qed.

Lemma answers_after (n : nat) (rs : list NodeInfo) (c : Conn) :
  answers (S n) c -> answers n (after_call rs c).
Proof.
  unfold answers, after_call. cbn [faults]. destruct (faults c) as [|f rest].
  - intros _. cbn [tail]. rewrite take_nil. constructor.
  - cbn [take tail]. intros Hall. apply Forall_cons in Hall as [_ Hrest]. exact Hrest.
Qed.

Lemma no_faults_answers (n : nat) (c : Conn) : faults c = [] -> answers n c.
Proof. unfold answers. intros ->. rewrite take_nil. constructor. Qed.

Lemma no_faults_next (c : Conn) : faults c = [] -> next_call_fails c = None.
Proof. unfold next_call_fails. intros ->. reflexivity. Qed.

Lemma no_faults_after (rs : list NodeInfo) (c : Conn) :
  faults c = [] -> after_call rs c = {| rows := rs; faults := [] |}.
Proof. unfold after_call. intros ->. reflexivity. Qed.

Lemma no_faults_same (c : Conn) : faults c = [] -> after_call (rows c) c = c.
Proof. destruct c as [rs fs]. cbn. intros ->. reflexivity. Qed.

Section RegistryUpsert.
Context `{GoLib}.

(** The FindOneAndUpdate of the MongoDB backend is the upsert with the
    instant as a BSON date. *)
Lemma mongo_findOneAndUpdate_upsert (now : Time) (node : NodeInfo) (l : list NodeInfo) :
  mongo_findOneAndUpdate now node l = upsert (bson_DateTime now) node l.
Proof. reflexivity. Qed.

(** The INSERT ... ON CONFLICT of the PostgreSQL backend is the upsert with
    the instant as a TIMESTAMPTZ, and returns the two timestamps of the row. *)
Lemma pg_upsert_upsert (now : Time) (node : NodeInfo) (l : list NodeInfo) :
  pg_upsert now node l =
    let '(d, l') := upsert (pgx_timestamptz now) node l in
    ((RegisteredAt d, LastSeenAt d), l').
Proof.
  unfold pg_upsert, upsert. simpl.
  destruct (update_first _ _ l) as [[d l']|]; reflexivity.
Qed.

Lemma mongo_Register_Ok (r : MongoRegistry) (now : Time) (node : NodeInfo)
  (c c' : Conn) (s : NodeInfo) :
  mongo_Register r now node c = (Ok s, c') ->
  upsert (bson_DateTime now) node (rows c) = (s, rows c').
Proof.
  unfold mongo_Register, wrap_err.
  destruct (driver _ c) as [[d|e] c1] eqn:Hd; [| discriminate].
  intros [= <- <-]. apply driver_Ok in Hd. exact Hd.
Qed.

Lemma pg_Register_Ok (r : PostgresRegistry) (now : Time) (node : NodeInfo)
  (c c' : Conn) (s : NodeInfo) :
  unique_fingerprints (rows c) ->
  pg_Register r now node c = (Ok s, c') ->
  upsert (pgx_timestamptz now) node (rows c) = (s, rows c').
Proof.
  intros Huniq. unfold pg_Register.
  destruct (driver _ c) as [[[reg seen]|e] c1] eqn:Hd; [| discriminate].
  intros [= <- <-]. apply driver_Ok in Hd.
  rewrite pg_upsert_upsert in Hd.
  destruct (upsert (pgx_timestamptz now) node (rows c)) as [d l'] eqn:Hup.
  injection Hd as <- <- <-.
  destruct (upsert_spec _ node (rows c) d l' Huniq Hup)
    as (_ & _ & Hfp & Hh & Hip & Hos & Hkey & _).
  rewrite <- Hfp, <- Hh, <- Hip, <- Hos, <- Hkey. destruct d; reflexivity.
Qed.

(** Register, by what the driver call runs into: on success it returns the
    record the upsert leaves, with the instant as the backend's store keeps
    it. *)
Lemma pg_Register_run (r : PostgresRegistry) (c : Conn) (now : Time) (node : NodeInfo) :
  unique_fingerprints (rows c) ->
  Register r now node c =
    match next_call_fails c with
    | Some msg =>
        (Err (Errorf_prefix "register node: " (External msg)), after_call (rows c) c)
    | None =>
        (Ok (fst (upsert (pgx_timestamptz now) node (rows c))),
         after_call (snd (upsert (pgx_timestamptz now) node (rows c))) c)
    end.
Proof.
  intros Huniq. cbn [Register PostgresRegistry_NodeRegistry].
  unfold pg_Register. rewrite driver_unfold.
  destruct (next_call_fails c); [reflexivity |].
  rewrite pg_upsert_upsert.
  destruct (upsert (pgx_timestamptz now) node (rows c)) as [d l'] eqn:Hup.
  cbn [fst snd].
  destruct (upsert_spec _ node (rows c) d l' Huniq Hup)
    as (_ & _ & Hfp & Hh & Hip & Hos & Hkey & _).
  rewrite <- Hfp, <- Hh, <- Hip, <- Hos, <- Hkey. destruct d; reflexivity.
Qed.

Lemma mongo_Register_run (r : MongoRegistry) (c : Conn) (now : Time) (node : NodeInfo) :
  Register r now node c =
    match next_call_fails c with
    | Some msg =>
        (Err (Errorf_prefix "register node: " (External msg)), after_call (rows c) c)
    | None =>
        (Ok (fst (upsert (bson_DateTime now) node (rows c))),
         after_call (snd (upsert (bson_DateTime now) node (rows c))) c)
    end.
Proof.
  cbn [Register MongoRegistry_NodeRegistry].
  unfold mongo_Register, wrap_err. rewrite driver_unfold.
  destruct (next_call_fails c); reflexivity.
Qed.

End RegistryUpsert.

(** Two upserts of one fingerprint in a row. *)
Lemma upsert_twice (c0 : Conn) (t1 t2 : Time) (n1 n2 s1 s2 : NodeInfo)
  (l1 l2 : list NodeInfo) (c2 : Conn) :
  unique_fingerprints (rows c0) ->
  Fingerprint n2 = Fingerprint n1 ->
  upsert t1 n1 (rows c0) = (s1, l1) ->
  upsert t2 n2 l1 = (s2, l2) ->
  rows c2 = l2 ->
  upserted_twice c0 t1 t2 n2 s1 s2 c2.
Proof.
  intros Huniq Hfp H1 H2 <-.
  destruct (upsert_spec _ _ _ _ _ Huniq H1)
    as (Hone1 & Huniq1 & _ & _ & _ & _ & _ & _ & Hreg1).
  destruct (upsert_spec _ _ _ _ _ Huniq1 H2)
    as (Hone2 & _ & Hf & Hh & Hip & Hos & Hkey & Hseen & Hreg2).
  rewrite Hfp, Hone1 in Hreg2. rewrite <- Hfp in Hreg1.
  unfold upserted_twice. repeat split; try assumption.
  intros Hfresh. rewrite Hreg2, Hreg1, Hfresh. reflexivity.
Qed.

(** C6, as the code has it.  In both backends, on a store that answers the
    two calls, registering one fingerprint twice succeeds both times and
    leaves exactly one record under that fingerprint; the second call returns
    that stored record; its registered_at is the one the first call returned,
    which, when the fingerprint was not registered before, is the first call's
    timestamp as the store keeps it (a TIMESTAMPTZ in PostgreSQL, a BSON date
    in MongoDB); its last_seen_at is the second call's timestamp as the store
    keeps it; hostname, ip, os and license key are those of the second
    call. *)
Theorem C6_register_upsert `{GoLib} (pgr : PostgresRegistry) (mgr : MongoRegistry)
  (c0 : Conn) (n1 n2 : NodeInfo) (t1 t2 : Time) :
  unique_fingerprints (rows c0) ->
  Fingerprint n2 = Fingerprint n1 ->
  answers 2 c0 ->
  (exists s1 c1 s2 c2,
     Register pgr t1 n1 c0 = (Ok s1, c1) /\
     Register pgr t2 n2 c1 = (Ok s2, c2) /\
     upserted_twice c0 (pgx_timestamptz t1) (pgx_timestamptz t2) n2 s1 s2 c2) /\
  (exists s1 c1 s2 c2,
     Register mgr t1 n1 c0 = (Ok s1, c1) /\
     Register mgr t2 n2 c1 = (Ok s2, c2) /\
     upserted_twice c0 (bson_DateTime t1) (bson_DateTime t2) n2 s1 s2 c2).
Proof.
  intros Huniq Hfp Hanswers.
  pose proof (answers_next _ _ Hanswers) as Hfirst.
  assert (Hsecond : forall rs, next_call_fails (after_call rs c0) = None)
    by (intros rs; apply (answers_next 0), answers_after, Hanswers).
  split.
  - destruct (upsert (pgx_timestamptz t1) n1 (rows c0)) as [s1 l1] eqn:H1.
    destruct (upsert (pgx_timestamptz t2) n2 l1) as [s2 l2] eqn:H2.
    destruct (upsert_spec _ _ _ _ _ Huniq H1) as (_ & Huniq1 & _).
    exists s1, (after_call l1 c0), s2, (after_call l2 (after_call l1 c0)).
    split; [rewrite (pg_Register_run pgr c0 t1 n1 Huniq), Hfirst, H1; reflexivity |].
    split.
    + rewrite (pg_Register_run pgr (after_call l1 c0) t2 n2 Huniq1), Hsecond.
      cbn [rows after_call]. rewrite H2. reflexivity.
    + exact (upsert_twice c0 _ _ n1 n2 s1 s2 l1 l2
               (after_call l2 (after_call l1 c0)) Huniq Hfp H1 H2 eq_refl).
  - destruct (upsert (bson_DateTime t1) n1 (rows c0)) as [s1 l1] eqn:H1.
    destruct (upsert (bson_DateTime t2) n2 l1) as [s2 l2] eqn:H2.
    exists s1, (after_call l1 c0), s2, (after_call l2 (after_call l1 c0)).
    split; [rewrite (mongo_Register_run mgr c0 t1 n1), Hfirst, H1; reflexivity |].
    split.
    + rewrite (mongo_Register_run mgr (after_call l1 c0) t2 n2), Hsecond.
      cbn [rows after_call]. rewrite H2. reflexivity.
    + exact (upsert_twice c0 _ _ n1 n2 s1 s2 l1 l2
               (after_call l2 (after_call l1 c0)) Huniq Hfp H1 H2 eq_refl).
Qed.

Section RegisterExamples.
#[local] Existing Instance Fixture.lib.

(** Host h1 registers at 10 and, after a change of hostname, again at 20, in
    PostgreSQL and in MongoDB. *)
Lemma C6_register_upsert_witness :
  let n1 := Fixture.node "fp-a" "K" 0 0 in
  let n2 := {| Fingerprint := "fp-a"; Hostname := "renamed"; IP := "10.0.1.53";
               OS := "linux"; LicenseKey := "K2"; RegisteredAt := 0; LastSeenAt := 0 |} in
  let stored := {| Fingerprint := "fp-a"; Hostname := "renamed"; IP := "10.0.1.53";
                   OS := "linux"; LicenseKey := "K2"; RegisteredAt := 10;
                   LastSeenAt := 20 |} in
  (exists s1 c1 c2,
     Register Fixture.pg 10 n1 Fixture.empty_conn = (Ok s1, c1) /\
     Register Fixture.pg 20 n2 c1 = (Ok stored, c2) /\
     records_of "fp-a" (rows c2) = [stored]) /\
  (exists s1 c1 c2,
     Register Fixture.mongo 10 n1 Fixture.empty_conn = (Ok s1, c1) /\
     Register Fixture.mongo 20 n2 c1 = (Ok stored, c2) /\
     records_of "fp-a" (rows c2) = [stored]).
Proof.
  intros n1 n2 stored.
  assert (Huniq : unique_fingerprints (rows Fixture.empty_conn)) by constructor.
  assert (Hfp : Fingerprint n2 = Fingerprint n1) by reflexivity.
  assert (Hanswers : answers 2 Fixture.empty_conn) by constructor.
  assert (Hnew : records_of (Fingerprint n2) (rows Fixture.empty_conn) = [])
    by reflexivity.
  assert (Hstored : forall s2, LastSeenAt s2 = 20 -> RegisteredAt s2 = 10 ->
            Fingerprint s2 = Fingerprint n2 -> Hostname s2 = Hostname n2 ->
            IP s2 = IP n2 -> OS s2 = OS n2 -> LicenseKey s2 = LicenseKey n2 ->
            s2 = stored)
    by (intros [] ? ? ? ? ? ? ?; simpl in *; subst; reflexivity).
  destruct (C6_register_upsert Fixture.pg Fixture.mongo Fixture.empty_conn n1 n2 10 20
              Huniq Hfp Hanswers) as [Hpg Hmongo].
  split.
  - destruct Hpg as (s1 & c1 & s2 & c2 & H1 & H2 & Hone & _ & Hreg & Hseen & Hrest).
    destruct Hrest as (? & ? & ? & ? & ?).
    assert (Heq : s2 = stored) by (apply Hstored; auto).
    subst s2. exists s1, c1, c2. auto.
  - destruct Hmongo as (s1 & c1 & s2 & c2 & H1 & H2 & Hone & _ & Hreg & Hseen & Hrest).
    destruct Hrest as (? & ? & ? & ? & ?).
    assert (Heq : s2 = stored) by (apply Hstored; auto).
    subst s2. exists s1, c1, c2. auto.
Defined.

End RegisterExamples.

Section CoarseExamples.
#[local] Existing Instance Coarse.lib.

(** A host whose clock counts nanoseconds registers at 1 500 and again at
    2 500 999.  The TIMESTAMPTZ of PostgreSQL holds 1 000 and 2 500 000, the
    BSON date of MongoDB 0 and 2 000 000: neither registered_at nor
    last_seen_at is the timestamp of the call. *)
Lemma C6_timestamps_are_cut_to_the_store :
  let n := Fixture.node "fp-a" "K" 0 0 in
  (exists s1 c1 s2 c2,
     Register Fixture.pg 1500 n Fixture.empty_conn = (Ok s1, c1) /\
     Register Fixture.pg 2500999 n c1 = (Ok s2, c2) /\
     rows c2 = [s2] /\
     RegisteredAt s2 = 1000 /\ RegisteredAt s2 <> 1500 /\
     LastSeenAt s2 = 2500000 /\ LastSeenAt s2 <> 2500999) /\
  (exists s1 c1 s2 c2,
     Register Fixture.mongo 1500 n Fixture.empty_conn = (Ok s1, c1) /\
     Register Fixture.mongo 2500999 n c1 = (Ok s2, c2) /\
     rows c2 = [s2] /\
     RegisteredAt s2 = 0 /\ RegisteredAt s2 <> 1500 /\
     LastSeenAt s2 = 2000000 /\ LastSeenAt s2 <> 2500999).
Proof.
  intros n. split.
  - eexists _, _, _, _. split; [reflexivity |]. split; [reflexivity |].
    split; [reflexivity |]. split; [reflexivity |]. split; [discriminate |].
    split; [reflexivity | discriminate].
  - eexists _, _, _, _. split; [reflexivity |]. split; [reflexivity |].
    split; [reflexivity |]. split; [reflexivity |]. split; [discriminate |].
    split; [reflexivity | discriminate].
Qed.

End CoarseExamples.

#[local] Instance registered_le_trans : Transitive registered_le.
Proof. unfold registered_le. intros a b c. lia. Qed.

#[local] Instance registered_le_total : Total registered_le.
Proof. unfold registered_le. intros a b. lia. Qed.

(** The loop of PostgresRegistry.List, by its outcome: all rows, or nil with
    a scan error, or the rows read so far with the error of rows.Err(). *)
Lemma pg_scan_outcome (found nodes : list NodeInfo) (c : Conn) :
  match pg_scan found nodes c with
  | ((l, None), c') => l = nodes ++ found /\ rows c' = rows c
  | ((l, Some e), c') =>
      rows c' = rows c /\
      exists msg,
        (l = [] /\ e = Errorf_prefix "scan node: " (External msg)) \/
        (e = External msg /\ exists read rest, found = read ++ rest /\ l = nodes ++ read)
  end.
Proof.
  revert nodes c. induction found as [|n found IH]; intros nodes c;
    cbn [pg_scan]; rewrite driver_call_unfold.
  - destruct (next_call_fails c) as [msg|].
    + split; [reflexivity |]. exists msg. right. split; [reflexivity |].
      exists [], []. split; [reflexivity | symmetry; apply app_nil_r].
    + rewrite app_nil_r. split; reflexivity.
  - destruct (next_call_fails c) as [msg|].
    + split; [reflexivity |]. exists msg. right. split; [reflexivity |].
      exists [], (n :: found). split; [reflexivity | symmetry; apply app_nil_r].
    + rewrite driver_call_unfold. cbn [rows after_call].
      destruct (next_call_fails _) as [msg|].
      * split; [reflexivity |]. exists msg. left. split; reflexivity.
      * specialize (IH (nodes ++ [n]) (after_call (rows c) (after_call (rows c) c))).
        destruct (pg_scan found (nodes ++ [n]) _) as [[l [e|]] c'].
        -- destruct IH as (Hrows & msg & Hcase). split; [exact Hrows |].
           exists msg. destruct Hcase as [Hscan | (He & read & rest & Hfound & Hl)].
           ++ left. exact Hscan.
           ++ right. split; [exact He |]. exists (n :: read), rest.
              rewrite Hfound, Hl, <- app_assoc. split; reflexivity.
        -- destruct IH as [Hl Hrows]. rewrite Hl, <- app_assoc.
           split; [reflexivity | exact Hrows].
Qed.

(** On a store that answers every call the loop reads all rows. *)
Lemma pg_scan_no_faults (found nodes : list NodeInfo) (c : Conn) :
  faults c = [] -> pg_scan found nodes c = ((nodes ++ found, None), c).
Proof.
  intros Hfaults. revert nodes. induction found as [|n found IH]; intros nodes;
    cbn [pg_scan]; rewrite driver_call_unfold, (no_faults_next _ Hfaults),
      (no_faults_same _ Hfaults).
  - rewrite app_nil_r. reflexivity.
  - rewrite driver_call_unfold, (no_faults_next _ Hfaults), (no_faults_same _ Hfaults).
    rewrite IH, <- app_assoc. reflexivity.
Qed.

(** PostgresRegistry.List: the records of the license, in ascending order of
    registered_at. *)
Lemma pg_List_sorted (r : PostgresRegistry) (licenseKey : string) (c c' : Conn)
  (l : list NodeInfo) :
  pg_List r licenseKey c = ((l, None), c') ->
  StronglySorted registered_le l /\
  l ≡ₚ filter (fun n => has_license licenseKey n = true) (rows c) /\
  rows c' = rows c.
Proof.
  unfold pg_List. rewrite driver_unfold.
  destruct (next_call_fails c); [discriminate |]. cbn [fst snd].
  intros Hscan.
  pose proof (pg_scan_outcome
                (order_by_registered_at
                   (filter (fun n => has_license licenseKey n = true) (rows c)))
                [] (after_call (rows c) c)) as Hout.
  rewrite Hscan in Hout. destruct Hout as [-> Hrows]. cbn [app].
  split; [apply StronglySorted_merge_sort; apply _ |].
  split; [apply merge_sort_Permutation | exact Hrows].
Qed.

(** MongoRegistry.List: the records of the license, in the stored order. *)
Lemma mongo_List_stored_order (r : MongoRegistry) (licenseKey : string) (c c' : Conn)
  (l : list NodeInfo) :
  mongo_List r licenseKey c = ((l, None), c') ->
  l = filter (fun n => has_license licenseKey n = true) (rows c) /\
  rows c' = rows c.
Proof.
  unfold mongo_List. rewrite driver_unfold.
  destruct (next_call_fails c); [discriminate |]. cbn [fst snd].
  rewrite driver_call_unfold.
  destruct (next_call_fails _); [discriminate |].
  intros [= <- <-]. split; reflexivity.
Qed.

Section ListExamples.
#[local] Existing Instance Fixture.lib.

(** C7, on the records two hosts with skewed clocks leave behind:
    MongoRegistry.List yields node-a (registered_at 10) before node-b
    (registered_at 5), which is not ascending; PostgresRegistry.List yields
    node-b before node-a on the same records.  The two documents are in the
    order of their insertion, which here is also the order of last_seen_at. *)
Theorem C7_mongo_List_not_ordered :
  let a := Fixture.node "node-a" "K" 10 10 in
  let b := Fixture.node "node-b" "K" 5 20 in
  rows Fixture.skewed_clocks = [a; b] /\
  LastSeenAt a <= LastSeenAt b /\
  List Fixture.mongo "K" Fixture.skewed_clocks
    = (([a; b], None), Fixture.skewed_clocks) /\
  ~ Sorted registered_le [a; b] /\
  List Fixture.pg "K" Fixture.skewed_clocks
    = (([b; a], None), Fixture.skewed_clocks).
Proof.
  intros a b.
  split; [reflexivity |]. split; [simpl; lia |].
  split; [reflexivity |]. split; [| reflexivity].
  intros Hsorted. inversion Hsorted as [|x l _ Hhd]; subst.
  inversion Hhd as [|y l' Hle]; subst.
  unfold registered_le in Hle. simpl in Hle. lia.
Qed.

End ListExamples.

(** ** The online client *)

Section Client.
Context `{GoLib}.

Lemma parseError_not_hardware (c : OnlineClient) (status : Z) (body : list Byte.byte) :
  errors_Is (parseError c status body) ErrNodeLimitExceeded = false /\
  errors_Is (parseError c status body) ErrCPULimitExceeded = false.
Proof.
  unfold parseError.
  destruct (ext (Unmarshal_errResp body)) as [[code message]|e]; [| split; reflexivity].
  unfold mapServerError. simpl.
  repeat match goal with |- context [if ?b then _ else _] => destruct b end;
    split; reflexivity.
Qed.

(** One round trip: the connection of the registry is not touched; at most
    one request is sent, and exactly one when the call succeeds; a failure is
    never a hardware-limit error. *)
Lemma doJSON_spec {A} (c : OnlineClient) (path : string) (body : Payload)
  (decode : list Byte.byte -> Lib A) (w w' : World) (r : Result A) :
  doJSON c path body decode w = (r, w') ->
  conn w' = conn w /\
  (trace w' = trace w \/
   exists req, trace w' = trace w ++ [HttpDo req] /\ Body req = body) /\
  (forall a, r = Ok a ->
     exists req, trace w' = trace w ++ [HttpDo req] /\ Body req = body) /\
  (forall e, r = Err e ->
     errors_Is e ErrNodeLimitExceeded = false /\
     errors_Is e ErrCPULimitExceeded = false).
Proof.
  unfold doJSON. cbn [URL].
  destruct (http_NewRequest _) as [msg|].
  { unfold ret. intros [= <- <-]. split; [reflexivity |].
    split; [left; reflexivity |]. split; [intros a [=] |].
    intros e [= <-]. split; reflexivity. }
  unfold bind, emit, ret.
  destruct (ext (httpClient_Do c _)) as [resp|e0] eqn:Hdo.
  - destruct (ext (http_Body resp)) as [bytes|e1] eqn:Hbody.
    + destruct (http_StatusCode resp >=? 400).
      * intros [= <- <-]. split; [reflexivity |]. split; [right; eauto |].
        split; [intros a [=] |].
        intros e [= <-]. apply parseError_not_hardware.
      * destruct (ext (decode _)) as [dest|e2] eqn:Hdec.
        -- intros [= <- <-]. split; [reflexivity |]. split; [right; eauto |].
           split; [intros a _; eauto |]. intros e [=].
        -- intros [= <- <-]. split; [reflexivity |]. split; [right; eauto |].
           split; [intros a [=] |].
           intros e [= <-]. unfold ext in Hdec.
           destruct (decode _); [discriminate |]. injection Hdec as <-.
           split; reflexivity.
    + intros [= <- <-]. split; [reflexivity |]. split; [right; eauto |].
      split; [intros a [=] |].
      intros e [= <-]. unfold ext in Hbody.
      destruct (http_Body resp); [discriminate |]. injection Hbody as <-.
      split; reflexivity.
  - intros [= <- <-]. split; [reflexivity |]. split; [right; eauto |].
    split; [intros a [=] |].
    intros e [= <-]. unfold ext in Hdo.
    destruct (httpClient_Do c _); [discriminate |]. injection Hdo as <-.
    split; reflexivity.
Qed.

Lemma Validate_spec (c : OnlineClient) (req : ValidateRequest) (w w' : World)
  (r : Result ValidateResponse) :
  Validate c req w = (r, w') ->
  conn w' = conn w /\
  (trace w' = trace w \/
   exists sent, trace w' = trace w ++ [HttpDo sent] /\
                Body sent = ValidateBody (sent_for c req)) /\
  (forall resp, r = Ok resp ->
     exists sent, trace w' = trace w ++ [HttpDo sent] /\
                  Body sent = ValidateBody (sent_for c req)) /\
  (forall e, r = Err e ->
     errors_Is e ErrNodeLimitExceeded = false /\
     errors_Is e ErrCPULimitExceeded = false).
Proof. unfold Validate. apply doJSON_spec. Qed.


End Client.

(** ** The manager with a node registry *)

Lemma errors_Is_prefix (prefix : string) (e : error) (s : Sentinel) :
  errors_Is (Errorf_prefix prefix e) s = errors_Is e s.
Proof. reflexivity. Qed.

Lemma GenerateFingerprint_error `{GoLib} (h : Host) (e : error) (s : Sentinel) :
  GenerateFingerprint h = Err e -> errors_Is e s = false.
Proof.
  unfold GenerateFingerprint.
  destruct (negb _); [discriminate |].
  destruct (os_Hostname h) as [name|msg]; simpl; [discriminate |].
  intros [= <-]. reflexivity.
Qed.

(** A digest is never the empty string, so neither is a generated
    fingerprint. *)
Lemma GenerateFingerprint_nonempty `{GoLib} (h : Host) (fp : string) :
  (forall s, sha256_hex s <> "") ->
  GenerateFingerprint h = Ok fp -> fp <> "".
Proof.
  intros Hdigest. unfold GenerateFingerprint.
  destruct (os_Getenv_CNW_FINGERPRINT h =? "")%string eqn:Henv; simpl.
  - destruct (os_Hostname h) as [name|msg]; simpl; [| discriminate].
    intros [= <-]. apply Hdigest.
  - intros [= <-]. apply String.eqb_neq. exact Henv.
Qed.

Section Rollback.
Context `{GoLib} {R : Type} `{NodeRegistry R}.

Hypothesis Register_fails_externally :
  forall (r : R) t n c e c', Register r t n c = (Err e, c') ->
    errors_Is e ErrNodeLimitExceeded = false.
Hypothesis Count_fails_externally :
  forall (r : R) k c e c', Count r k c = (Err e, c') ->
    errors_Is e ErrNodeLimitExceeded = false.
Hypothesis Register_keeps_unique :
  forall (r : R) t n c res c', unique_fingerprints (rows c) ->
    Register r t n c = (res, c') -> unique_fingerprints (rows c').
Hypothesis Count_keeps_rows :
  forall (r : R) k c res c', Count r k c = (res, c') -> rows c' = rows c.
Hypothesis Deregister_removes :
  forall (r : R) fp c c', unique_fingerprints (rows c) ->
    Deregister r fp c = (None, c') -> fp ∉ Fingerprint <$> rows c'.

Lemma ValidateAndEnforce_rollback (m : Manager.Manager R) (h : Host)
  (licenseKey : string) (w w' : World) (e : error) :
  unique_fingerprints (rows (conn w)) ->
  Manager.ValidateAndEnforce m h licenseKey w = (Err e, w') ->
  errors_Is e ErrNodeLimitExceeded = true ->
  rolled_back m h licenseKey w w'.
Proof.
  intros Huniq Hrun His. unfold Manager.ValidateAndEnforce in Hrun.
  destruct (Manager.client m) as [c|];
    [| injection Hrun as <- <-; discriminate].
  destruct (GenerateFingerprint h) as [fp|e0] eqn:Hfp.
  2: { injection Hrun as <- <-. rewrite errors_Is_prefix in His.
       rewrite (GenerateFingerprint_error h e0 _ Hfp) in His. discriminate. }
  unfold bind in Hrun.
  destruct (Validate c _ w) as [r w1] eqn:Hval.
  apply Validate_spec in Hval as (Hconn1 & _ & Hsent & Herr1).
  destruct r as [resp|e1].
  2: { injection Hrun as <- <-. rewrite errors_Is_prefix in His.
       destruct (Herr1 e1 eq_refl) as [Hno _]. congruence. }
  destruct (Hsent resp eq_refl) as (sent & Htr1 & _).
  destruct (negb (Valid resp)); [discriminate |].
  destruct (CheckCPU h _) as [ecpu|] eqn:Hcpu.
  { injection Hrun as <- <-.
    rewrite (CheckCPU_Some _ _ _ Hcpu) in His. discriminate. }
  destruct (Manager.registry m) as [reg|] eqn:Hreg; [| discriminate].
  unfold on_conn in Hrun.
  destruct (Register reg _ _ (conn w1)) as [rr c2] eqn:HR.
  destruct rr as [s|e2].
  2: { injection Hrun as <- <-. rewrite errors_Is_prefix in His.
       rewrite (Register_fails_externally _ _ _ _ _ _ HR) in His. discriminate. }
  cbn [conn trace] in Hrun.
  destruct (Count reg licenseKey c2) as [rc c3] eqn:HC.
  destruct rc as [count|e3].
  2: { injection Hrun as <- <-. rewrite errors_Is_prefix in His.
       rewrite (Count_fails_externally _ _ _ _ _ HC) in His. discriminate. }
  destruct (CheckNodeCount _ count) as [e4|] eqn:HN; [| discriminate].
  cbn [conn trace] in Hrun.
  destruct (Deregister reg fp c3) as [dres c4] eqn:HD.
  injection Hrun as <- <-.
  match type of HR with
  | Register _ _ ?node _ = _ => exists reg, fp, node, sent, s, c2, count, c3, dres
  end.
  split; [exact Hreg |]. split; [exact Hfp |].
  split; [reflexivity |]. split; [reflexivity |].
  cbn [conn trace]. split.
  { rewrite Htr1, <- !app_assoc. reflexivity. }
  split; [rewrite <- Hconn1; exact HR |].
  split; [exact HC |].
  split; [exact HD |].
  intros ->. apply (Deregister_removes reg fp c3 c4); [| exact HD].
  rewrite (Count_keeps_rows _ _ _ _ _ HC).
  assert (Hu1 : unique_fingerprints (rows (conn w1)))
    by (rewrite Hconn1; exact Huniq).
  apply (Register_keeps_unique _ _ _ _ _ _ Hu1 HR).
Qed.

End Rollback.

Lemma driver_cases {A} (run : list NodeInfo -> A * list NodeInfo) (c c' : Conn)
  (res : Result A) :
  driver run c = (res, c') ->
  (exists msg, res = Err (External msg) /\ rows c' = rows c) \/
  (exists a, res = Ok a /\ run (rows c) = (a, rows c')).
Proof.
  destruct res as [a|e]; intros Hd.
  - right. exists a. split; [reflexivity |]. apply driver_Ok, Hd.
  - left. apply driver_Err in Hd as [Hrows [msg ->]]. eauto.
Qed.

Lemma wrap_err_cases {A} (r : Result A * Conn) (prefix : string)
  (res : Result A) (c' : Conn) :
  wrap_err r (Errorf_prefix prefix) = (res, c') ->
  (exists a, r = (Ok a, c') /\ res = Ok a) \/
  (exists e, r = (Err e, c') /\ res = Err (Errorf_prefix prefix e)).
Proof.
  unfold wrap_err. destruct r as [[a|e] c]; intros [= <- <-]; eauto.
Qed.

Lemma delete_first_unique (fp : string) (l : list NodeInfo) :
  unique_fingerprints l ->
  fp ∉ Fingerprint <$> delete_first (has_fingerprint fp) l.
Proof.
  unfold unique_fingerprints. induction l as [|a l IH]; simpl; intros Hnd.
  - apply not_elem_of_nil.
  - apply NoDup_cons in Hnd as [Hnotin Hnd].
    destruct (has_fingerprint fp a) eqn:Ha.
    + apply has_fingerprint_true in Ha. rewrite <- Ha. exact Hnotin.
    + apply has_fingerprint_false in Ha. rewrite fmap_cons.
      apply not_elem_of_cons. split; [congruence | apply IH, Hnd].
Qed.

Lemma filter_out_fingerprint (fp : string) (l : list NodeInfo) :
  fp ∉ Fingerprint <$> filter (fun n => has_fingerprint fp n = false) l.
Proof.
  intros Hin. apply list_elem_of_fmap in Hin as (n & -> & Hn).
  apply list_elem_of_filter in Hn as [Hfalse _].
  apply has_fingerprint_false in Hfalse. congruence.
Qed.

Section RollbackBackends.
Context `{GoLib}.

(** What the rollback needs from the PostgreSQL backend. *)
Lemma pg_Register_fails_externally (r : PostgresRegistry) t n c e c' :
  Register r t n c = (Err e, c') -> errors_Is e ErrNodeLimitExceeded = false.
Proof.
  simpl. unfold pg_Register.
  destruct (driver _ c) as [[[reg seen]|e0] c1] eqn:Hd; [discriminate |].
  intros [= <- <-]. apply driver_Err in Hd as [_ [msg ->]]. reflexivity.
Qed.

Lemma pg_Count_fails_externally (r : PostgresRegistry) k c e c' :
  Count r k c = (Err e, c') -> errors_Is e ErrNodeLimitExceeded = false.
Proof.
  simpl. unfold pg_Count. intros Hw.
  apply wrap_err_cases in Hw as [(a & _ & [=]) | (e0 & Hd & [= ->])].
  apply driver_Err in Hd as [_ [msg ->]]. reflexivity.
Qed.

Lemma pg_Register_keeps_unique (r : PostgresRegistry) t n c res c' :
  unique_fingerprints (rows c) -> Register r t n c = (res, c') ->
  unique_fingerprints (rows c').
Proof.
  intros Huniq Hreg. destruct res as [s|e].
  - apply (pg_Register_Ok r t n c c' s Huniq) in Hreg.
    apply (upsert_spec _ _ _ _ _ Huniq Hreg).
  - simpl in Hreg. unfold pg_Register in Hreg.
    destruct (driver _ c) as [[[reg seen]|e0] c1] eqn:Hd; [discriminate |].
    injection Hreg as _ <-. apply driver_Err in Hd as [-> _]. exact Huniq.
Qed.

Lemma pg_Count_keeps_rows (r : PostgresRegistry) k c res c' :
  Count r k c = (res, c') -> rows c' = rows c.
Proof.
  simpl. unfold pg_Count. intros Hw.
  apply wrap_err_cases in Hw as [(a & Hd & _) | (e0 & Hd & _)].
  - apply driver_Ok in Hd. injection Hd as _ <-. reflexivity.
  - apply driver_Err in Hd as [-> _]. reflexivity.
Qed.

Lemma pg_Deregister_removes (r : PostgresRegistry) fp c c' :
  unique_fingerprints (rows c) -> Deregister r fp c = (None, c') ->
  fp ∉ Fingerprint <$> rows c'.
Proof.
  intros _. simpl. unfold pg_Deregister, error_of.
  destruct (driver _ c) as [[[]|e0] c1] eqn:Hd; [| discriminate].
  intros [= <-]. apply driver_Ok in Hd. injection Hd as <-.
  apply filter_out_fingerprint.
Qed.

(** What the rollback needs from the MongoDB backend. *)
Lemma mongo_Register_fails_externally (r : MongoRegistry) t n c e c' :
  Register r t n c = (Err e, c') -> errors_Is e ErrNodeLimitExceeded = false.
Proof.
  simpl. unfold mongo_Register. intros Hw.
  apply wrap_err_cases in Hw as [(a & _ & [=]) | (e0 & Hd & [= ->])].
  apply driver_Err in Hd as [_ [msg ->]]. reflexivity.
Qed.

Lemma mongo_Count_fails_externally (r : MongoRegistry) k c e c' :
  Count r k c = (Err e, c') -> errors_Is e ErrNodeLimitExceeded = false.
Proof.
  simpl. unfold mongo_Count. intros Hw.
  apply wrap_err_cases in Hw as [(a & _ & [=]) | (e0 & Hd & [= ->])].
  apply driver_Err in Hd as [_ [msg ->]]. reflexivity.
Qed.

Lemma mongo_Register_keeps_unique (r : MongoRegistry) t n c res c' :
  unique_fingerprints (rows c) -> Register r t n c = (res, c') ->
  unique_fingerprints (rows c').
Proof.
  intros Huniq Hreg. destruct res as [s|e].
  - apply (mongo_Register_Ok r t n c c' s) in Hreg.
    apply (upsert_spec _ _ _ _ _ Huniq Hreg).
  - simpl in Hreg. unfold mongo_Register in Hreg.
    apply wrap_err_cases in Hreg as [(a & _ & [=]) | (e0 & Hd & _)].
    apply driver_Err in Hd as [-> _]. exact Huniq.
Qed.

Lemma mongo_Count_keeps_rows (r : MongoRegistry) k c res c' :
  Count r k c = (res, c') -> rows c' = rows c.
Proof.
  simpl. unfold mongo_Count. intros Hw.
  apply wrap_err_cases in Hw as [(a & Hd & _) | (e0 & Hd & _)].
  - apply driver_Ok in Hd. injection Hd as _ <-. reflexivity.
  - apply driver_Err in Hd as [-> _]. reflexivity.
Qed.

Lemma mongo_Deregister_removes (r : MongoRegistry) fp c c' :
  unique_fingerprints (rows c) -> Deregister r fp c = (None, c') ->
  fp ∉ Fingerprint <$> rows c'.
Proof.
  intros Huniq. simpl. unfold mongo_Deregister, error_of.
  destruct (driver _ c) as [[[]|e0] c1] eqn:Hd; [| discriminate].
  intros [= <-]. apply driver_Ok in Hd. injection Hd as <-.
  apply delete_first_unique, Huniq.
Qed.

End RollbackBackends.

(** C4, as the code has it.  With either backend, when ValidateAndEnforce
    returns NodeLimitExceeded it has sent the validation request, registered
    this node, counted, and then called Deregister for the fingerprint it
    registered; the error of that Deregister call is dropped, and when the call
    succeeded no record with the fingerprint is left in the registry. *)
Theorem C4_rollback_on_node_limit `{GoLib} (h : Host) (licenseKey : string)
  (w w' : World) (e : error) :
  unique_fingerprints (rows (conn w)) ->
  errors_Is e ErrNodeLimitExceeded = true ->
  (forall m : Manager.Manager PostgresRegistry,
     Manager.ValidateAndEnforce m h licenseKey w = (Err e, w') ->
     rolled_back m h licenseKey w w') /\
  (forall m : Manager.Manager MongoRegistry,
     Manager.ValidateAndEnforce m h licenseKey w = (Err e, w') ->
     rolled_back m h licenseKey w w').
Proof.
  intros Huniq His. split; intros m Hrun.
  - exact (ValidateAndEnforce_rollback
             pg_Register_fails_externally pg_Count_fails_externally
             pg_Register_keeps_unique pg_Count_keeps_rows pg_Deregister_removes
             m h licenseKey w w' e Huniq Hrun His).
  - exact (ValidateAndEnforce_rollback
             mongo_Register_fails_externally mongo_Count_fails_externally
             mongo_Register_keeps_unique mongo_Count_keeps_rows mongo_Deregister_removes
             m h licenseKey w w' e Huniq Hrun His).
Qed.

Section ManagerExamples.
#[local] Existing Instance Fixture.lib.

(** Scenario B: the license allows two nodes, two other nodes are registered,
    and every driver call succeeds.  The third node is refused and its record
    is gone. *)
Lemma C4_rollback_on_node_limit_witness :
  let m := {| Manager.client := Some (Fixture.online "1" "");
              Manager.offline := None;
              Manager.registry := Some Fixture.pg |} in
  let h := Fixture.host "node-3" 100 in
  let others := [Fixture.node "node-1" "K" 1 1; Fixture.node "node-2" "K" 2 2] in
  let w := Fixture.world others [] in
  let e := wrapError "node limit exceeded: 3 nodes active, limit is 2"
             (Sentinel_ ErrNodeLimitExceeded) in
  exists w',
    Manager.ValidateAndEnforce m h "K" w = (Err e, w') /\
    rolled_back m h "K" w w' /\
    rows (conn w') = others.
Proof.
  intros m h others w e.
  assert (Huniq : unique_fingerprints (rows (conn w))).
  { unfold unique_fingerprints. apply (bool_decide_unpack _). vm_compute. exact I. }
  assert (His : errors_Is e ErrNodeLimitExceeded = true) by reflexivity.
  pose (run := Manager.ValidateAndEnforce m h "K" w).
  assert (Hrun : run = (Err e, snd run)) by (vm_compute; reflexivity).
  exists (snd run).
  destruct (C4_rollback_on_node_limit h "K" w (snd run) e Huniq His) as [Hpg _].
  split; [exact Hrun |]. split; [apply Hpg; exact Hrun |].
  vm_compute. reflexivity.
Defined.

(** The same scenario when the third driver call, the DELETE of Deregister,
    fails: NodeLimitExceeded is returned and the record of node-3 is still in
    the table. *)
Lemma C4_deregister_failure_leaves_record :
  let m := {| Manager.client := Some (Fixture.online "1" "");
              Manager.offline := None;
              Manager.registry := Some Fixture.pg |} in
  let h := Fixture.host "node-3" 100 in
  let others := [Fixture.node "node-1" "K" 1 1; Fixture.node "node-2" "K" 2 2] in
  let w := Fixture.world others [None; None; Some "connection reset by peer"] in
  let e := wrapError "node limit exceeded: 3 nodes active, limit is 2"
             (Sentinel_ ErrNodeLimitExceeded) in
  let third := {| Fingerprint := "node-3"; Hostname := "worker-03"; IP := "";
                  OS := "linux"; LicenseKey := "K"; RegisteredAt := 100;
                  LastSeenAt := 100 |} in
  exists w',
    Manager.ValidateAndEnforce m h "K" w = (Err e, w') /\
    errors_Is e ErrNodeLimitExceeded = true /\
    unique_fingerprints (rows (conn w)) /\
    trace w' = [HttpDo {| URL := "https://license.example.com/v1/validate";
                          ContentType := "application/json"; X_API_Key := "k";
                          UserAgent := Some "cnw-license-sdk-go/1.0";
                          Body := ValidateBody {| req_LicenseKey := "K";
                                                  req_Fingerprint := "node-3";
                                                  req_Version := "" |} |};
                CallRegister {| Fingerprint := "node-3"; Hostname := "worker-03";
                                IP := ""; OS := "linux"; LicenseKey := "K";
                                RegisteredAt := 0; LastSeenAt := 0 |};
                CallCount "K"; CallDeregister "node-3"] /\
    rows (conn w') = others ++ [third] /\
    "node-3" ∈ Fingerprint <$> rows (conn w').
Proof.
  intros m h others w e third.
  eexists. split; [vm_compute; reflexivity |].
  split; [reflexivity |]. split.
  { unfold unique_fingerprints. apply (bool_decide_unpack _). vm_compute. exact I. }
  split; [reflexivity |]. split; [reflexivity |].
  apply (bool_decide_unpack _). vm_compute. exact I.
Qed.

End ManagerExamples.

(** C5. When the validation response says valid=false, ValidateAndEnforce
    returns a LicenseInfo with Valid=false and no error.  Nothing but the
    validation request happens: the trace gains that one event, so there is no
    Register, Count or Deregister call, the connection of the registry is as
    before, and the outcome is the same for every CPU count of the host and
    every feature map in the response. *)
Theorem C5_invalid_skips_enforcement `{GoLib} {R} `{NodeRegistry R}
  (m : Manager.Manager R) (h : Host) (licenseKey : string) (w w1 : World)
  (c : OnlineClient) (fp : string) (resp : ValidateResponse) :
  Manager.client m = Some c ->
  GenerateFingerprint h = Ok fp ->
  Validate c {| req_LicenseKey := licenseKey; req_Fingerprint := fp;
                req_Version := "" |} w = (Ok resp, w1) ->
  Valid resp = false ->
  Manager.ValidateAndEnforce m h licenseKey w = (Ok (invalid_info licenseKey fp), w1) /\
  info_Valid (invalid_info licenseKey fp) = false /\
  conn w1 = conn w /\
  exists req, trace w1 = trace w ++ [HttpDo req].
Proof.
  intros Hc Hfp Hval Hinvalid.
  split.
  - unfold Manager.ValidateAndEnforce. rewrite Hc, Hfp.
    unfold bind. rewrite Hval, Hinvalid. reflexivity.
  - split; [reflexivity |].
    apply Validate_spec in Hval as (Hconn & _ & Hsent & _).
    destruct (Hsent resp eq_refl) as (sent & Htr & _).
    split; [exact Hconn | eauto].
Qed.

Section InvalidExample.
#[local] Existing Instance Fixture.lib.

(** Scenario A: the server answers valid=false; a registry with two records
    is configured and is left alone. *)
Lemma C5_invalid_skips_enforcement_witness :
  let c := Fixture.online "0" "" in
  let m := {| Manager.client := Some c; Manager.offline := None;
              Manager.registry := Some Fixture.mongo |} in
  let w := Fixture.world [Fixture.node "node-1" "K" 1 1; Fixture.node "node-2" "K" 2 2]
             [Some "registry unreachable"] in
  exists w1,
    Manager.ValidateAndEnforce m (Fixture.host "node-3" 100) "K" w
    = (Ok (invalid_info "K" "node-3"), w1) /\
    conn w1 = conn w.
Proof.
  intros c m w.
  pose (v := Validate c {| req_LicenseKey := "K"; req_Fingerprint := "node-3";
                           req_Version := "" |} w).
  exists (snd v).
  destruct (C5_invalid_skips_enforcement m (Fixture.host "node-3" 100) "K" w (snd v) c
              "node-3"
              {| Valid := false; Reason := "license not found"; Plan := "";
                 ExpiresAt := None; resp_Features := None; ActivationRemaining := 0 |})
    as (Hrun & _ & Hconn & _); try reflexivity.
  split; [exact Hrun | exact Hconn].
Defined.

End InvalidExample.

(** ** Fingerprint resolution *)

Section FingerprintResolution.
Context `{GoLib}.














(** With WithFingerprint as the last option the client has that
    fingerprint. *)
Lemma NewOnlineClient_WithFingerprint (do : HttpRequest -> Lib HttpResponse)
  (url key fp : string) (opts : list ClientOption) :
  fingerprint (NewOnlineClient do url key (opts ++ [WithFingerprint fp])) = fp.
Proof. unfold NewOnlineClient. rewrite fold_left_app. reflexivity. Qed.


End FingerprintResolution.

Section FingerprintExamples.
#[local] Existing Instance Fixture.lib.


End FingerprintExamples.

(** * Further properties *)

(** ** The offline verifier, step by step *)

Section OfflineSteps.
Context `{GoLib}.

Lemma ext_Ok {A} (r : Lib A) (a : A) : ext r = Ok a <-> r = Ok a.
Proof. destruct r; simpl; split; congruence. Qed.

Lemma ext_Err {A} (r : Lib A) (e : error) :
  ext r = Err e <-> exists msg, r = Err msg /\ e = External msg.
Proof.
  destruct r as [a|msg]; simpl; split.
  - discriminate.
  - intros (m & [=] & _).
  - intros [= <-]. eauto.
  - intros (m & [= ->] & ->). reflexivity.
Qed.

Lemma length_zero_true {A} (l : list A) :
  (Z.of_nat (length l) =? 0) = true -> l = [].
Proof. destruct l; [reflexivity |]. simpl length. intros Hz. apply Z.eqb_eq in Hz. lia. Qed.

(** X1. Verify hands out data only for a signed payload: when it returns
    data, the envelope parsed and had a payload and a signature, the signature
    decoded and verified over the raw payload bytes under the resolved key (a
    non-empty text decoding to 32 bytes), and the data is what those bytes
    parse to; the error is then nil, or LicenseExpired for a set expiration
    instant before the current time. *)
Theorem Verify_returns_only_signed_data (h : Host) (v : OfflineValidator)
  (raw : list Byte.byte) (data : OfflineLicenseData) (err : option error) :
  Verify h v raw = (Some data, err) ->
  exists file,
    well_formed_envelope raw file /\
    signed_under file (resolvePublicKey v file) /\
    Unmarshal_OfflineLicenseData (License file) = Ok data /\
    ((err = None /\ (data_ExpiresAt data = 0 \/ time_Now h <= data_ExpiresAt data)) \/
     (err = Some (Sentinel_ ErrLicenseExpired) /\
      data_ExpiresAt data <> 0 /\ data_ExpiresAt data < time_Now h)).
Proof.
  unfold Verify.
  destruct (Unmarshal_OfflineLicenseFile raw) as [file|m0] eqn:Hfile; simpl;
    [| discriminate].
  destruct (Z.of_nat (length (License file)) =? 0) eqn:Hlen; simpl; [discriminate |].
  destruct (Signature file =? "")%string eqn:Hsig; [discriminate |].
  destruct (resolvePublicKey v file =? "")%string eqn:Hkey; [discriminate |].
  destruct (base64_DecodeString (resolvePublicKey v file)) as [pk|m1] eqn:Hpk; simpl;
    [| discriminate].
  destruct (Z.of_nat (length pk) =? PublicKeySize) eqn:Hsize; simpl; [| discriminate].
  destruct (base64_DecodeString (Signature file)) as [sg|m2] eqn:Hsg; simpl;
    [| discriminate].
  destruct (ed25519_Verify pk (License file) sg) eqn:Hver; simpl; [| discriminate].
  destruct (Unmarshal_OfflineLicenseData (License file)) as [d|m3] eqn:Hdata; simpl;
    [| discriminate].
  intros Hres. exists file.
  assert (Hwf : well_formed_envelope raw file).
  { split; [exact Hfile |]. split.
    - intros Hnil. rewrite Hnil in Hlen. discriminate.
    - apply String.eqb_neq. exact Hsig. }
  assert (Hsigned : signed_under file (resolvePublicKey v file)).
  { exists pk, sg. split; [| split; assumption].
    split; [apply String.eqb_neq; exact Hkey |].
    split; [exact Hpk | apply Z.eqb_eq; exact Hsize]. }
  unfold IsZero, Before in Hres.
  destruct (Z.eqb_spec (data_ExpiresAt d) 0) as [Hz|Hnz]; simpl in Hres.
  - injection Hres as <- <-.
    split; [exact Hwf |]. split; [exact Hsigned |]. split; [exact Hdata |].
    left. auto.
  - destruct (Z.ltb_spec (data_ExpiresAt d) (time_Now h)) as [Hlt|Hge];
      injection Hres as <- <-;
      (split; [exact Hwf |]); (split; [exact Hsigned |]); (split; [exact Hdata |]).
    + right. auto.
    + left. auto.
Qed.

(** X2. Every error of Verify is of exactly one of four kinds
    (LicenseFileInvalid, PublicKeyInvalid, SignatureInvalid, LicenseExpired):
    errors.Is holds for that sentinel and for no other one, and no ServerError
    can be extracted.  Data comes with an error only for LicenseExpired. *)
Theorem Verify_error_kinds (h : Host) (v : OfflineValidator)
  (raw : list Byte.byte) (d : option OfflineLicenseData) (e : error) :
  Verify h v raw = (d, Some e) ->
  exists k,
    k ∈ offline_kinds /\
    (forall s, errors_Is e s = bool_decide (s = k)) /\
    errors_As e = None /\
    (d <> None -> e = Sentinel_ ErrLicenseExpired).
Proof.
  assert (Hwrap : forall k rest, forall s,
            errors_Is (Errorf_w (Sentinel_ k) rest) s = bool_decide (s = k)).
  { intros k rest s. rewrite errors_Is_Errorf_w.
    apply bool_decide_ext. split; congruence. }
  assert (Hplain : forall k s, errors_Is (Sentinel_ k) s = bool_decide (s = k)).
  { intros k s. simpl. rewrite orb_false_r.
    apply bool_decide_ext. split; congruence. }
  unfold Verify, offline_kinds.
  destruct (ext (Unmarshal_OfflineLicenseFile raw)) as [file|e0].
  2: { intros [= <- <-]. exists ErrLicenseFileInvalid.
       split; [set_solver |]. split; [apply Hwrap |]. split; [reflexivity | congruence]. }
  destruct (_ || _).
  { intros [= <- <-]. exists ErrLicenseFileInvalid.
    split; [set_solver |]. split; [apply Hplain |]. split; [reflexivity | congruence]. }
  destruct (resolvePublicKey v file =? "")%string.
  { intros [= <- <-]. exists ErrPublicKeyInvalid.
    split; [set_solver |]. split; [apply Hplain |]. split; [reflexivity | congruence]. }
  destruct (ext (base64_DecodeString (resolvePublicKey v file))) as [pk|e1].
  2: { intros [= <- <-]. exists ErrPublicKeyInvalid.
       split; [set_solver |]. split; [apply Hwrap |]. split; [reflexivity | congruence]. }
  destruct (negb _).
  { intros [= <- <-]. exists ErrPublicKeyInvalid.
    split; [set_solver |]. split; [apply Hwrap |]. split; [reflexivity | congruence]. }
  destruct (ext (base64_DecodeString (Signature file))) as [sg|e2].
  2: { intros [= <- <-]. exists ErrSignatureInvalid.
       split; [set_solver |]. split; [apply Hwrap |]. split; [reflexivity | congruence]. }
  destruct (negb _).
  { intros [= <- <-]. exists ErrSignatureInvalid.
    split; [set_solver |]. split; [apply Hplain |]. split; [reflexivity | congruence]. }
  destruct (ext (Unmarshal_OfflineLicenseData (License file))) as [data|e3].
  2: { intros [= <- <-]. exists ErrLicenseFileInvalid.
       split; [set_solver |]. split; [apply Hwrap |]. split; [reflexivity | congruence]. }
  destruct (_ && _); [| discriminate].
  intros [= <- <-]. exists ErrLicenseExpired.
  split; [set_solver |]. split; [apply Hplain |]. split; reflexivity.
Qed.

(** X3. The checks of Verify come in a fixed order, each with its own error:
    an envelope without payload or without signature is LicenseFileInvalid,
    whatever the keys; with both present but no key from either source it is
    PublicKeyInvalid, whatever the signature; a key that decodes to another
    length than 32 bytes is PublicKeyInvalid with both lengths in the message,
    before the signature is even decoded. *)
Theorem Verify_check_order (h : Host) (v : OfflineValidator)
  (raw : list Byte.byte) (file : OfflineLicenseFile) :
  Unmarshal_OfflineLicenseFile raw = Ok file ->
  (License file = [] \/ Signature file = "" ->
     Verify h v raw = (None, Some (Sentinel_ ErrLicenseFileInvalid))) /\
  (License file <> [] -> Signature file <> "" ->
   trustedPublicKey v = "" -> PublicKey file = "" ->
     Verify h v raw = (None, Some (Sentinel_ ErrPublicKeyInvalid))) /\
  (forall pk,
     License file <> [] -> Signature file <> "" ->
     resolvePublicKey v file <> "" ->
     base64_DecodeString (resolvePublicKey v file) = Ok pk ->
     Z.of_nat (length pk) <> PublicKeySize ->
     exists e,
       Verify h v raw = (None, Some e) /\
       errors_Is e ErrPublicKeyInvalid = true /\
       Error e = "invalid public key: key length " +:+ pretty (Z.of_nat (length pk))
                 +:+ ", expected 32").
Proof.
  intros Hfile. unfold Verify. rewrite Hfile. cbn [ext].
  split; [| split].
  - intros [Hnil | Hempty].
    + rewrite Hnil. reflexivity.
    + rewrite Hempty. rewrite orb_true_r. reflexivity.
  - intros Hlic Hsig Htrusted Hembedded.
    rewrite (length_zero_false _ Hlic).
    apply String.eqb_neq in Hsig. rewrite Hsig. cbn [orb].
    rewrite resolvePublicKey_embedded by exact Htrusted.
    rewrite Hembedded. reflexivity.
  - intros pk Hlic Hsig Hkey Hpk Hsize.
    rewrite (length_zero_false _ Hlic).
    apply String.eqb_neq in Hsig, Hkey. rewrite Hsig, Hkey. cbn [orb].
    rewrite Hpk. cbn [ext].
    apply Z.eqb_neq in Hsize. rewrite Hsize. cbn [negb].
    eexists. split; [reflexivity |]. split; reflexivity.
Qed.

(** X4. The expiry test is strict and a zero expiration instant never
    expires: for a payload that is signed under the resolved key and parses,
    Verify returns the data without error exactly when the expiration instant
    is zero or not before the current time (so a license that expires at this
    very instant is still accepted), and with LicenseExpired otherwise. *)
Theorem Verify_expiry_boundary (h : Host) (v : OfflineValidator)
  (raw : list Byte.byte) (file : OfflineLicenseFile) (data : OfflineLicenseData) :
  well_formed_envelope raw file ->
  signed_under file (resolvePublicKey v file) ->
  Unmarshal_OfflineLicenseData (License file) = Ok data ->
  (Verify h v raw = (Some data, None) <->
     data_ExpiresAt data = 0 \/ time_Now h <= data_ExpiresAt data) /\
  (Verify h v raw = (Some data, Some (Sentinel_ ErrLicenseExpired)) <->
     data_ExpiresAt data <> 0 /\ data_ExpiresAt data < time_Now h).
Proof.
  intros Hwf (pk & sg & Hkey & Hsg & Hver) Hdata.
  rewrite (Verify_from_signature h v raw file pk sg Hwf Hkey Hsg).
  rewrite Hver, Hdata. cbn [negb ext]. unfold IsZero, Before.
  assert (Hpair : forall (a b : option error),
            (Some data, a) = (Some data, b) <-> a = b)
    by (intros a b; split; congruence).
  destruct (Z.eqb_spec (data_ExpiresAt data) 0) as [Hz|Hnz];
    destruct (Z.ltb_spec (data_ExpiresAt data) (time_Now h)) as [Hlt|Hge];
    cbn [negb andb]; rewrite !Hpair; split; split; intros Hx;
    first [discriminate | reflexivity | lia | (left; lia) | (right; lia)
          | (destruct Hx; lia) | (exfalso; lia) | (exfalso; destruct Hx; lia)].
Qed.

(** X5. VerifyFile is Verify on the bytes of the file; when the file cannot be
    read it returns no data and an error that names the stage and is none of
    the package's sentinels. *)
Theorem VerifyFile_read (h : Host) (readFile : string -> Lib (list Byte.byte))
  (v : OfflineValidator) (filePath : string) :
  (forall raw, readFile filePath = Ok raw ->
     VerifyFile h readFile v filePath = Verify h v raw) /\
  (forall msg, readFile filePath = Err msg ->
     exists e, VerifyFile h readFile v filePath = (None, Some e) /\
       Error e = "read license file: " +:+ msg /\
       (forall s, errors_Is e s = false)).
Proof.
  unfold VerifyFile. split.
  - intros raw ->. reflexivity.
  - intros msg ->. eexists. split; [reflexivity |].
    split; [reflexivity | intros s; reflexivity].
Qed.

End OfflineSteps.

Section OfflineStepsExamples.
#[local] Existing Instance Fixture.lib.

(** The file signed under the trusted key, read before its expiry. *)
Lemma Verify_returns_only_signed_data_witness :
  exists file,
    well_formed_envelope (list_byte_of_string "T") file /\
    signed_under file (resolvePublicKey {| trustedPublicKey := Fixture.T_key |} file) /\
    Unmarshal_OfflineLicenseData (License file) = Ok (Fixture.license_data 100) /\
    ((@None error = None /\
      (data_ExpiresAt (Fixture.license_data 100) = 0 \/
       time_Now (Fixture.host "" 50) <= data_ExpiresAt (Fixture.license_data 100))) \/
     (@None error = Some (Sentinel_ ErrLicenseExpired) /\
      data_ExpiresAt (Fixture.license_data 100) <> 0 /\
      data_ExpiresAt (Fixture.license_data 100) < time_Now (Fixture.host "" 50))).
Proof.
  apply (Verify_returns_only_signed_data (Fixture.host "" 50)
           {| trustedPublicKey := Fixture.T_key |} (list_byte_of_string "T")).
  vm_compute. reflexivity.
Defined.

(** The file signed under the embedded key, checked against the trusted one. *)
Lemma Verify_error_kinds_witness :
  exists k,
    k ∈ offline_kinds /\
    (forall s, errors_Is (Sentinel_ ErrSignatureInvalid) s = bool_decide (s = k)) /\
    errors_As (Sentinel_ ErrSignatureInvalid) = None /\
    (@None OfflineLicenseData <> None ->
     Sentinel_ ErrSignatureInvalid = Sentinel_ ErrLicenseExpired).
Proof.
  apply (Verify_error_kinds (Fixture.host "" 50)
           {| trustedPublicKey := Fixture.T_key |} (list_byte_of_string "E")).
  vm_compute. reflexivity.
Defined.

(** A validator whose trusted key is text of three characters. *)
Lemma Verify_check_order_witness :
  exists e,
    Verify (Fixture.host "" 50) {| trustedPublicKey := "abc" |} (list_byte_of_string "T")
    = (None, Some e) /\
    errors_Is e ErrPublicKeyInvalid = true /\
    Error e = "invalid public key: key length 3, expected 32".
Proof.
  assert (Hfile : Unmarshal_OfflineLicenseFile (list_byte_of_string "T")
                  = Ok (Fixture.file_signed_by Fixture.T_key)) by reflexivity.
  destruct (Verify_check_order (Fixture.host "" 50) {| trustedPublicKey := "abc" |}
              _ _ Hfile) as (_ & _ & Hlength).
  apply (Hlength (list_byte_of_string "abc"));
    first [reflexivity | discriminate | (vm_compute; discriminate)].
Defined.

(** The signed file at the very instant of its expiry. *)
Lemma Verify_expiry_boundary_witness :
  Verify (Fixture.host "" 100) {| trustedPublicKey := Fixture.T_key |}
    (list_byte_of_string "T")
  = (Some (Fixture.license_data 100), None).
Proof.
  assert (Hwf : well_formed_envelope (list_byte_of_string "T")
                  (Fixture.file_signed_by Fixture.T_key))
    by (repeat split; discriminate).
  assert (Hsigned : signed_under (Fixture.file_signed_by Fixture.T_key)
                      (resolvePublicKey {| trustedPublicKey := Fixture.T_key |}
                         (Fixture.file_signed_by Fixture.T_key))).
  { exists (list_byte_of_string Fixture.T_key),
      (list_byte_of_string (Signature (Fixture.file_signed_by Fixture.T_key))).
    repeat split; try discriminate; vm_compute; reflexivity. }
  destruct (Verify_expiry_boundary (Fixture.host "" 100)
              {| trustedPublicKey := Fixture.T_key |} _ _ (Fixture.license_data 100)
              Hwf Hsigned eq_refl) as [[_ Hfresh] _].
  apply Hfresh. right. vm_compute. discriminate.
Defined.

(** A path that cannot be opened. *)
Lemma VerifyFile_read_witness :
  exists e,
    VerifyFile (Fixture.host "" 50) (fun _ => Err "open license.json: no such file")
      {| trustedPublicKey := Fixture.T_key |} "license.json" = (None, Some e) /\
    Error e = "read license file: open license.json: no such file" /\
    (forall s, errors_Is e s = false).
Proof.
  destruct (VerifyFile_read (Fixture.host "" 50)
              (fun _ => Err "open license.json: no such file")
              {| trustedPublicKey := Fixture.T_key |} "license.json") as [_ Hfail].
  apply (Hfail "open license.json: no such file"). reflexivity.
Defined.

End OfflineStepsExamples.

(** ** The machine fingerprint *)

#[local] Instance string_le_total : Total string_le.
Proof. intros a b. unfold string_le. apply String.leb_total. Qed.

#[local] Instance string_le_antisym : AntiSymm eq string_le.
Proof. intros a b. unfold string_le. apply String.leb_antisym. Qed.

Lemma string_le_lt_eq (a b : string) :
  string_le a b <-> a = b \/ String_as_OT.lt a b.
Proof.
  unfold string_le, String.leb.
  destruct (a ?= b)%string eqn:Hcmp.
  - apply String_as_OT.cmp_eq in Hcmp. tauto.
  - apply String_as_OT.cmp_lt in Hcmp. tauto.
  - split; [discriminate |]. intros [-> | Hlt].
    + assert (Heq : (b ?= b)%string = Eq) by (apply String_as_OT.cmp_eq; reflexivity).
      unfold String_as_OT.cmp in Heq. congruence.
    + apply String_as_OT.cmp_lt in Hlt. unfold String_as_OT.cmp in Hlt. congruence.
Qed.

#[local] Instance string_le_trans : Transitive string_le.
Proof.
  intros a b c Hab Hbc. apply string_le_lt_eq in Hab, Hbc. apply string_le_lt_eq.
  destruct Hab as [-> | Hab]; [exact Hbc |].
  destruct Hbc as [<- | Hbc]; [right; exact Hab |].
  right. exact (String_as_OT.lt_trans _ _ _ Hab Hbc).
Qed.

(** sort.Strings gives one result for all orders of the same strings. *)
Lemma sort_Strings_Permutation (l1 l2 : list string) :
  l1 ≡ₚ l2 -> sort_Strings l1 = sort_Strings l2.
Proof.
  intros Hperm. unfold sort_Strings.
  apply (Sorted_unique string_le); try apply Sorted_merge_sort; try apply _.
  rewrite !merge_sort_Permutation. exact Hperm.
Qed.

Section FingerprintProperties.
Context `{GoLib}.

(** X6. GenerateFingerprint fails only when the hostname cannot be read and
    the environment gives no override: a non-empty CNW_FINGERPRINT is returned
    as it is, whatever the state of the host; without it, an unreadable
    hostname is the error "get hostname: ...", and a readable hostname gives a
    fingerprint whether or not the interfaces and the machine-id file can be
    read. *)
Theorem GenerateFingerprint_failure_mode (h : Host) :
  (os_Getenv_CNW_FINGERPRINT h <> "" ->
     GenerateFingerprint h = Ok (os_Getenv_CNW_FINGERPRINT h)) /\
  (os_Getenv_CNW_FINGERPRINT h = "" ->
     (forall msg, os_Hostname h = Err msg ->
        exists e, GenerateFingerprint h = Err e /\
          Error e = "get hostname: " +:+ msg /\
          forall s, errors_Is e s = false) /\
     (forall name, os_Hostname h = Ok name ->
        exists parts, GenerateFingerprint h = Ok (sha256_hex (Join (name :: parts) "|")))).
Proof.
  unfold GenerateFingerprint. split.
  - intros Hne. apply String.eqb_neq in Hne. rewrite Hne. reflexivity.
  - intros ->. cbn [String.eqb negb]. split.
    + intros msg ->. eexists. split; [reflexivity |].
      split; [reflexivity | intros s; reflexivity].
    + intros name ->. cbn [ext].
      destruct (getMACAddresses h); destruct (ext (os_ReadFile_machine_id h));
        cbn [app]; eexists; reflexivity.
Qed.

(** X7. The fingerprint depends on the interfaces only through the hardware
    addresses of the non-loopback interfaces that have one, each taken as
    often as it occurs and in no particular order: two lists of interfaces
    with the same such addresses, the same number of times each, give the
    same fingerprint.  So listing the interfaces in another order, adding a
    loopback interface or one without hardware address, and failing to list
    them at all instead of listing none, do not change it. *)
Theorem GenerateFingerprint_interfaces (h : Host) (l1 l2 : list Interface)
  (i : Interface) (msg : string) :
  (usable_macs l1 ≡ₚ usable_macs l2 ->
     GenerateFingerprint (with_interfaces h (Ok l1))
     = GenerateFingerprint (with_interfaces h (Ok l2))) /\
  (l1 ≡ₚ l2 ->
     GenerateFingerprint (with_interfaces h (Ok l1))
     = GenerateFingerprint (with_interfaces h (Ok l2))) /\
  (loopback i = true \/ HardwareAddr i = "" ->
     GenerateFingerprint (with_interfaces h (Ok (i :: l1)))
     = GenerateFingerprint (with_interfaces h (Ok l1))) /\
  GenerateFingerprint (with_interfaces h (Err msg))
  = GenerateFingerprint (with_interfaces h (Ok [])).
Proof.
  unfold GenerateFingerprint, getMACAddresses. cbn [with_interfaces
    os_Getenv_CNW_FINGERPRINT os_Hostname net_Interfaces runtime_GOOS runtime_GOARCH
    os_ReadFile_machine_id ext].
  split; [| split; [| split]].
  - intros Hperm. fold (usable_macs l1). fold (usable_macs l2).
    rewrite (sort_Strings_Permutation _ _ Hperm). reflexivity.
  - intros Hperm.
    rewrite (sort_Strings_Permutation _ _ (omap_Permutation _ _ _ Hperm)).
    reflexivity.
  - intros Hskip. cbn [omap list_omap].
    destruct Hskip as [-> | ->]; [reflexivity |].
    destruct (loopback i); reflexivity.
  - cbn [omap list_omap]. unfold sort_Strings.
    destruct (negb _); [reflexivity |].
    destruct (os_Hostname h); cbn [ext]; [| reflexivity].
    rewrite app_nil_r. reflexivity.
Qed.

End FingerprintProperties.

Section FingerprintPropertiesExamples.
#[local] Existing Instance Fixture.lib.

(** The override on a host whose hostname cannot be read. *)
Lemma GenerateFingerprint_failure_mode_witness :
  let h := {| os_Getenv_CNW_FINGERPRINT := "pod-7"; os_Hostname := Err "no hostname";
              net_Interfaces := Err "permission denied"; runtime_GOOS := "linux";
              runtime_GOARCH := "arm64"; os_ReadFile_machine_id := Err "no such file";
              runtime_NumCPU := 2; time_Now := 1 |} in
  GenerateFingerprint h = Ok "pod-7".
Proof.
  intros h. destruct (GenerateFingerprint_failure_mode h) as [Hoverride _].
  apply Hoverride. discriminate.
Defined.

(** Two interfaces listed in either order. *)
Lemma GenerateFingerprint_interfaces_witness :
  let a := {| loopback := false; HardwareAddr := "02:42:ac:11:00:02" |} in
  let b := {| loopback := false; HardwareAddr := "00:1b:21:3c:9d:f8" |} in
  GenerateFingerprint (with_interfaces (Fixture.host "" 0) (Ok [a; b]))
  = GenerateFingerprint (with_interfaces (Fixture.host "" 0) (Ok [b; a])).
Proof.
  intros a b.
  destruct (GenerateFingerprint_interfaces (Fixture.host "" 0) [a; b] [b; a] a "")
    as [Hmacs _].
  apply Hmacs. apply Permutation_swap.
Defined.

End FingerprintPropertiesExamples.

(** ** Hardware limits from a feature map *)

(** X8. ExtractHardwareLimits reads two keys and nothing else: a nil map and
    an empty map give the zero limits; setting or deleting any other key does
    not change the result; a key that is absent leaves its limit at zero, and
    then the corresponding check passes for every count. *)
Theorem ExtractHardwareLimits_recognized_keys
  (features : gmap string any) (k : string) (v : any) (h : Host) (count : Z) :
  ExtractHardwareLimits None = {| MaxCPUPerNode := 0; MaxNodes := 0 |} /\
  ExtractHardwareLimits (Some ∅) = {| MaxCPUPerNode := 0; MaxNodes := 0 |} /\
  (k <> "max_cpu_per_node" -> k <> "max_nodes" ->
     ExtractHardwareLimits (Some (<[k:=v]> features))
     = ExtractHardwareLimits (Some features) /\
     ExtractHardwareLimits (Some (delete k features))
     = ExtractHardwareLimits (Some features)) /\
  (features !! "max_nodes" = None ->
     CheckNodeCount (ExtractHardwareLimits (Some features)) count = None) /\
  (features !! "max_cpu_per_node" = None ->
     CheckCPU h (ExtractHardwareLimits (Some features)) = None).
Proof.
  split; [reflexivity |]. split; [reflexivity |].
  split; [| split].
  - intros Hcpu Hnodes. unfold ExtractHardwareLimits.
    rewrite !lookup_insert_ne, !lookup_delete_ne by congruence. split; reflexivity.
  - intros Hnone. apply CheckNodeCount_unlimited.
    unfold ExtractHardwareLimits. rewrite Hnone. simpl. lia.
  - intros Hnone. apply CheckCPU_unlimited.
    unfold ExtractHardwareLimits. rewrite Hnone. simpl. lia.
Qed.

(** A map with the node limit and a feature of the application. *)
Lemma ExtractHardwareLimits_recognized_keys_witness :
  ExtractHardwareLimits
    (Some (<["custom_feature" := Str "enabled"]> {[ "max_nodes" := Float64 2 0 ]}))
  = ExtractHardwareLimits (Some {[ "max_nodes" := Float64 2 0 ]}).
Proof.
  destruct (ExtractHardwareLimits_recognized_keys {[ "max_nodes" := Float64 2 0 ]}
              "custom_feature" (Str "enabled") (Fixture.host "" 0) 0)
    as (_ & _ & Hother & _).
  apply Hother; discriminate.
Defined.



(** ** The online client, answer by answer *)

Section ClientAnswers.
Context `{GoLib}.

(** X11. parseError never drops the failure: from its result a ServerError
    with the status of the answer can always be extracted.  A body that does
    not parse as an error document gives the ServerError itself, with code
    "UNKNOWN" and the raw body as message; a body that parses gives the mapped
    error of its code and message. *)
Theorem parseError_keeps_status (c : OnlineClient) (status : Z) (body : list Byte.byte) :
  exists se,
    errors_As (parseError c status body) = Some se /\
    StatusCode se = status /\
    (forall msg, Unmarshal_errResp body = Err msg ->
       parseError c status body = Server se /\
       Code se = "UNKNOWN" /\ Message se = string_of_bytes body) /\
    (forall code message, Unmarshal_errResp body = Ok (code, message) ->
       parseError c status body = mapServerError se /\
       Code se = code /\ Message se = message).
Proof.
  unfold parseError.
  destruct (Unmarshal_errResp body) as [[code message]|msg]; cbn [ext].
  - exists {| StatusCode := status; Code := code; Message := message |}.
    split.
    { destruct (mapServerError_cases
                  {| StatusCode := status; Code := code; Message := message |})
        as [-> | [s ->]]; reflexivity. }
    split; [reflexivity |]. split; [intros m [=] |].
    intros code' message' [= <- <-]. auto.
  - eexists. split; [reflexivity |]. split; [reflexivity |].
    split; [auto | intros code message [=]].
Qed.

(** What [doJSON] does with an answer whose body could be read. *)
Lemma doJSON_answer {A} (c : OnlineClient) (path : string) (body : Payload)
  (decode : list Byte.byte -> Lib A) (w : World) (resp : HttpResponse)
  (bytes : list Byte.byte) :
  http_NewRequest (serverURL c +:+ path) = None ->
  httpClient_Do c (request_for c path body) = Ok resp ->
  http_Body resp = Ok bytes ->
  doJSON c path body decode w =
    (if http_StatusCode resp >=? 400 then
       Err (parseError c (http_StatusCode resp) (take maxResponseBytes bytes))
     else
       match decode (take maxResponseBytes bytes) with
       | Ok dest => Ok dest
       | Err msg => Err (Errorf_prefix "decode response: " (External msg))
       end,
     {| conn := conn w; trace := trace w ++ [HttpDo (request_for c path body)] |}).
Proof.
  intros Hnew Hdo Hbody. unfold doJSON. cbn [URL]. rewrite Hnew.
  unfold bind, emit, ret. fold (request_for c path body).
  rewrite Hdo. cbn [ext]. rewrite Hbody. cbn [ext].
  destruct (http_StatusCode resp >=? 400); [reflexivity |].
  destruct (decode _); reflexivity.
Qed.

(** X12. An answer with status 400 or more is an error whatever its body,
    and any lower status (a 3xx one included) is decoded as a success; either
    way only the first 2^20 bytes of the body are looked at. *)
Theorem doJSON_status_and_cap {A} (c : OnlineClient) (path : string) (body : Payload)
  (decode : list Byte.byte -> Lib A) (w : World) (resp : HttpResponse)
  (bytes : list Byte.byte) :
  http_NewRequest (serverURL c +:+ path) = None ->
  httpClient_Do c (request_for c path body) = Ok resp ->
  http_Body resp = Ok bytes ->
  (400 <= http_StatusCode resp ->
     fst (doJSON c path body decode w)
     = Err (parseError c (http_StatusCode resp) (take (2 ^ 20) bytes))) /\
  (http_StatusCode resp < 400 ->
     forall dest, decode (take (2 ^ 20) bytes) = Ok dest ->
     fst (doJSON c path body decode w) = Ok dest) /\
  (forall do' resp' bytes',
     do' (request_for c path body) = Ok resp' ->
     http_Body resp' = Ok bytes' ->
     http_StatusCode resp' = http_StatusCode resp ->
     take (2 ^ 20) bytes' = take (2 ^ 20) bytes ->
     doJSON (with_transport c do') path body decode w = doJSON c path body decode w).
Proof.
  intros Hnew Hdo Hbody.
  rewrite (doJSON_answer c path body decode w resp bytes Hnew Hdo Hbody).
  cbn [fst]. change maxResponseBytes with (2 ^ 20)%nat.
  split; [| split].
  - intros Hge. destruct (Z.geb_spec (http_StatusCode resp) 400); [reflexivity | lia].
  - intros Hlt dest Hdec.
    destruct (Z.geb_spec (http_StatusCode resp) 400); [lia |].
    rewrite Hdec. reflexivity.
  - intros do' resp' bytes' Hdo' Hbody' Hstatus Htake.
    rewrite (doJSON_answer (with_transport c do') path body decode w resp' bytes');
      [| exact Hnew | exact Hdo' | exact Hbody'].
    change maxResponseBytes with (2 ^ 20)%nat.
    rewrite Hstatus, Htake. reflexivity.
Qed.

(** X13. A failure of doJSON is either the server's own error answer (status
    400 or more, through parseError) or an error without meaning for the
    license: a request that could not be built or sent, a body that could not
    be read or decoded.  Such an error satisfies errors.Is for none of the
    sentinels, and no ServerError can be extracted from it. *)
Theorem doJSON_failure_kinds {A} (c : OnlineClient) (path : string) (body : Payload)
  (decode : list Byte.byte -> Lib A) (w w' : World) (e : error) :
  doJSON c path body decode w = (Err e, w') ->
  (exists resp bytes,
     httpClient_Do c (request_for c path body) = Ok resp /\
     http_Body resp = Ok bytes /\
     400 <= http_StatusCode resp /\
     e = parseError c (http_StatusCode resp) (take (2 ^ 20) bytes)) \/
  ((forall s, errors_Is e s = false) /\ errors_As e = None).
Proof.
  unfold doJSON. cbn [URL].
  destruct (http_NewRequest _) as [msg|].
  { unfold ret. intros [= <- <-]. right. split; [intros s |]; reflexivity. }
  unfold bind, emit, ret. fold (request_for c path body).
  destruct (httpClient_Do c (request_for c path body)) as [resp|m0] eqn:Hdo; cbn [ext].
  2: { intros [= <- <-]. right. split; [intros s |]; reflexivity. }
  destruct (http_Body resp) as [bytes|m1] eqn:Hbody; cbn [ext].
  2: { intros [= <- <-]. right. split; [intros s |]; reflexivity. }
  destruct (Z.geb_spec (http_StatusCode resp) 400) as [Hge|Hlt].
  - intros [= <- <-]. left. exists resp, bytes. auto.
  - destruct (decode _) as [dest|m2]; cbn [ext]; [discriminate |].
    intros [= <- <-]. right. split; [intros s |]; reflexivity.
Qed.

(** X14. A server error reaches the caller of Validate and of Activate with
    its meaning and its details: when the server answers with a status of 400
    or more and an error document {code, message}, both return the mapped
    error of that status, code and message, from which errors.As extracts
    exactly these three. *)
Theorem server_error_reaches_caller (c : OnlineClient) (w : World)
  (vreq : ValidateRequest) (areq : ActivateRequest)
  (status : Z) (bytes : list Byte.byte) (code message : string) :
  http_NewRequest (serverURL c +:+ "/v1/validate") = None ->
  http_NewRequest (serverURL c +:+ "/v1/activate") = None ->
  (forall req, httpClient_Do c req
               = Ok {| http_StatusCode := status; http_Body := Ok bytes |}) ->
  400 <= status ->
  Unmarshal_errResp (take (2 ^ 20) bytes) = Ok (code, message) ->
  let se := {| StatusCode := status; Code := code; Message := message |} in
  fst (Validate c vreq w) = Err (mapServerError se) /\
  fst (Activate c areq w) = Err (mapServerError se) /\
  errors_As (mapServerError se) = Some se.
Proof.
  intros Hnv Hna Hdo Hge Herr se.
  assert (Hparse : parseError c status (take (2 ^ 20) bytes) = mapServerError se).
  { unfold parseError. rewrite Herr. reflexivity. }
  split; [| split].
  - unfold Validate.
    match goal with
    | |- fst (doJSON c ?p ?b ?d w) = _ =>
        destruct (doJSON_status_and_cap c p b d w _ bytes Hnv (Hdo _) eq_refl)
          as [Hfail _]
    end.
    cbn [http_StatusCode] in Hfail. rewrite (Hfail Hge). f_equal. exact Hparse.
  - unfold Activate.
    match goal with
    | |- fst (doJSON c ?p ?b ?d w) = _ =>
        destruct (doJSON_status_and_cap c p b d w _ bytes Hna (Hdo _) eq_refl)
          as [Hfail _]
    end.
    cbn [http_StatusCode] in Hfail. rewrite (Hfail Hge). f_equal. exact Hparse.
  - destruct (mapServerError_cases se) as [-> | [s ->]]; reflexivity.
Qed.

(** X15. The fingerprint of a request: Validate and Activate send the
    fingerprint the caller gave when it is not empty, whatever the client-level
    one is; an empty one is replaced by the client-level fingerprint; the other
    fields of the request are sent as given.  Each sends one POST, to
    /v1/validate and /v1/activate under the server URL, with the API key. *)
Theorem request_fingerprint_default (c : OnlineClient) (w : World)
  (vreq : ValidateRequest) (areq : ActivateRequest) :
  http_NewRequest (serverURL c +:+ "/v1/validate") = None ->
  http_NewRequest (serverURL c +:+ "/v1/activate") = None ->
  (exists sent,
     trace (snd (Validate c vreq w)) = trace w ++ [HttpDo sent] /\
     URL sent = serverURL c +:+ "/v1/validate" /\ X_API_Key sent = apiKey c /\
     exists body, Body sent = ValidateBody body /\
       req_LicenseKey body = req_LicenseKey vreq /\
       req_Version body = req_Version vreq /\
       req_Fingerprint body =
         (if decide (req_Fingerprint vreq = "") then fingerprint c
          else req_Fingerprint vreq)) /\
  (exists sent,
     trace (snd (Activate c areq w)) = trace w ++ [HttpDo sent] /\
     URL sent = serverURL c +:+ "/v1/activate" /\ X_API_Key sent = apiKey c /\
     exists body, Body sent = ActivateBody body /\
       act_LicenseKey body = act_LicenseKey areq /\
       act_Hostname body = act_Hostname areq /\
       act_IP body = act_IP areq /\ act_OS body = act_OS areq /\
       act_Fingerprint body =
         (if decide (act_Fingerprint areq = "") then fingerprint c
          else act_Fingerprint areq)).
Proof.
  assert (Hsent : forall {A} path body (decode : list Byte.byte -> Lib A),
            http_NewRequest (serverURL c +:+ path) = None ->
            trace (snd (doJSON c path body decode w))
            = trace w ++ [HttpDo (request_for c path body)]).
  { intros A path body decode Hnew. unfold doJSON. cbn [URL]. rewrite Hnew.
    unfold bind, emit, ret. fold (request_for c path body).
    destruct (ext (httpClient_Do c _)) as [resp|e0]; [| reflexivity].
    destruct (ext (http_Body resp)) as [bytes|e1]; [| reflexivity].
    destruct (_ >=? 400); [reflexivity |].
    destruct (ext (decode _)); reflexivity. }
  intros Hnv Hna. split.
  - eexists. split; [unfold Validate; apply Hsent, Hnv |].
    split; [reflexivity |]. split; [reflexivity |].
    eexists. split; [reflexivity |].
    destruct (decide (req_Fingerprint vreq = "")) as [Hempty | Hgiven].
    + rewrite Hempty. cbn [String.eqb andb].
      destruct (fingerprint c =? "")%string eqn:Hc; cbn [negb].
      * apply String.eqb_eq in Hc. rewrite Hc. auto.
      * auto.
    + apply String.eqb_neq in Hgiven. rewrite Hgiven. auto.
  - eexists. split; [unfold Activate; apply Hsent, Hna |].
    split; [reflexivity |]. split; [reflexivity |].
    eexists. split; [reflexivity |].
    destruct (decide (act_Fingerprint areq = "")) as [Hempty | Hgiven].
    + rewrite Hempty. cbn [String.eqb andb].
      destruct (fingerprint c =? "")%string eqn:Hc; cbn [negb].
      * apply String.eqb_eq in Hc. rewrite Hc. repeat split; auto.
      * repeat split; auto.
    + apply String.eqb_neq in Hgiven. rewrite Hgiven. repeat split; auto.
Qed.

End ClientAnswers.

Section ClientAnswersExamples.
#[local] Existing Instance Fixture.lib.

(** An answer 404 whose body is no error document. *)
Lemma parseError_keeps_status_witness :
  exists se,
    errors_As (parseError (Fixture.online "" "") 404 (list_byte_of_string "not found"))
    = Some se /\ StatusCode se = 404.
Proof.
  destruct (parseError_keeps_status (Fixture.online "" "") 404
              (list_byte_of_string "not found")) as (se & Has & Hstatus & _).
  exists se. split; assumption.
Defined.

(** A 200 answer that decodes. *)
Lemma doJSON_status_and_cap_witness :
  fst (doJSON (Fixture.online "0" "") "/v1/validate"
         (ValidateBody {| req_LicenseKey := "K"; req_Fingerprint := "";
                          req_Version := "" |})
         Unmarshal_ValidateResponse (Fixture.world [] []))
  = Ok {| Valid := false; Reason := "license not found"; Plan := "";
          ExpiresAt := None; resp_Features := None; ActivationRemaining := 0 |}.
Proof.
  assert (Hnew : http_NewRequest (serverURL (Fixture.online "0" "") +:+ "/v1/validate")
                 = None) by reflexivity.
  destruct (doJSON_status_and_cap (Fixture.online "0" "") "/v1/validate"
              (ValidateBody {| req_LicenseKey := "K"; req_Fingerprint := "";
                               req_Version := "" |})
              Unmarshal_ValidateResponse (Fixture.world [] [])
              {| http_StatusCode := 200; http_Body := Ok (list_byte_of_string "0") |}
              (list_byte_of_string "0") Hnew eq_refl eq_refl) as (_ & Hok & _).
  apply Hok; [cbn; lia | vm_compute; reflexivity].
Defined.

(** A transport that cannot connect. *)
Lemma doJSON_failure_kinds_witness :
  let c := with_transport (Fixture.online "0" "")
             (fun _ => Err "dial tcp: connection refused") in
  let body := ValidateBody {| req_LicenseKey := "K"; req_Fingerprint := "";
                              req_Version := "" |} in
  let e := wrapError "http request: dial tcp: connection refused"
             (External "dial tcp: connection refused") in
  (exists resp bytes,
     httpClient_Do c (request_for c "/v1/validate" body) = Ok resp /\
     http_Body resp = Ok bytes /\
     400 <= http_StatusCode resp /\
     e = parseError c (http_StatusCode resp) (take (2 ^ 20) bytes)) \/
  ((forall s, errors_Is e s = false) /\ errors_As e = None).
Proof.
  intros c body e.
  apply (doJSON_failure_kinds c "/v1/validate" body Unmarshal_ValidateResponse
           (Fixture.world [] [])
           {| conn := Fixture.empty_conn;
              trace := [HttpDo (request_for c "/v1/validate" body)] |}).
  reflexivity.
Defined.

(** A request without fingerprint on a client that has one. *)
Lemma request_fingerprint_default_witness :
  exists sent body,
    trace (snd (Validate (Fixture.online "0" "client-fp")
                  {| req_LicenseKey := "K"; req_Fingerprint := ""; req_Version := "" |}
                  (Fixture.world [] []))) = [HttpDo sent] /\
    Body sent = ValidateBody body /\ req_Fingerprint body = "client-fp".
Proof.
  assert (Hnv : http_NewRequest (serverURL (Fixture.online "0" "client-fp")
                                  +:+ "/v1/validate") = None) by reflexivity.
  assert (Hna : http_NewRequest (serverURL (Fixture.online "0" "client-fp")
                                  +:+ "/v1/activate") = None) by reflexivity.
  destruct (request_fingerprint_default (Fixture.online "0" "client-fp")
              (Fixture.world [] [])
              {| req_LicenseKey := "K"; req_Fingerprint := ""; req_Version := "" |}
              {| act_LicenseKey := "K"; act_Fingerprint := ""; act_Hostname := "";
                 act_IP := ""; act_OS := "" |} Hnv Hna)
    as [(sent & Htrace & _ & _ & body & Hbody & _ & _ & Hfp) _].
  exists sent, body. split; [exact Htrace |]. split; [exact Hbody | exact Hfp].
Defined.

End ClientAnswersExamples.

Section RefusalExample.
#[local] Existing Instance Refusal.lib.

(** The server answers 409 with the code ACTIVATION_LIMIT. *)
Lemma server_error_reaches_caller_witness :
  let se := {| StatusCode := 409; Code := "ACTIVATION_LIMIT";
               Message := "activation limit reached" |} in
  fst (Activate Refusal.online
         {| act_LicenseKey := "K"; act_Fingerprint := "fp"; act_Hostname := "h";
            act_IP := ""; act_OS := "linux" |} (Fixture.world [] []))
  = Err (mapServerError se) /\
  errors_Is (mapServerError se) ErrActivationLimit = true /\
  errors_As (mapServerError se) = Some se.
Proof.
  intros se.
  assert (Hge : 400 <= 409) by lia.
  assert (Hnv : http_NewRequest (serverURL Refusal.online +:+ "/v1/validate") = None)
    by reflexivity.
  assert (Hna : http_NewRequest (serverURL Refusal.online +:+ "/v1/activate") = None)
    by reflexivity.
  assert (Herr : Unmarshal_errResp (take (2 ^ 20) (list_byte_of_string "{}"))
                 = Ok ("ACTIVATION_LIMIT", "activation limit reached"))
    by (vm_compute; reflexivity).
  destruct (server_error_reaches_caller Refusal.online (Fixture.world [] [])
              {| req_LicenseKey := "K"; req_Fingerprint := "fp"; req_Version := "" |}
              {| act_LicenseKey := "K"; act_Fingerprint := "fp"; act_Hostname := "h";
                 act_IP := ""; act_OS := "linux" |}
              409 (list_byte_of_string "{}") "ACTIVATION_LIMIT"
              "activation limit reached" Hnv Hna (fun _ => eq_refl) Hge Herr)
    as (_ & Hact & Has).
  split; [exact Hact |]. split; [reflexivity | exact Has].
Defined.

End RefusalExample.

(** ** The registries, method by method *)

Lemma others_of_all (fp : string) (l : list NodeInfo) :
  fp ∉ Fingerprint <$> l -> others_of fp l = l.
Proof.
  unfold others_of. induction l as [|a l IH]; [reflexivity |].
  rewrite fmap_cons. intros Hnotin. apply not_elem_of_cons in Hnotin as [Hne Hrest].
  rewrite filter_cons_True by (apply has_fingerprint_false; congruence).
  rewrite IH by exact Hrest. reflexivity.
Qed.

Lemma others_of_none (fp : string) (l : list NodeInfo) :
  Forall (fun n => has_fingerprint fp n = false) l -> others_of fp l = l.
Proof.
  unfold others_of. induction 1 as [|a l Ha _ IH]; [reflexivity |].
  rewrite filter_cons_True by exact Ha. rewrite IH. reflexivity.
Qed.

Lemma others_of_app (fp : string) (l1 l2 : list NodeInfo) :
  others_of fp (l1 ++ l2) = others_of fp l1 ++ others_of fp l2.
Proof. apply filter_app. Qed.

Lemma others_of_cons_same (fp : string) (n : NodeInfo) (l : list NodeInfo) :
  Fingerprint n = fp -> others_of fp (n :: l) = others_of fp l.
Proof.
  intros Hfp. unfold others_of. apply filter_cons_False.
  intros Hfalse. apply has_fingerprint_false in Hfalse. congruence.
Qed.

Lemma others_of_idempotent (fp : string) (l : list NodeInfo) :
  others_of fp (others_of fp l) = others_of fp l.
Proof. apply others_of_all, filter_out_fingerprint. Qed.

Lemma records_of_nil_Forall (fp : string) (l : list NodeInfo) :
  records_of fp l = [] -> Forall (fun n => has_fingerprint fp n = false) l.
Proof.
  intros Hnil. apply Forall_forall. intros n Hn.
  destruct (has_fingerprint fp n) eqn:Hfp; [| reflexivity].
  exfalso. apply (filter_nil_not_elem_of _ _ n Hnil Hfp Hn).
Qed.

Lemma delete_first_others (fp : string) (l : list NodeInfo) :
  unique_fingerprints l -> delete_first (has_fingerprint fp) l = others_of fp l.
Proof.
  unfold unique_fingerprints. induction l as [|a l IH]; [reflexivity |].
  rewrite fmap_cons. intros Hnd. apply NoDup_cons in Hnd as [Hnotin Hnd].
  simpl. destruct (has_fingerprint fp a) eqn:Ha.
  - apply has_fingerprint_true in Ha.
    rewrite others_of_cons_same by exact Ha.
    rewrite others_of_all by (rewrite <- Ha; exact Hnotin). reflexivity.
  - unfold others_of. rewrite filter_cons_True by exact Ha.
    fold (others_of fp l). rewrite IH by exact Hnd. reflexivity.
Qed.

Lemma seen_all (now : Time) (fp : string) (l : list NodeInfo) :
  fp ∉ Fingerprint <$> l -> seen now fp <$> l = l.
Proof.
  induction l as [|a l IH]; [reflexivity |].
  rewrite !fmap_cons. intros Hnotin. apply not_elem_of_cons in Hnotin as [Hne Hrest].
  rewrite IH by exact Hrest. unfold seen.
  replace (has_fingerprint fp a) with false
    by (symmetry; apply has_fingerprint_false; congruence).
  reflexivity.
Qed.

Lemma update_first_seen (now : Time) (fp : string) (l : list NodeInfo) :
  unique_fingerprints l ->
  match update_first (has_fingerprint fp) (set_LastSeenAt now) l with
  | Some (_, l') => l'
  | None => l
  end = seen now fp <$> l.
Proof.
  unfold unique_fingerprints. induction l as [|a l IH]; [reflexivity |].
  rewrite fmap_cons. intros Hnd. apply NoDup_cons in Hnd as [Hnotin Hnd].
  rewrite fmap_cons. cbn [update_first]. unfold seen at 1.
  destruct (has_fingerprint fp a) eqn:Ha.
  - apply has_fingerprint_true in Ha.
    rewrite seen_all by (rewrite <- Ha; exact Hnotin). reflexivity.
  - specialize (IH Hnd).
    destruct (update_first _ _ l) as [[n' l']|]; rewrite <- IH; reflexivity.
Qed.

(** The records sorted out by fingerprint. *)
Lemma split_by_fingerprint (fp : string) (l : list NodeInfo) :
  l ≡ₚ records_of fp l ++ others_of fp l.
Proof.
  unfold records_of, others_of. induction l as [|a l IH]; [reflexivity |].
  destruct (has_fingerprint fp a) eqn:Ha.
  - rewrite filter_cons_True by exact Ha.
    rewrite filter_cons_False by congruence.
    simpl. constructor. exact IH.
  - rewrite filter_cons_False by congruence.
    rewrite filter_cons_True by exact Ha.
    rewrite <- Permutation_middle. constructor. exact IH.
Qed.

Lemma count_of_Permutation (key : string) (l1 l2 : list NodeInfo) :
  l1 ≡ₚ l2 -> count_of key l1 = count_of key l2.
Proof. intros Hperm. unfold count_of. rewrite Hperm. reflexivity. Qed.

Lemma count_of_app (key : string) (l1 l2 : list NodeInfo) :
  count_of key (l1 ++ l2) = count_of key l1 + count_of key l2.
Proof. unfold count_of. rewrite filter_app, length_app. lia. Qed.

Lemma count_of_singleton (key : string) (n : NodeInfo) :
  count_of key [n] = if decide (LicenseKey n = key) then 1 else 0.
Proof.
  unfold count_of, has_license.
  destruct (decide (LicenseKey n = key)) as [Heq | Hne].
  - rewrite filter_cons_True by (apply String.eqb_eq; exact Heq). reflexivity.
  - rewrite filter_cons_False; [reflexivity |].
    intros Htrue. apply String.eqb_eq in Htrue. contradiction.
Qed.

(** The upsert leaves the records of the other fingerprints as they are. *)
Lemma upsert_others (stamp : Time) (node : NodeInfo) (l : list NodeInfo)
  (d : NodeInfo) (l' : list NodeInfo) :
  upsert stamp node l = (d, l') ->
  others_of (Fingerprint node) l' = others_of (Fingerprint node) l /\
  (records_of (Fingerprint node) l = [] -> l' = l ++ [d]).
Proof.
  unfold upsert.
  match goal with
  | |- context [update_first ?p ?f l] =>
      pose proof (update_first_spec p f l) as Hspec;
      destruct (update_first p f l) as [[n' l'']|]
  end.
  - destruct Hspec as (l1 & n & l2 & -> & Hl1 & Hn & -> & ->).
    intros [= <- <-]. apply has_fingerprint_true in Hn. split.
    + rewrite !others_of_app, !others_of_cons_same by (simpl; assumption).
      reflexivity.
    + intros Hnil. exfalso.
      apply records_of_nil_absent in Hnil. apply Hnil.
      rewrite fmap_app, fmap_cons, Hn. apply elem_of_app. right. left.
  - intros [= <- <-]. split; [| reflexivity].
    rewrite others_of_app, others_of_cons_same by reflexivity.
    apply app_nil_r.
Qed.

Lemma unique_fingerprints_filter (P : NodeInfo -> Prop) `{!forall n, Decision (P n)}
  (l : list NodeInfo) :
  unique_fingerprints l -> unique_fingerprints (filter P l).
Proof.
  unfold unique_fingerprints. intros Hnd.
  eapply sublist_NoDup; [exact Hnd |].
  apply fmap_sublist, sublist_filter.
Qed.

Lemma filter_true_cons {A} (p : A -> bool) (a : A) (l : list A) :
  filter (fun x => p x = true) (a :: l) =
    if p a then a :: filter (fun x => p x = true) l
    else filter (fun x => p x = true) l.
Proof.
  destruct (p a) eqn:Hp.
  - apply filter_cons_True. exact Hp.
  - apply filter_cons_False. congruence.
Qed.

Lemma filter_false_cons {A} (p : A -> bool) (a : A) (l : list A) :
  filter (fun x => p x = false) (a :: l) =
    if p a then filter (fun x => p x = false) l
    else a :: filter (fun x => p x = false) l.
Proof.
  destruct (p a) eqn:Hp.
  - apply filter_cons_False. congruence.
  - apply filter_cons_True. exact Hp.
Qed.

Lemma count_of_cons (key : string) (a : NodeInfo) (l : list NodeInfo) :
  count_of key (a :: l) = (if has_license key a then 1 else 0) + count_of key l.
Proof.
  unfold count_of. rewrite filter_true_cons.
  destruct (has_license key a); cbn [length]; lia.
Qed.

Lemma has_license_true (key : string) (n : NodeInfo) :
  has_license key n = true <-> LicenseKey n = key.
Proof. apply String.eqb_eq. Qed.

Lemma register_rows (stamp : Time) (node : NodeInfo) (l : list NodeInfo)
  (d : NodeInfo) (l' : list NodeInfo) :
  unique_fingerprints l ->
  upsert stamp node l = (d, l') ->
  unique_fingerprints l' /\
  records_of (Fingerprint node) l' = [d] /\
  others_of (Fingerprint node) l' = others_of (Fingerprint node) l /\
  (forall key, count_of key l' =
     count_of key (others_of (Fingerprint node) l) +
     (if decide (LicenseKey node = key) then 1 else 0)).
Proof.
  intros Huniq Hup.
  destruct (upsert_spec stamp node l d l' Huniq Hup)
    as (Hrec & Huniq' & _ & _ & _ & _ & Hkey & _).
  destruct (upsert_others stamp node l d l' Hup) as [Hothers _].
  split; [exact Huniq' |]. split; [exact Hrec |]. split; [exact Hothers |].
  intros key.
  rewrite (count_of_Permutation key _ _ (split_by_fingerprint (Fingerprint node) l')).
  rewrite count_of_app, Hrec, Hothers, count_of_singleton, Hkey. lia.
Qed.

Lemma seen_records (now : Time) (fp : string) (l : list NodeInfo) :
  records_of fp (seen now fp <$> l) = set_LastSeenAt now <$> records_of fp l /\
  others_of fp (seen now fp <$> l) = others_of fp l /\
  (forall key, count_of key (seen now fp <$> l) = count_of key l).
Proof.
  unfold records_of, others_of.
  induction l as [|a l (IHr & IHo & IHc)].
  - split; [reflexivity |]. split; reflexivity.
  - rewrite fmap_cons, !filter_true_cons, !filter_false_cons.
    assert (Hfp : has_fingerprint fp (seen now fp a) = has_fingerprint fp a)
      by (unfold seen; destruct (has_fingerprint fp a) eqn:Ha; [exact Ha | exact Ha]).
    rewrite Hfp. split; [| split].
    + destruct (has_fingerprint fp a) eqn:Ha; [| exact IHr].
      rewrite fmap_cons, IHr. unfold seen. rewrite Ha. reflexivity.
    + destruct (has_fingerprint fp a) eqn:Ha; [exact IHo |].
      rewrite IHo. unfold seen. rewrite Ha. reflexivity.
    + intros key. rewrite !count_of_cons, IHc.
      unfold seen. destruct (has_fingerprint fp a); reflexivity.
Qed.

Lemma stale_spec (key : string) (cutoff : Time) (n : NodeInfo) :
  stale key cutoff n = true <-> LicenseKey n = key /\ LastSeenAt n < cutoff.
Proof.
  unfold stale. rewrite andb_true_iff, has_license_true, Z.ltb_lt. reflexivity.
Qed.

Lemma prune_rows (key : string) (cutoff : Time) (l : list NodeInfo) :
  let gone := filter (fun n => stale key cutoff n = true) l in
  let kept := filter (fun n => stale key cutoff n = false) l in
  Z.of_nat (length gone) = Z.of_nat (length l) - Z.of_nat (length kept) /\
  count_of key kept = count_of key l - Z.of_nat (length gone) /\
  (forall other, other <> key -> count_of other kept = count_of other l).
Proof.
  induction l as [|a l (IHl & IHk & IHo)]; cbv zeta in *.
  - split; [reflexivity |]. split; reflexivity.
  - rewrite filter_true_cons, filter_false_cons.
    destruct (stale key cutoff a) eqn:Ha.
    + apply stale_spec in Ha as [Hkey _].
      cbn [length]. split; [lia |]. split.
      * rewrite count_of_cons.
        replace (has_license key a) with true
          by (symmetry; apply has_license_true; exact Hkey). lia.
      * intros other Hne. rewrite count_of_cons, (IHo other Hne).
        destruct (has_license other a) eqn:Hother; [| lia].
        apply has_license_true in Hother. congruence.
    + cbn [length]. split; [lia |]. split.
      * rewrite !count_of_cons. lia.
      * intros other Hne. rewrite !count_of_cons, (IHo other Hne). reflexivity.
Qed.

Lemma stage_error (stage msg : string) :
  Error (Errorf_prefix stage (External msg)) = stage +:+ msg /\
  errors_As (Errorf_prefix stage (External msg)) = None /\
  forall s, errors_Is (Errorf_prefix stage (External msg)) s = false.
Proof. split; [reflexivity |]. split; [reflexivity |]. intros s. reflexivity. Qed.

Lemma neg_int64_opposite (d : Z) :
  int_min < d <= int_max -> neg_int64 d = - d.
Proof.
  unfold neg_int64, int_min, int_max. intros Hd.
  rewrite Z.mod_small by lia. lia.
Qed.

Lemma neg_int64_least : neg_int64 int_min = int_min.
Proof. reflexivity. Qed.

Section RegistryMethods.
Context `{GoLib}.

(** What each method does with the records, in both backends. *)
Lemma Register_run :
  both_backends (fun R _ r => forall (c : Conn) (now : Time) (node : NodeInfo),
    unique_fingerprints (rows c) ->
    exists stamp,
      Register r now node c =
        match next_call_fails c with
        | Some msg =>
            (Err (Errorf_prefix "register node: " (External msg)), after_call (rows c) c)
        | None =>
            (Ok (fst (upsert stamp node (rows c))),
             after_call (snd (upsert stamp node (rows c))) c)
        end).
Proof.
  split; intros r c now node Huniq.
  - exists (pgx_timestamptz now). apply pg_Register_run, Huniq.
  - exists (bson_DateTime now). apply mongo_Register_run.
Qed.

Lemma Deregister_run :
  both_backends (fun R _ r => forall (c : Conn) (fp : string),
    unique_fingerprints (rows c) ->
    Deregister r fp c =
      match next_call_fails c with
      | Some msg =>
          (Some (Errorf_prefix "deregister node: " (External msg)), after_call (rows c) c)
      | None => (None, after_call (others_of fp (rows c)) c)
      end).
Proof.
  split; intros r c fp Huniq;
    cbn [Deregister PostgresRegistry_NodeRegistry MongoRegistry_NodeRegistry];
    unfold pg_Deregister, mongo_Deregister, error_of; rewrite driver_unfold;
    (destruct (next_call_fails c); [reflexivity |]); cbn [fst snd].
  - reflexivity.
  - rewrite delete_first_others by exact Huniq. reflexivity.
Qed.

Lemma Count_run :
  both_backends (fun R _ r => forall (c : Conn) (key : string),
    Count r key c =
      match next_call_fails c with
      | Some msg =>
          (Err (Errorf_prefix "count nodes: " (External msg)), after_call (rows c) c)
      | None => (Ok (count_of key (rows c)), after_call (rows c) c)
      end).
Proof.
  split; intros r c key;
    cbn [Count PostgresRegistry_NodeRegistry MongoRegistry_NodeRegistry];
    unfold pg_Count, mongo_Count, wrap_err; rewrite driver_unfold;
    destruct (next_call_fails c); reflexivity.
Qed.

(** Ping: [now] is the NOW() of the database server for PostgreSQL and the
    clock of the host, which becomes a BSON date, for MongoDB. *)
Lemma pg_Ping_run (r : PostgresRegistry) (c : Conn) (now : Time) (fp : string) :
  Ping r now fp c =
    match next_call_fails c with
    | Some msg =>
        (Some (Errorf_prefix "ping node: " (External msg)), after_call (rows c) c)
    | None => (None, after_call (seen now fp <$> rows c) c)
    end.
Proof.
  cbn [Ping PostgresRegistry_NodeRegistry]. unfold pg_Ping, error_of.
  rewrite driver_unfold. destruct (next_call_fails c); reflexivity.
Qed.

Lemma mongo_Ping_run (r : MongoRegistry) (c : Conn) (now : Time) (fp : string) :
  unique_fingerprints (rows c) ->
  Ping r now fp c =
    match next_call_fails c with
    | Some msg =>
        (Some (Errorf_prefix "ping node: " (External msg)), after_call (rows c) c)
    | None => (None, after_call (seen (bson_DateTime now) fp <$> rows c) c)
    end.
Proof.
  intros Huniq. cbn [Ping MongoRegistry_NodeRegistry]. unfold mongo_Ping, error_of.
  rewrite driver_unfold. destruct (next_call_fails c); [reflexivity |].
  cbn [fst snd]. rewrite update_first_seen by exact Huniq. reflexivity.
Qed.

(** Prune: the cutoff is time.Now().Add(-olderThan) as the store takes it. *)
Lemma pg_Prune_run (r : PostgresRegistry) (c : Conn) (now : Time) (key : string)
  (olderThan : Z) :
  let cutoff := pgx_timestamptz (time_Add now (neg_int64 olderThan)) in
  Prune r now key olderThan c =
    match next_call_fails c with
    | Some msg =>
        (Err (Errorf_prefix "prune nodes: " (External msg)), after_call (rows c) c)
    | None =>
        (Ok (Z.of_nat (length (filter (fun n => stale key cutoff n = true) (rows c)))),
         after_call (filter (fun n => stale key cutoff n = false) (rows c)) c)
    end.
Proof.
  cbn [Prune PostgresRegistry_NodeRegistry]. unfold pg_Prune, wrap_err. cbv zeta.
  rewrite driver_unfold. destruct (next_call_fails c); reflexivity.
Qed.

Lemma mongo_Prune_run (r : MongoRegistry) (c : Conn) (now : Time) (key : string)
  (olderThan : Z) :
  let cutoff := bson_DateTime (time_Add now (neg_int64 olderThan)) in
  Prune r now key olderThan c =
    match next_call_fails c with
    | Some msg =>
        (Err (Errorf_prefix "prune nodes: " (External msg)), after_call (rows c) c)
    | None =>
        (Ok (Z.of_nat (length (filter (fun n => stale key cutoff n = true) (rows c)))),
         after_call (filter (fun n => stale key cutoff n = false) (rows c)) c)
    end.
Proof.
  cbn [Prune MongoRegistry_NodeRegistry]. unfold mongo_Prune, wrap_err. cbv zeta.
  rewrite driver_unfold. destruct (next_call_fails c); reflexivity.
Qed.

(** List: the failure of the query, and the run on a store that answers
    every call. *)
Lemma List_query_fails :
  both_backends (fun R _ r => forall (c : Conn) (key msg : string),
    next_call_fails c = Some msg ->
    List r key c =
      (([], Some (Errorf_prefix "list nodes: " (External msg))), after_call (rows c) c)).
Proof.
  split; intros r c key msg Hfail;
    cbn [List PostgresRegistry_NodeRegistry MongoRegistry_NodeRegistry];
    unfold pg_List, mongo_List; rewrite driver_unfold, Hfail; reflexivity.
Qed.

Lemma List_no_faults :
  both_backends (fun R _ r => forall (c : Conn) (key : string),
    faults c = [] ->
    exists l, List r key c = ((l, None), c) /\
              l ≡ₚ filter (fun n => has_license key n = true) (rows c)).
Proof.
  split; intros r c key Hfaults;
    cbn [List PostgresRegistry_NodeRegistry MongoRegistry_NodeRegistry];
    unfold pg_List, mongo_List;
    rewrite driver_unfold, (no_faults_next _ Hfaults); cbn [fst snd];
    rewrite (no_faults_same _ Hfaults).
  - rewrite (pg_scan_no_faults _ _ _ Hfaults). cbn [app].
    eexists. split; [reflexivity | apply merge_sort_Permutation].
  - rewrite driver_call_unfold, (no_faults_next _ Hfaults), (no_faults_same _ Hfaults).
    eexists. split; reflexivity.
Qed.

(** X16. Deregister removes the record of the given fingerprint and no other:
    the records that are left are those of the other fingerprints, in their
    order.  It reports no error when no record has the fingerprint, in which
    case the records stay as they are; none has it afterwards, so a second
    Deregister is of that kind. *)
Theorem Deregister_removes_only_that_record :
  both_backends (fun R _ r => forall (c : Conn) (fp : string),
    unique_fingerprints (rows c) -> next_call_fails c = None ->
    Deregister r fp c = (None, after_call (others_of fp (rows c)) c) /\
    unique_fingerprints (others_of fp (rows c)) /\
    records_of fp (others_of fp (rows c)) = [] /\
    (records_of fp (rows c) = [] -> others_of fp (rows c) = rows c)).
Proof.
  assert (Hrest : forall (c : Conn) (fp : string),
    unique_fingerprints (rows c) ->
    unique_fingerprints (others_of fp (rows c)) /\
    records_of fp (others_of fp (rows c)) = [] /\
    (records_of fp (rows c) = [] -> others_of fp (rows c) = rows c)).
  { intros c fp Huniq. split; [| split].
    - apply unique_fingerprints_filter; exact Huniq.
    - apply records_of_none, Forall_forall. intros n Hn.
      apply list_elem_of_filter in Hn as [Hn _]. exact Hn.
    - intros Hnil. apply others_of_none, records_of_nil_Forall, Hnil. }
  split; intros r c fp Huniq Hrun; (split; [| apply Hrest; exact Huniq]).
  - rewrite (proj1 Deregister_run r c fp Huniq), Hrun. reflexivity.
  - rewrite (proj2 Deregister_run r c fp Huniq), Hrun. reflexivity.
Qed.

(** X17. Register followed by Count: after a Register that succeeds, the
    store holds exactly one record for the node's fingerprint, the one
    returned, and the records of the other fingerprints as before; the number
    Count gives for a license is the number of other fingerprints filed under
    it, plus one when it is the license of the node.  A node registered again
    under another license no longer counts for the former one. *)
Theorem Register_then_Count :
  both_backends (fun R _ r => forall (c : Conn) (now : Time) (node : NodeInfo),
    unique_fingerprints (rows c) -> next_call_fails c = None ->
    exists stored rs,
      Register r now node c = (Ok stored, after_call rs c) /\
      unique_fingerprints rs /\
      records_of (Fingerprint node) rs = [stored] /\
      others_of (Fingerprint node) rs = others_of (Fingerprint node) (rows c) /\
      (forall key, count_of key rs =
         count_of key (others_of (Fingerprint node) (rows c)) +
         (if decide (LicenseKey node = key) then 1 else 0)) /\
      (forall key c', rows c' = rs -> next_call_fails c' = None ->
         Count r key c' = (Ok (count_of key rs), after_call rs c'))).
Proof.
  split; intros r c now node Huniq Hrun.
  - destruct (proj1 Register_run r c now node Huniq) as (stamp & Hreg).
    destruct (upsert stamp node (rows c)) as [d l'] eqn:Hup. exists d, l'.
    destruct (register_rows stamp node (rows c) d l' Huniq Hup)
      as (Huniq' & Hrec & Hothers & Hcount).
    split; [rewrite Hreg, Hrun; reflexivity |].
    repeat (split; [assumption |]).
    intros key c' <- Hrun'. rewrite (proj1 Count_run r c' key), Hrun'. reflexivity.
  - destruct (proj2 Register_run r c now node Huniq) as (stamp & Hreg).
    destruct (upsert stamp node (rows c)) as [d l'] eqn:Hup. exists d, l'.
    destruct (register_rows stamp node (rows c) d l' Huniq Hup)
      as (Huniq' & Hrec & Hothers & Hcount).
    split; [rewrite Hreg, Hrun; reflexivity |].
    repeat (split; [assumption |]).
    intros key c' <- Hrun'. rewrite (proj2 Count_run r c' key), Hrun'. reflexivity.
Qed.

(** X18. List and Count agree on a store that answers every call: List
    succeeds and returns the stored records filed under the license, each once
    and no other, as many as Count counts, and leaves the records as they
    are. *)
Theorem List_matches_Count :
  both_backends (fun R _ r => forall (c : Conn) (key : string),
    faults c = [] ->
    exists l,
      List r key c = ((l, None), c) /\
      Count r key c = (Ok (Z.of_nat (length l)), c) /\
      (forall n, n ∈ l <-> n ∈ rows c /\ LicenseKey n = key) /\
      (unique_fingerprints (rows c) -> unique_fingerprints l)).
Proof.
  assert (Hrest : forall (c : Conn) (key : string) (l : list NodeInfo),
    l ≡ₚ filter (fun n => has_license key n = true) (rows c) ->
    Z.of_nat (length l) = count_of key (rows c) /\
    (forall n, n ∈ l <-> n ∈ rows c /\ LicenseKey n = key) /\
    (unique_fingerprints (rows c) -> unique_fingerprints l)).
  { intros c key l Hperm. split; [| split].
    - unfold count_of. rewrite Hperm. reflexivity.
    - intros n. rewrite Hperm, list_elem_of_filter, has_license_true. tauto.
    - intros Huniq. unfold unique_fingerprints. rewrite Hperm.
      apply unique_fingerprints_filter; exact Huniq. }
  split; intros r c key Hfaults.
  - destruct (proj1 List_no_faults r c key Hfaults) as (l & Hlist & Hperm).
    destruct (Hrest c key l Hperm) as (Hlen & Hin & Hu).
    exists l. split; [exact Hlist |].
    split; [rewrite (proj1 Count_run r c key), (no_faults_next _ Hfaults),
              (no_faults_same _ Hfaults), Hlen; reflexivity |].
    split; assumption.
  - destruct (proj2 List_no_faults r c key Hfaults) as (l & Hlist & Hperm).
    destruct (Hrest c key l Hperm) as (Hlen & Hin & Hu).
    exists l. split; [exact Hlist |].
    split; [rewrite (proj2 Count_run r c key), (no_faults_next _ Hfaults),
              (no_faults_same _ Hfaults), Hlen; reflexivity |].
    split; assumption.
Qed.

Lemma pinged_seen (stamp : Time) (fp : string) (c : Conn) :
  pinged stamp fp c (None, after_call (seen stamp fp <$> rows c) c).
Proof.
  exists (seen stamp fp <$> rows c).
  destruct (seen_records stamp fp (rows c)) as (Hr & Ho & Hc).
  split; [reflexivity |]. split; [exact Hr |]. split; [exact Ho |].
  split; [apply length_fmap |]. split; [exact Hc |].
  intros Hnil. apply seen_all, records_of_nil_absent, Hnil.
Qed.

(** X19. Ping sets last_seen_at of the record with the given fingerprint to
    the instant of the call as the store has it (in PostgreSQL the NOW() of
    the database server, in MongoDB the clock of the host as a BSON date) and
    changes nothing else: not the other fields of that record, not the other
    records, not the number of records of any license.  When no record has
    the fingerprint it changes nothing and still reports no error. *)
Theorem Ping_touches_last_seen_only (pgr : PostgresRegistry) (mgr : MongoRegistry)
  (c : Conn) (now : Time) (fp : string) :
  unique_fingerprints (rows c) -> next_call_fails c = None ->
  pinged now fp c (Ping pgr now fp c) /\
  pinged (bson_DateTime now) fp c (Ping mgr now fp c).
Proof.
  intros Huniq Hrun. split.
  - rewrite pg_Ping_run, Hrun. apply pinged_seen.
  - rewrite (mongo_Ping_run mgr c now fp Huniq), Hrun. apply pinged_seen.
Qed.

Lemma pruned_stale (cutoff : Time) (key : string) (c : Conn) :
  pruned cutoff key c
    (Ok (Z.of_nat (length (filter (fun n => stale key cutoff n = true) (rows c)))),
     after_call (filter (fun n => stale key cutoff n = false) (rows c)) c).
Proof.
  destruct (prune_rows key cutoff (rows c)) as (Hlen & Hkey & Hother).
  eexists; eexists. split; [reflexivity |].
  split; [| split; [exact Hlen | split; assumption]].
  intros n. rewrite list_elem_of_filter, <- stale_spec.
  destruct (stale key cutoff n); split; intros [H1 H2]; split;
    congruence || assumption || (exfalso; apply H2; reflexivity).
Qed.

(** X20. Prune removes the records of the given license whose last_seen_at
    lies strictly before the cutoff, and no other: a record seen exactly at
    the cutoff stays, and so does every record of another license.  The
    number it returns is the number of records removed, and Count of the
    license goes down by it.  The cutoff is time.Now().Add(-olderThan) as the
    store takes it, a TIMESTAMPTZ in PostgreSQL and a BSON date in MongoDB;
    -olderThan is the negation of an int64: the opposite number, except for
    the least duration, which is its own negation. *)
Theorem Prune_removes_stale (pgr : PostgresRegistry) (mgr : MongoRegistry)
  (c : Conn) (now : Time) (key : string) (olderThan : Z) :
  int_min <= olderThan <= int_max ->
  next_call_fails c = None ->
  pruned (pgx_timestamptz (time_Add now (neg_int64 olderThan))) key c
    (Prune pgr now key olderThan c) /\
  pruned (bson_DateTime (time_Add now (neg_int64 olderThan))) key c
    (Prune mgr now key olderThan c) /\
  (int_min < olderThan -> neg_int64 olderThan = - olderThan) /\
  (olderThan = int_min -> neg_int64 olderThan = olderThan).
Proof.
  intros Hrange Hrun.
  split; [| split; [| split]].
  - pose proof (pg_Prune_run pgr c now key olderThan) as Hprune. cbv zeta in Hprune.
    rewrite Hprune, Hrun. apply pruned_stale.
  - pose proof (mongo_Prune_run mgr c now key olderThan) as Hprune. cbv zeta in Hprune.
    rewrite Hprune, Hrun. apply pruned_stale.
  - intros Hmin. apply neg_int64_opposite. lia.
  - intros ->. apply neg_int64_least.
Qed.

(** X21. Register followed by Deregister of the same fingerprint: when both
    succeed the store holds the records of the other fingerprints as they were
    before; if the fingerprint was new, that is the store as it was. *)
Theorem Register_Deregister_round_trip :
  both_backends (fun R _ r =>
    forall (c c1 c2 : Conn) (now : Time) (node stored : NodeInfo),
    unique_fingerprints (rows c) ->
    Register r now node c = (Ok stored, c1) ->
    Deregister r (Fingerprint node) c1 = (None, c2) ->
    rows c2 = others_of (Fingerprint node) (rows c) /\
    (records_of (Fingerprint node) (rows c) = [] -> rows c2 = rows c)).
Proof.
  assert (Hrest : forall (c : Conn) (stamp : Time) (node : NodeInfo),
    unique_fingerprints (rows c) ->
    unique_fingerprints (snd (upsert stamp node (rows c))) /\
    others_of (Fingerprint node) (snd (upsert stamp node (rows c)))
      = others_of (Fingerprint node) (rows c)).
  { intros c stamp node Huniq.
    destruct (upsert stamp node (rows c)) as [d l'] eqn:Hup.
    destruct (register_rows stamp node (rows c) d l' Huniq Hup) as (Hu & _ & Ho & _).
    split; assumption. }
  assert (Hnew : forall (c : Conn) (fp : string),
    records_of fp (rows c) = [] -> others_of fp (rows c) = rows c).
  { intros c fp Hnil. apply others_of_none, records_of_nil_Forall, Hnil. }
  split; intros r c c1 c2 now node stored Huniq Hreg Hdereg.
  - destruct (proj1 Register_run r c now node Huniq) as (stamp & Hrun).
    destruct (Hrest c stamp node Huniq) as [Huniq1 Hothers].
    rewrite Hrun in Hreg.
    destruct (next_call_fails c); [discriminate |]. injection Hreg as _ <-.
    rewrite (proj1 Deregister_run r (after_call _ c) _ Huniq1) in Hdereg.
    destruct (next_call_fails _); [discriminate |]. injection Hdereg as <-.
    cbn [rows after_call]. rewrite Hothers.
    split; [reflexivity | apply Hnew].
  - destruct (proj2 Register_run r c now node Huniq) as (stamp & Hrun).
    destruct (Hrest c stamp node Huniq) as [Huniq1 Hothers].
    rewrite Hrun in Hreg.
    destruct (next_call_fails c); [discriminate |]. injection Hreg as _ <-.
    rewrite (proj2 Deregister_run r (after_call _ c) _ Huniq1) in Hdereg.
    destruct (next_call_fails _); [discriminate |]. injection Hdereg as <-.
    cbn [rows after_call]. rewrite Hothers.
    split; [reflexivity | apply Hnew].
Qed.

(** X22. When the driver fails the statement a method of a registry sends
    (for List: its query), the method returns the driver's error behind the
    name of its own step ("register node: ", "deregister node: ",
    "count nodes: ", "list nodes: ", "ping node: ", "prune nodes: "); such an
    error is none of the package's sentinels and holds no server error. *)
Theorem registry_failure_names_the_step :
  both_backends (fun R _ r =>
    forall (c : Conn) (msg : string) (now : Time) (node : NodeInfo)
           (fp key : string) (olderThan : Z),
    unique_fingerprints (rows c) -> next_call_fails c = Some msg ->
    let failure stage := Errorf_prefix stage (External msg) in
    fst (Register r now node c) = Err (failure "register node: ") /\
    fst (Deregister r fp c) = Some (failure "deregister node: ") /\
    fst (Count r key c) = Err (failure "count nodes: ") /\
    fst (List r key c) = ([], Some (failure "list nodes: ")) /\
    fst (Ping r now fp c) = Some (failure "ping node: ") /\
    fst (Prune r now key olderThan c) = Err (failure "prune nodes: ") /\
    forall stage,
      Error (failure stage) = stage +:+ msg /\
      errors_As (failure stage) = None /\
      forall s, errors_Is (failure stage) s = false).
Proof.
  split; intros r c msg now node fp key olderThan Huniq Hfail; cbv zeta.
  - destruct (proj1 Register_run r c now node Huniq) as (stamp & Hreg).
    pose proof (pg_Prune_run r c now key olderThan) as Hprune. cbv zeta in Hprune.
    rewrite Hreg, (proj1 Deregister_run r c fp Huniq), (proj1 Count_run r c key),
      (pg_Ping_run r c now fp), Hprune, (proj1 List_query_fails r c key msg Hfail).
    rewrite Hfail.
    do 6 (split; [reflexivity |]). intros stage. apply stage_error.
  - destruct (proj2 Register_run r c now node Huniq) as (stamp & Hreg).
    pose proof (mongo_Prune_run r c now key olderThan) as Hprune. cbv zeta in Hprune.
    rewrite Hreg, (proj2 Deregister_run r c fp Huniq), (proj2 Count_run r c key),
      (mongo_Ping_run r c now fp Huniq), Hprune,
      (proj2 List_query_fails r c key msg Hfail).
    rewrite Hfail.
    do 6 (split; [reflexivity |]). intros stage. apply stage_error.
Qed.

(** X23. On records with unique fingerprints the two backends differ only in
    the instants they keep, in the order of List and in the calls List makes:
    Deregister and Count return the same result and leave the same records
    in PostgreSQL and in MongoDB, also when the driver fails; so do Register
    and Prune whenever the TIMESTAMPTZ and the BSON date of the instant are
    the same instant, and Ping when the NOW() of the database server is what
    MongoDB keeps of the clock of the host; and when both List calls succeed
    they return the same records, PostgreSQL in ascending order of
    registered_at. *)
Theorem backends_agree (pgr : PostgresRegistry) (mgr : MongoRegistry) (c : Conn)
  (now : Time) (node : NodeInfo) (fp key : string) (olderThan : Z) :
  unique_fingerprints (rows c) ->
  Deregister pgr fp c = Deregister mgr fp c /\
  Count pgr key c = Count mgr key c /\
  (pgx_timestamptz now = bson_DateTime now ->
   Register pgr now node c = Register mgr now node c) /\
  Ping pgr (bson_DateTime now) fp c = Ping mgr now fp c /\
  (pgx_timestamptz (time_Add now (neg_int64 olderThan))
     = bson_DateTime (time_Add now (neg_int64 olderThan)) ->
   Prune pgr now key olderThan c = Prune mgr now key olderThan c) /\
  (forall l1 c1 l2 c2,
     List pgr key c = ((l1, None), c1) -> List mgr key c = ((l2, None), c2) ->
     l1 ≡ₚ l2 /\ StronglySorted registered_le l1 /\ rows c1 = rows c2).
Proof.
  intros Huniq.
  split; [rewrite (proj1 Deregister_run pgr c fp Huniq),
            (proj2 Deregister_run mgr c fp Huniq); reflexivity |].
  split; [reflexivity |].
  split; [intros Hsame; rewrite (pg_Register_run pgr c now node Huniq),
            (mongo_Register_run mgr c now node), Hsame; reflexivity |].
  split; [rewrite (pg_Ping_run pgr c (bson_DateTime now) fp),
            (mongo_Ping_run mgr c now fp Huniq); reflexivity |].
  split.
  { intros Hsame.
    pose proof (pg_Prune_run pgr c now key olderThan) as Hpg.
    pose proof (mongo_Prune_run mgr c now key olderThan) as Hmongo.
    cbv zeta in Hpg, Hmongo. rewrite Hpg, Hmongo, Hsame. reflexivity. }
  intros l1 c1 l2 c2 Hpg Hmongo.
  cbn [List PostgresRegistry_NodeRegistry MongoRegistry_NodeRegistry] in Hpg, Hmongo.
  destruct (pg_List_sorted _ _ _ _ _ Hpg) as (Hsorted & Hperm & Hrows1).
  destruct (mongo_List_stored_order _ _ _ _ _ Hmongo) as [Hl2 Hrows2].
  split; [rewrite Hperm, Hl2; reflexivity |]. split; [exact Hsorted |].
  rewrite Hrows1, Hrows2. reflexivity.
Qed.


End RegistryMethods.

Section RegistryExamples.
#[local] Existing Instance Fixture.lib.

Lemma Stored_nodes_unique : unique_fingerprints Stored.nodes.
Proof. apply (bool_decide_unpack _). vm_compute. exact I. Qed.

Lemma Deregister_removes_only_that_record_witness :
  Deregister Fixture.pg "fp-a" Stored.healthy
    = (None, {| rows := [Fixture.node "fp-b" "K2" 12 30; Fixture.node "fp-c" "K" 5 40];
                faults := [] |}) /\
  Deregister Fixture.mongo "fp-z" Stored.healthy = (None, Stored.healthy).
Proof.
  destruct Deregister_removes_only_that_record as [Hpg Hmongo]. split.
  - destruct (Hpg Fixture.pg Stored.healthy "fp-a" Stored_nodes_unique eq_refl)
      as [Hrun _]. exact Hrun.
  - destruct (Hmongo Fixture.mongo Stored.healthy "fp-z" Stored_nodes_unique eq_refl)
      as [Hrun _]. exact Hrun.
Defined.

Lemma Register_then_Count_witness :
  exists stored rs,
    Register Fixture.pg 50 (Fixture.node "fp-a" "K2" 0 0) Stored.healthy
      = (Ok stored, after_call rs Stored.healthy) /\
    count_of "K" rs = 1 /\ count_of "K2" rs = 2.
Proof.
  destruct Register_then_Count as [Hpg _].
  destruct (Hpg Fixture.pg Stored.healthy 50 (Fixture.node "fp-a" "K2" 0 0)
              Stored_nodes_unique eq_refl)
    as (stored & rs & Hrun & _ & _ & _ & Hcount & _).
  exists stored, rs. split; [exact Hrun |].
  split; rewrite Hcount; reflexivity.
Defined.

Lemma List_matches_Count_witness :
  exists l,
    List Fixture.pg "K" Stored.healthy = ((l, None), Stored.healthy) /\
    Count Fixture.pg "K" Stored.healthy = (Ok (Z.of_nat (length l)), Stored.healthy) /\
    (Fixture.node "fp-b" "K2" 12 30 ∈ l -> False).
Proof.
  destruct List_matches_Count as [Hpg _].
  destruct (Hpg Fixture.pg Stored.healthy "K" eq_refl) as (l & Hlist & Hcount & Hin & _).
  exists l. split; [exact Hlist |]. split; [exact Hcount |].
  intros Hb. apply Hin in Hb as [_ Hkey]. discriminate Hkey.
Defined.

Lemma Ping_touches_last_seen_only_witness :
  exists rs,
    Ping Fixture.mongo 99 "fp-b" Stored.healthy = (None, after_call rs Stored.healthy) /\
    records_of "fp-b" rs = [Fixture.node "fp-b" "K2" 12 99] /\
    others_of "fp-b" rs = [Fixture.node "fp-a" "K" 10 10; Fixture.node "fp-c" "K" 5 40].
Proof.
  destruct (Ping_touches_last_seen_only Fixture.pg Fixture.mongo Stored.healthy 99 "fp-b"
              Stored_nodes_unique eq_refl)
    as (_ & rs & Hrun & Hrec & Hothers & _).
  exists rs. split; [exact Hrun |].
  split; [rewrite Hrec | rewrite Hothers]; reflexivity.
Defined.

Lemma Prune_removes_stale_witness :
  exists removed rs,
    Prune Fixture.pg 100 "K" 60 Stored.healthy
      = (Ok removed, after_call rs Stored.healthy) /\
    Fixture.node "fp-c" "K" 5 40 ∈ rs /\
    (Fixture.node "fp-a" "K" 10 10 ∈ rs -> False).
Proof.
  assert (Hrange : int_min <= 60 <= int_max) by (vm_compute; split; discriminate).
  destruct (Prune_removes_stale Fixture.pg Fixture.mongo Stored.healthy 100 "K" 60
              Hrange eq_refl)
    as ((removed & rs & Hrun & Hin & _) & _).
  exists removed, rs. split; [exact Hrun |]. split.
  - apply Hin. split; [right; right; left |].
    intros [_ Hlt]. vm_compute in Hlt. discriminate Hlt.
  - intros Ha. apply Hin in Ha as [_ Hnot]. apply Hnot.
    split; reflexivity.
Defined.

Lemma Register_Deregister_round_trip_witness :
  exists c1 c2 stored,
    Register Fixture.mongo 50 (Fixture.node "fp-new" "K" 0 0) Stored.healthy
      = (Ok stored, c1) /\
    Deregister Fixture.mongo "fp-new" c1 = (None, c2) /\
    rows c2 = Stored.nodes.
Proof.
  destruct Register_Deregister_round_trip as [_ Hmongo].
  eexists; eexists; eexists.
  split; [reflexivity |]. split; [reflexivity |].
  refine (proj2 (Hmongo Fixture.mongo Stored.healthy _ _ 50
                   (Fixture.node "fp-new" "K" 0 0) _ Stored_nodes_unique
                   eq_refl eq_refl) eq_refl).
Defined.

Lemma registry_failure_names_the_step_witness :
  exists e,
    fst (Count Fixture.pg "K" Stored.failing) = Err e /\
    Error e = "count nodes: connection refused" /\
    errors_Is e ErrNodeLimitExceeded = false.
Proof.
  destruct registry_failure_names_the_step as [Hpg _].
  destruct (Hpg Fixture.pg Stored.failing "connection refused" 0
              (Fixture.node "fp-a" "K" 0 0) "fp-a" "K" 0 Stored_nodes_unique eq_refl)
    as (_ & _ & Hcount & _ & _ & _ & Herr).
  eexists. split; [exact Hcount |].
  destruct (Herr "count nodes: ") as (Htext & _ & His).
  split; [exact Htext | apply His].
Defined.

Lemma backends_agree_witness :
  Register Fixture.pg 50 (Fixture.node "fp-b" "K" 0 0) Stored.healthy
    = Register Fixture.mongo 50 (Fixture.node "fp-b" "K" 0 0) Stored.healthy /\
  Deregister Fixture.pg "fp-b" Stored.failing
    = Deregister Fixture.mongo "fp-b" Stored.failing.
Proof.
  split.
  - apply (backends_agree Fixture.pg Fixture.mongo Stored.healthy 50
             (Fixture.node "fp-b" "K" 0 0) "fp-b" "K" 0 Stored_nodes_unique).
    reflexivity.
  - apply (backends_agree Fixture.pg Fixture.mongo Stored.failing 50
             (Fixture.node "fp-b" "K" 0 0) "fp-b" "K" 0 Stored_nodes_unique).
Defined.


End RegistryExamples.

(** ** The constructors of the registries *)

Lemma word_char_codes (a : ascii) :
  word_char a = true -> letter_digit_underscore a.
Proof.
  unfold word_char, in_range, letter_digit_underscore.
  rewrite !orb_true_iff, !andb_true_iff, !N.leb_le.
  intros [[[Hl | Hu] | Hd] | Hus].
  - right. right. left. exact Hl.
  - right. left. exact Hu.
  - left. exact Hd.
  - right. right. right. apply Ascii.eqb_eq in Hus. rewrite Hus. reflexivity.
Qed.

Lemma all_chars_In (p : ascii -> bool) (s : string) (a : ascii) :
  all_chars p s = true -> In a (list_ascii_of_string s) -> p a = true.
Proof.
  induction s as [|b s IH]; cbn [all_chars list_ascii_of_string]; [intros _ [] |].
  rewrite andb_true_iff. intros [Hb Hs] [<- | Hin]; [exact Hb | apply IH; assumption].
Qed.

Lemma validIdentifier_chars (name : string) (a : ascii) :
  validIdentifier name = true -> In a (list_ascii_of_string name) ->
  letter_digit_underscore a.
Proof.
  destruct name as [|b rest]; [discriminate |].
  cbn [validIdentifier list_ascii_of_string]. rewrite andb_true_iff.
  intros [Hb Hrest] [<- | Hin].
  - apply word_char_codes. unfold word_char. unfold initial_char in Hb.
    apply orb_true_iff in Hb as [Hb | Hb]; [| rewrite Hb; apply orb_true_r].
    apply orb_true_iff in Hb as [Hb | Hb]; rewrite Hb;
      rewrite ?orb_true_r; reflexivity.
  - apply word_char_codes. apply (all_chars_In _ _ _ Hrest Hin).
Qed.

Lemma fold_options_last {A} (opts : list (A -> A)) (opt : A -> A) (r : A) :
  fold_left (fun r opt => opt r) (opts ++ [opt]) r
  = opt (fold_left (fun r opt => opt r) opts r).
Proof. apply fold_left_app. Qed.

(** X10. The constructors of both registries check the name before they
    reach the store.  The name is that of the last option given.  A name that
    does not match [a-zA-Z_][a-zA-Z0-9_]* is refused with an error that wraps
    nothing, and no statement is sent: the connection is as it was.  A name
    that matches holds letters, digits and underscores only and is not empty;
    with it the constructor makes one call to the store, and returns the
    registry, or the store's error behind "create table: " (PostgreSQL) or
    "create indexes: " (MongoDB); the records are not changed. *)
Theorem constructors_check_the_name (quote : string -> string) (name : string)
  (pgopts : list (PostgresRegistry -> PostgresRegistry))
  (mgopts : list (MongoRegistry -> MongoRegistry)) (c : Conn) :
  (validIdentifier name = false ->
     NewPostgresRegistry quote (pgopts ++ [WithTableName name]) c
       = (Err (fmtError ("invalid table name " +:+ quote name
                         +:+ ": must match [a-zA-Z_][a-zA-Z0-9_]*")), c) /\
     NewMongoRegistry quote (mgopts ++ [WithCollectionName name]) c
       = (Err (fmtError ("invalid collection name " +:+ quote name
                         +:+ ": must match [a-zA-Z_][a-zA-Z0-9_]*")), c)) /\
  (validIdentifier name = true ->
     name <> "" /\
     (forall a, In a (list_ascii_of_string name) -> letter_digit_underscore a) /\
     NewPostgresRegistry quote (pgopts ++ [WithTableName name]) c
       = match next_call_fails c with
         | Some msg => (Err (Errorf_prefix "create table: " (External msg)),
                        after_call (rows c) c)
         | None => (Ok {| tableName := name |}, after_call (rows c) c)
         end /\
     NewMongoRegistry quote (mgopts ++ [WithCollectionName name]) c
       = match next_call_fails c with
         | Some msg => (Err (Errorf_prefix "create indexes: " (External msg)),
                        after_call (rows c) c)
         | None => (Ok {| collectionName := name |}, after_call (rows c) c)
         end).
Proof.
  unfold NewPostgresRegistry, NewMongoRegistry. rewrite !fold_options_last.
  unfold WithTableName, WithCollectionName. cbn [tableName collectionName].
  split; intros Hname; rewrite Hname; cbn [negb].
  - split; reflexivity.
  - split; [intros ->; discriminate Hname |].
    split; [intros a; apply validIdentifier_chars; exact Hname |].
    unfold ensureTable, ensureIndexes, error_of. rewrite !driver_unfold.
    destruct (next_call_fails c); split; reflexivity.
Qed.

Lemma constructors_check_the_name_witness :
  NewPostgresRegistry (fun s => s) [WithTableName "nodes; DROP TABLE licenses"]
    Stored.healthy
    = (Err (fmtError ("invalid table name nodes; DROP TABLE licenses"
                      +:+ ": must match [a-zA-Z_][a-zA-Z0-9_]*")), Stored.healthy) /\
  NewMongoRegistry (fun s => s) [WithCollectionName "tmp"; WithCollectionName "nodes_v2"]
    Stored.healthy
    = (Ok {| collectionName := "nodes_v2" |}, Stored.healthy).
Proof.
  split.
  - assert (Hbad : validIdentifier "nodes; DROP TABLE licenses" = false) by reflexivity.
    exact (proj1 (proj1 (constructors_check_the_name (fun s => s)
                           "nodes; DROP TABLE licenses" [] [] Stored.healthy) Hbad)).
  - assert (Hgood : validIdentifier "nodes_v2" = true) by reflexivity.
    exact (proj2 (proj2 (proj2 (proj2 (constructors_check_the_name (fun s => s)
                           "nodes_v2" [] [WithCollectionName "tmp"] Stored.healthy)
                           Hgood)))).
Defined.

(** ** The managers, step by step *)

Section ManagerSteps.
Context `{GoLib}.

Lemma Activate_spec (c : OnlineClient) (req : ActivateRequest) (w w' : World)
  (r : Result ActivateResponse) :
  Activate c req w = (r, w') ->
  conn w' = conn w /\
  (trace w' = trace w \/ exists sent, trace w' = trace w ++ [HttpDo sent]) /\
  (forall a, r = Ok a -> exists sent, trace w' = trace w ++ [HttpDo sent]).
Proof.
  unfold Activate. intros Hrun. apply doJSON_spec in Hrun as (Hconn & Htr & Hok & _).
  split; [exact Hconn |]. split.
  - destruct Htr as [Htr | (sent & Htr & _)]; [left; exact Htr | right; eauto].
  - intros a Ha. destruct (Hok a Ha) as (sent & Htr' & _). eauto.
Qed.

(** X24. An error of the validation round trip comes out of ValidateAndEnforce
    of either manager behind "validate license: ", with the same answers to
    errors.Is and errors.As as the client's error; the registry is not
    touched. *)
Theorem validation_error_passes_through {R} `{NodeRegistry R}
  (m : Manager.Manager R) (lite : ManagerLite.Manager) (h : Host)
  (licenseKey : string) (w w1 : World) (c : OnlineClient) (fp : string) (e : error) :
  Validate c (validation_of licenseKey fp) w = (Err e, w1) ->
  (Manager.client m = Some c -> GenerateFingerprint h = Ok fp ->
   Manager.ValidateAndEnforce m h licenseKey w
     = (Err (Errorf_prefix "validate license: " e), w1)) /\
  (ManagerLite.client lite = Some c -> ManagerLite.resolveFingerprint lite h = Ok fp ->
   ManagerLite.ValidateAndEnforce lite h licenseKey w
     = (Err (Errorf_prefix "validate license: " e), w1)) /\
  conn w1 = conn w /\
  Error (Errorf_prefix "validate license: " e) = "validate license: " +:+ Error e /\
  errors_As (Errorf_prefix "validate license: " e) = errors_As e /\
  (forall s, errors_Is (Errorf_prefix "validate license: " e) s = errors_Is e s).
Proof.
  unfold validation_of. intros Hval.
  split; [| split; [| split; [| split; [| split]]]].
  - intros Hc Hfp. unfold Manager.ValidateAndEnforce. rewrite Hc, Hfp.
    unfold bind. rewrite Hval. reflexivity.
  - intros Hc Hfp. unfold ManagerLite.ValidateAndEnforce. rewrite Hc, Hfp.
    unfold bind. rewrite Hval. reflexivity.
  - apply Validate_spec in Hval as [Hconn _]. exact Hconn.
  - reflexivity.
  - reflexivity.
  - intros s. apply errors_Is_prefix.
Qed.

(** X25. A valid license whose max_cpu_per_node is positive and below the
    number of CPUs of the host: ValidateAndEnforce of either manager returns
    the CPU-limit error and no LicenseInfo, after the one validation request
    and before any call to the registry. *)
Theorem cpu_limit_stops_before_registry {R} `{NodeRegistry R}
  (m : Manager.Manager R) (lite : ManagerLite.Manager) (h : Host)
  (licenseKey : string) (w w1 : World) (c : OnlineClient) (fp : string)
  (resp : ValidateResponse) :
  Validate c (validation_of licenseKey fp) w = (Ok resp, w1) ->
  Valid resp = true ->
  0 < MaxCPUPerNode (ExtractHardwareLimits (resp_Features resp)) ->
  MaxCPUPerNode (ExtractHardwareLimits (resp_Features resp)) < runtime_NumCPU h ->
  exists e,
    errors_Is e ErrCPULimitExceeded = true /\
    (Manager.client m = Some c -> GenerateFingerprint h = Ok fp ->
     Manager.ValidateAndEnforce m h licenseKey w = (Err e, w1)) /\
    (ManagerLite.client lite = Some c -> ManagerLite.resolveFingerprint lite h = Ok fp ->
     ManagerLite.ValidateAndEnforce lite h licenseKey w = (Err e, w1)) /\
    conn w1 = conn w /\
    exists sent, trace w1 = trace w ++ [HttpDo sent].
Proof.
  unfold validation_of. intros Hval Hvalid Hpos Hover.
  pose proof (CheckCPU_exceeded h _ Hpos Hover) as Hcpu.
  match type of Hcpu with _ = Some ?e => exists e end.
  split; [| split; [| split; [| split]]].
  - reflexivity.
  - intros Hc Hfp. unfold Manager.ValidateAndEnforce. rewrite Hc, Hfp.
    unfold bind. rewrite Hval, Hvalid. cbn [negb]. rewrite Hcpu. reflexivity.
  - intros Hc Hfp. unfold ManagerLite.ValidateAndEnforce. rewrite Hc, Hfp.
    unfold bind. rewrite Hval, Hvalid. cbn [negb]. rewrite Hcpu. reflexivity.
  - apply Validate_spec in Hval as [Hconn _]. exact Hconn.
  - apply Validate_spec in Hval as (_ & _ & Hsent & _).
    destruct (Hsent resp eq_refl) as (sent & Htr & _). eauto.
Qed.

(** ValidateAndEnforce past the CPU check, on a registry that answers every
    call. *)
Lemma enforce_run :
  both_backends (fun R _ reg =>
    forall (m : Manager.Manager R) (h : Host) (licenseKey : string) (w w1 : World)
           (c : OnlineClient) (fp : string) (resp : ValidateResponse),
    Manager.client m = Some c -> Manager.registry m = Some reg ->
    GenerateFingerprint h = Ok fp ->
    Validate c (validation_of licenseKey fp) w = (Ok resp, w1) ->
    Valid resp = true ->
    CheckCPU h (ExtractHardwareLimits (resp_Features resp)) = None ->
    unique_fingerprints (rows (conn w)) -> faults (conn w) = [] ->
    exists stamp,
    let rs := snd (upsert stamp (node_of h fp licenseKey) (rows (conn w))) in
    Manager.ValidateAndEnforce m h licenseKey w =
      match CheckNodeCount (ExtractHardwareLimits (resp_Features resp))
              (count_of licenseKey rs) with
      | None =>
          (Ok {| info_Valid := true; info_LicenseKey := licenseKey; info_Plan := "";
                 info_Features := resp_Features resp; info_ExpiresAt := ExpiresAt resp;
                 info_Fingerprint := fp; info_NodeCount := count_of licenseKey rs |},
           {| conn := {| rows := rs; faults := [] |};
              trace := trace w1 ++ [CallRegister (node_of h fp licenseKey);
                                    CallCount licenseKey] |})
      | Some e =>
          (Err e,
           {| conn := {| rows := others_of fp rs; faults := [] |};
              trace := trace w1 ++ [CallRegister (node_of h fp licenseKey);
                                    CallCount licenseKey; CallDeregister fp] |})
      end).
Proof.
  split; intros reg m h licenseKey w w1 c fp resp Hc Hreg Hfp Hval Hvalid Hcpu
    Huniq Hfaults.
  all: assert (Hconn : conn w1 = conn w)
    by (apply Validate_spec in Hval as [Hconn _]; exact Hconn).
  all: first
    [ destruct (proj1 Register_run reg (conn w) (time_Now h) (node_of h fp licenseKey)
                  Huniq) as (stamp & Hrun)
    | destruct (proj2 Register_run reg (conn w) (time_Now h) (node_of h fp licenseKey)
                  Huniq) as (stamp & Hrun) ].
  all: exists stamp; intros rs.
  all: destruct (upsert stamp (node_of h fp licenseKey) (rows (conn w)))
         as [d l'] eqn:Hup.
  all: destruct (register_rows _ _ _ _ _ Huniq Hup) as (Huniq' & _ & _ & _).
  all: unfold Manager.ValidateAndEnforce; rewrite Hc, Hfp; unfold bind;
    fold (validation_of licenseKey fp); rewrite Hval, Hvalid; cbn [negb];
    rewrite Hcpu, Hreg; fold (hostname_of h); fold (node_of h fp licenseKey);
    unfold on_conn, ret; rewrite Hconn.
  - rewrite Hrun, (no_faults_next _ Hfaults).
    cbn [fst snd]. rewrite (no_faults_after _ _ Hfaults). cbn [conn trace].
    rewrite (proj1 Count_run reg _ _). unfold next_call_fails, after_call.
    subst rs. cbn [rows faults tail conn trace fst snd].
    destruct (CheckNodeCount _ (count_of licenseKey l')) as [e|].
    + cbn [conn trace].
      rewrite (proj1 Deregister_run reg {| rows := l'; faults := [] |} fp Huniq').
      unfold next_call_fails, after_call. cbn [rows faults tail conn trace fst snd].
      rewrite <- !app_assoc. reflexivity.
    + rewrite <- !app_assoc. reflexivity.
  - rewrite Hrun, (no_faults_next _ Hfaults).
    cbn [fst snd]. rewrite (no_faults_after _ _ Hfaults). cbn [conn trace].
    rewrite (proj2 Count_run reg _ _). unfold next_call_fails, after_call.
    subst rs. cbn [rows faults tail conn trace fst snd].
    destruct (CheckNodeCount _ (count_of licenseKey l')) as [e|].
    + cbn [conn trace].
      rewrite (proj2 Deregister_run reg {| rows := l'; faults := [] |} fp Huniq').
      unfold next_call_fails, after_call. cbn [rows faults tail conn trace fst snd].
      rewrite <- !app_assoc. reflexivity.
    + rewrite <- !app_assoc. reflexivity.
Qed.

End ManagerSteps.

Section ManagerStepsTheorems.
Context `{GoLib}.

(** X26. ValidateAndEnforce with a registry that answers every call, past
    the CPU check: the node is counted once, whether or not it was registered
    before, so the number compared with max_nodes is the number of other
    fingerprints under the license plus one.  Within the limit (or with no
    limit) the call returns a LicenseInfo with that node count, an empty plan
    and the features of the response, and the registry holds one record for
    the fingerprint, with the host name, the operating system and the
    license of this call.  Above the limit it returns the
    node-limit error and the registry holds no record for the fingerprint,
    also when it held one before the call.  Either way the records of the
    other fingerprints are as before. *)
Theorem enforce_counts_this_node :
  both_backends (fun R _ reg =>
    forall (m : Manager.Manager R) (h : Host) (licenseKey : string) (w w1 : World)
           (c : OnlineClient) (fp : string) (resp : ValidateResponse),
    Manager.client m = Some c -> Manager.registry m = Some reg ->
    GenerateFingerprint h = Ok fp ->
    Validate c (validation_of licenseKey fp) w = (Ok resp, w1) ->
    Valid resp = true ->
    CheckCPU h (ExtractHardwareLimits (resp_Features resp)) = None ->
    unique_fingerprints (rows (conn w)) -> faults (conn w) = [] ->
    let limit := MaxNodes (ExtractHardwareLimits (resp_Features resp)) in
    let present := count_of licenseKey (others_of fp (rows (conn w))) + 1 in
    exists res w',
      Manager.ValidateAndEnforce m h licenseKey w = (res, w') /\
      others_of fp (rows (conn w')) = others_of fp (rows (conn w)) /\
      (limit <= 0 \/ present <= limit ->
         exists info stored,
           res = Ok info /\
           info_Valid info = true /\ info_NodeCount info = present /\
           info_LicenseKey info = licenseKey /\ info_Fingerprint info = fp /\
           info_Plan info = "" /\ info_Features info = resp_Features resp /\
           info_ExpiresAt info = ExpiresAt resp /\
           records_of fp (rows (conn w')) = [stored] /\
           Hostname stored = hostname_of h /\ OS stored = runtime_GOOS h /\
           LicenseKey stored = licenseKey) /\
      (0 < limit < present ->
         exists e,
           res = Err e /\ errors_Is e ErrNodeLimitExceeded = true /\
           records_of fp (rows (conn w')) = [])).
Proof.
  assert (Hrest : forall (h : Host) (licenseKey fp : string) (l : list NodeInfo)
                         (limits : HardwareLimits) (stamp : Time),
    unique_fingerprints l ->
    let rs := snd (upsert stamp (node_of h fp licenseKey) l) in
    let present := count_of licenseKey (others_of fp l) + 1 in
    count_of licenseKey rs = present /\
    others_of fp rs = others_of fp l /\
    others_of fp (others_of fp rs) = others_of fp l /\
    records_of fp (others_of fp rs) = [] /\
    (exists stored,
       records_of fp rs = [stored] /\
       Hostname stored = hostname_of h /\ OS stored = runtime_GOOS h /\
       LicenseKey stored = licenseKey) /\
    (MaxNodes limits <= 0 \/ present <= MaxNodes limits ->
       CheckNodeCount limits present = None) /\
    (0 < MaxNodes limits < present ->
       exists e, CheckNodeCount limits present = Some e /\
                 errors_Is e ErrNodeLimitExceeded = true)).
  { intros h licenseKey fp l limits stamp Huniq.
    destruct (upsert stamp (node_of h fp licenseKey) l)
      as [d l'] eqn:Hup. cbn [snd]. cbv zeta.
    destruct (register_rows _ _ _ _ _ Huniq Hup) as (_ & Hrec & Hothers & Hcount).
    destruct (upsert_spec _ _ _ _ _ Huniq Hup)
      as (_ & _ & _ & Hhost & _ & Hos & Hkey & _).
    cbn [Fingerprint node_of] in Hrec, Hothers, Hcount.
    split; [| split; [| split; [| split; [| split; [| split]]]]].
    - rewrite (Hcount licenseKey). cbn [LicenseKey node_of].
      destruct (decide (licenseKey = licenseKey)); [reflexivity | contradiction].
    - exact Hothers.
    - rewrite others_of_idempotent. exact Hothers.
    - apply records_of_none, Forall_forall. intros n Hn.
      apply list_elem_of_filter in Hn as [Hn _]. exact Hn.
    - exists d. split; [exact Hrec |]. repeat split; assumption.
    - intros [Hun | Hwithin].
      + apply CheckNodeCount_unlimited. exact Hun.
      + destruct (Z_le_gt_dec (MaxNodes limits) 0) as [Hle | Hgt].
        * apply CheckNodeCount_unlimited. exact Hle.
        * apply CheckNodeCount_within; lia.
    - intros [Hpos Hover]. eexists. split.
      + apply CheckNodeCount_exceeded; assumption.
      + reflexivity. }
  split; intros reg m h licenseKey w w1 c fp resp Hc Hreg Hfp Hval Hvalid Hcpu
    Huniq Hfaults limit present.
  - destruct (proj1 enforce_run reg m h licenseKey w w1 c fp resp
                Hc Hreg Hfp Hval Hvalid Hcpu Huniq Hfaults) as (stamp & Hrun).
    cbv zeta in Hrun.
    destruct (Hrest h licenseKey fp (rows (conn w))
                (ExtractHardwareLimits (resp_Features resp)) stamp Huniq)
      as (Hcount & Hothers & Hothers' & Hgone & Hstored & Hin & Hout).
    rewrite Hcount in Hrun. fold present in Hrun, Hin, Hout. fold limit in Hin, Hout.
    destruct (CheckNodeCount _ present) as [e|] eqn:Hcheck.
    + eexists; eexists. split; [exact Hrun |]. cbn [conn rows].
      split; [exact Hothers' |]. split.
      * intros Hwithin. discriminate (Hin Hwithin).
      * intros Hover. destruct (Hout Hover) as (e' & He' & His).
        injection He' as <-.
        exists e. split; [reflexivity |]. split; [exact His | exact Hgone].
    + eexists; eexists. split; [exact Hrun |]. cbn [conn rows].
      split; [exact Hothers |]. split.
      * intros _. destruct Hstored as (stored & Hrec & Hfields).
        eexists; exists stored. split; [reflexivity |].
        cbn [info_Valid info_NodeCount info_LicenseKey info_Fingerprint info_Plan
             info_Features info_ExpiresAt].
        do 7 (split; [reflexivity |]). split; [exact Hrec | exact Hfields].
      * intros Hover. destruct (Hout Hover) as (e' & He' & _).
        discriminate He'.
  - destruct (proj2 enforce_run reg m h licenseKey w w1 c fp resp
                Hc Hreg Hfp Hval Hvalid Hcpu Huniq Hfaults) as (stamp & Hrun).
    cbv zeta in Hrun.
    destruct (Hrest h licenseKey fp (rows (conn w))
                (ExtractHardwareLimits (resp_Features resp)) stamp Huniq)
      as (Hcount & Hothers & Hothers' & Hgone & Hstored & Hin & Hout).
    rewrite Hcount in Hrun. fold present in Hrun, Hin, Hout. fold limit in Hin, Hout.
    destruct (CheckNodeCount _ present) as [e|] eqn:Hcheck.
    + eexists; eexists. split; [exact Hrun |]. cbn [conn rows].
      split; [exact Hothers' |]. split.
      * intros Hwithin. discriminate (Hin Hwithin).
      * intros Hover. destruct (Hout Hover) as (e' & He' & His).
        injection He' as <-.
        exists e. split; [reflexivity |]. split; [exact His | exact Hgone].
    + eexists; eexists. split; [exact Hrun |]. cbn [conn rows].
      split; [exact Hothers |]. split.
      * intros _. destruct Hstored as (stored & Hrec & Hfields).
        eexists; exists stored. split; [reflexivity |].
        cbn [info_Valid info_NodeCount info_LicenseKey info_Fingerprint info_Plan
             info_Features info_ExpiresAt].
        do 7 (split; [reflexivity |]). split; [exact Hrec | exact Hfields].
      * intros Hover. destruct (Hout Hover) as (e' & He' & _).
        discriminate He'.
Qed.

End ManagerStepsTheorems.

Section ManagerLifecycle.
Context `{GoLib}.

(** X27. ActivateNode of the manager with a registry registers only after
    the server has accepted the activation.  An error of the activation round
    trip is returned as it is, without a prefix, and the registry is not
    touched.  After a successful activation the node is registered under the
    generated fingerprint; when the store fails there, the call returns an
    error although the activation has been made, and its text names the step
    twice ("register node: register node: ..."). *)
Theorem ActivateNode_registers_after_activation :
  both_backends (fun R _ reg =>
    forall (m : Manager.Manager R) (h : Host) (licenseKey : string) (w w1 : World)
           (c : OnlineClient) (fp : string) (r : Result ActivateResponse),
    Manager.client m = Some c -> Manager.registry m = Some reg ->
    GenerateFingerprint h = Ok fp ->
    Activate c (activation_of h licenseKey fp) w = (r, w1) ->
    unique_fingerprints (rows (conn w)) ->
    match r with
    | Err e =>
        Manager.ActivateNode m h licenseKey w = (Err e, w1) /\ conn w1 = conn w
    | Ok activation =>
        exists res w',
          Manager.ActivateNode m h licenseKey w = (res, w') /\
          (exists sent, trace w' = trace w ++ [HttpDo sent;
                                               CallRegister (node_of h fp licenseKey)]) /\
          match next_call_fails (conn w) with
          | Some msg =>
              (exists e, res = Err e /\
                 Error e = "register node: register node: " +:+ msg) /\
              rows (conn w') = rows (conn w)
          | None =>
              res = Ok activation /\
              others_of fp (rows (conn w')) = others_of fp (rows (conn w)) /\
              exists stored,
                records_of fp (rows (conn w')) = [stored] /\
                LicenseKey stored = licenseKey /\
                Hostname stored = hostname_of h /\ OS stored = runtime_GOOS h
          end
    end).
Proof.
  assert (Hrest : forall (h : Host) (licenseKey fp : string) (l : list NodeInfo)
                         (stamp : Time),
    unique_fingerprints l ->
    let rs := snd (upsert stamp (node_of h fp licenseKey) l) in
    others_of fp rs = others_of fp l /\
    exists stored,
      records_of fp rs = [stored] /\
      LicenseKey stored = licenseKey /\
      Hostname stored = hostname_of h /\ OS stored = runtime_GOOS h).
  { intros h licenseKey fp l stamp Huniq.
    destruct (upsert stamp (node_of h fp licenseKey) l)
      as [d l'] eqn:Hup. cbn [snd]. cbv zeta.
    destruct (register_rows _ _ _ _ _ Huniq Hup) as (_ & Hrec & Hothers & _).
    destruct (upsert_spec _ _ _ _ _ Huniq Hup)
      as (_ & _ & _ & Hhost & _ & Hos & Hkey & _).
    split; [exact Hothers |]. exists d. repeat split; assumption. }
  split; intros reg m h licenseKey w w1 c fp r Hc Hreg Hfp Hact Huniq.
  all: pose proof (Activate_spec _ _ _ _ _ Hact) as (Hconn & _ & Hsent).
  all: unfold Manager.ActivateNode; rewrite Hc, Hfp; unfold bind;
    fold (hostname_of h); fold (activation_of h licenseKey fp); rewrite Hact.
  all: destruct r as [activation | e]; [| split; [reflexivity | exact Hconn]].
  all: rewrite Hreg; fold (node_of h fp licenseKey); unfold on_conn, ret;
    rewrite Hconn; destruct (Hsent activation eq_refl) as (sent & Htr).
  - destruct (proj1 Register_run reg (conn w) (time_Now h) (node_of h fp licenseKey)
                Huniq) as (stamp & Hrun).
    destruct (Hrest h licenseKey fp (rows (conn w)) stamp Huniq) as (Hothers & Hstored).
    rewrite Hrun.
    destruct (next_call_fails (conn w)) as [msg|]; eexists; eexists;
      (split; [reflexivity |]); cbn [conn trace rows after_call];
      (split; [exists sent; rewrite Htr, <- app_assoc; reflexivity |]).
    + split; [eexists; split; reflexivity | reflexivity].
    + split; [reflexivity |]. split; [exact Hothers | exact Hstored].
  - destruct (proj2 Register_run reg (conn w) (time_Now h) (node_of h fp licenseKey)
                Huniq) as (stamp & Hrun).
    destruct (Hrest h licenseKey fp (rows (conn w)) stamp Huniq) as (Hothers & Hstored).
    rewrite Hrun.
    destruct (next_call_fails (conn w)) as [msg|]; eexists; eexists;
      (split; [reflexivity |]); cbn [conn trace rows after_call];
      (split; [exists sent; rewrite Htr, <- app_assoc; reflexivity |]).
    + split; [eexists; split; reflexivity | reflexivity].
    + split; [reflexivity |]. split; [exact Hothers | exact Hstored].
Qed.

(** X28. Shutdown does nothing and reports nothing when no registry is
    configured.  With a registry it fails before any call when the fingerprint
    cannot be generated; otherwise it makes the one call Deregister for the
    generated fingerprint and returns what that call returns: after a
    successful call the records are those of the other fingerprints. *)
Theorem Shutdown_removes_own_record :
  both_backends (fun R _ reg =>
    forall (m : Manager.Manager R) (h : Host) (w : World),
    (Manager.registry m = None -> Manager.Shutdown m h w = (None, w)) /\
    (Manager.registry m = Some reg ->
     match GenerateFingerprint h with
     | Err e =>
         Manager.Shutdown m h w = (Some (Errorf_prefix "generate fingerprint: " e), w)
     | Ok fp =>
         unique_fingerprints (rows (conn w)) ->
         exists res w',
           Manager.Shutdown m h w = (res, w') /\
           trace w' = trace w ++ [CallDeregister fp] /\
           match next_call_fails (conn w) with
           | Some msg =>
               res = Some (Errorf_prefix "deregister node: " (External msg)) /\
               rows (conn w') = rows (conn w)
           | None =>
               res = None /\ rows (conn w') = others_of fp (rows (conn w))
           end
     end)).
Proof.
  split; intros reg m h w; (split; [intros Hnone | intros Hreg]);
    unfold Manager.Shutdown.
  - rewrite Hnone. reflexivity.
  - rewrite Hreg. destruct (GenerateFingerprint h) as [fp | e]; [| reflexivity].
    intros Huniq. unfold on_conn.
    rewrite (proj1 Deregister_run reg _ fp Huniq).
    destruct (next_call_fails (conn w)); eexists; eexists;
      (split; [reflexivity |]); (split; [reflexivity |]); split; reflexivity.
  - rewrite Hnone. reflexivity.
  - rewrite Hreg. destruct (GenerateFingerprint h) as [fp | e]; [| reflexivity].
    intros Huniq. unfold on_conn.
    rewrite (proj2 Deregister_run reg _ fp Huniq).
    destruct (next_call_fails (conn w)); eexists; eexists;
      (split; [reflexivity |]); (split; [reflexivity |]); split; reflexivity.
Qed.

(** X29. ValidateAndEnforce followed by Shutdown: for a node that was not
    registered, on a registry that answers every call and with the node count
    within the limit, the first call succeeds, the second reports no error,
    and the registry holds the records it held before the first. *)
Theorem enforce_then_Shutdown :
  both_backends (fun R _ reg =>
    forall (m : Manager.Manager R) (h : Host) (licenseKey : string) (w w1 : World)
           (c : OnlineClient) (fp : string) (resp : ValidateResponse),
    Manager.client m = Some c -> Manager.registry m = Some reg ->
    GenerateFingerprint h = Ok fp ->
    Validate c (validation_of licenseKey fp) w = (Ok resp, w1) ->
    Valid resp = true ->
    CheckCPU h (ExtractHardwareLimits (resp_Features resp)) = None ->
    unique_fingerprints (rows (conn w)) -> faults (conn w) = [] ->
    records_of fp (rows (conn w)) = [] ->
    CheckNodeCount (ExtractHardwareLimits (resp_Features resp))
      (count_of licenseKey (rows (conn w)) + 1) = None ->
    exists info w' w'',
      Manager.ValidateAndEnforce m h licenseKey w = (Ok info, w') /\
      info_NodeCount info = count_of licenseKey (rows (conn w)) + 1 /\
      Manager.Shutdown m h w' = (None, w'') /\
      rows (conn w'') = rows (conn w)).
Proof.
  assert (Hrest : forall (h : Host) (licenseKey fp : string) (l : list NodeInfo)
                         (stamp : Time),
    unique_fingerprints l -> records_of fp l = [] ->
    let rs := snd (upsert stamp (node_of h fp licenseKey) l) in
    unique_fingerprints rs /\
    count_of licenseKey rs = count_of licenseKey l + 1 /\
    others_of fp rs = l).
  { intros h licenseKey fp l stamp Huniq Hnew.
    destruct (upsert stamp (node_of h fp licenseKey) l)
      as [d l'] eqn:Hup. cbn [snd]. cbv zeta.
    destruct (register_rows _ _ _ _ _ Huniq Hup) as (Huniq' & _ & Hothers & Hcount).
    cbn [Fingerprint node_of] in Hothers, Hcount.
    assert (Hsame : others_of fp l = l)
      by (apply others_of_none, records_of_nil_Forall, Hnew).
    rewrite Hsame in Hothers, Hcount.
    split; [exact Huniq' |]. split; [| exact Hothers].
    rewrite (Hcount licenseKey). cbn [LicenseKey node_of].
    destruct (decide (licenseKey = licenseKey)); [reflexivity | contradiction]. }
  split; intros reg m h licenseKey w w1 c fp resp Hc Hreg Hfp Hval Hvalid Hcpu
    Huniq Hfaults Hnew Hcheck.
  - destruct (proj1 enforce_run reg m h licenseKey w w1 c fp resp
                Hc Hreg Hfp Hval Hvalid Hcpu Huniq Hfaults) as (stamp & Hrun).
    cbv zeta in Hrun.
    destruct (Hrest h licenseKey fp (rows (conn w)) stamp Huniq Hnew)
      as (Huniq' & Hcount & Hothers).
    rewrite Hcount, Hcheck in Hrun.
    eexists; eexists; eexists. split; [exact Hrun |]. split; [reflexivity |].
    unfold Manager.Shutdown. rewrite Hreg, Hfp. unfold on_conn. cbn [conn trace].
    rewrite (proj1 Deregister_run reg {| rows := _; faults := [] |} fp Huniq').
    unfold next_call_fails, after_call. cbn [rows faults tail].
    split; [reflexivity |]. cbn [conn rows]. exact Hothers.
  - destruct (proj2 enforce_run reg m h licenseKey w w1 c fp resp
                Hc Hreg Hfp Hval Hvalid Hcpu Huniq Hfaults) as (stamp & Hrun).
    cbv zeta in Hrun.
    destruct (Hrest h licenseKey fp (rows (conn w)) stamp Huniq Hnew)
      as (Huniq' & Hcount & Hothers).
    rewrite Hcount, Hcheck in Hrun.
    eexists; eexists; eexists. split; [exact Hrun |]. split; [reflexivity |].
    unfold Manager.Shutdown. rewrite Hreg, Hfp. unfold on_conn. cbn [conn trace].
    rewrite (proj2 Deregister_run reg {| rows := _; faults := [] |} fp Huniq').
    unfold next_call_fails, after_call. cbn [rows faults tail].
    split; [reflexivity |]. cbn [conn rows]. exact Hothers.
Qed.

End ManagerLifecycle.

Section ManagerStepsExamples.
#[local] Existing Instance Fixture.lib.

(** The server answers 200 with an empty body: the decoding error of the
    client comes out of the manager behind "validate license: ". *)
Lemma validation_error_passes_through_witness :
  let m := {| Manager.client := Some (Fixture.online "" "");
              Manager.offline := None;
              Manager.registry := Some Fixture.pg |} in
  let w := Fixture.world Stored.nodes [] in
  exists e w1,
    Manager.ValidateAndEnforce m (Fixture.host "node-3" 100) "K" w
      = (Err (Errorf_prefix "validate license: " e), w1) /\
    conn w1 = conn w.
Proof.
  intros m w.
  destruct (Validate (Fixture.online "" "") (validation_of "K" "node-3") w)
    as [[resp | e] w1] eqn:Hval; [vm_compute in Hval; discriminate Hval |].
  destruct (validation_error_passes_through m
              {| ManagerLite.client := None; ManagerLite.offline := None |}
              (Fixture.host "node-3" 100) "K" w w1 (Fixture.online "" "") "node-3" e Hval)
    as (Hm & _ & Hconn & _).
  exists e, w1. split; [apply Hm; reflexivity | exact Hconn].
Defined.

(** A node that is registered validates again: it is counted once, and two
    nodes are within the limit of two. *)
Lemma enforce_counts_this_node_witness :
  let m := {| Manager.client := Some (Fixture.online "1" "");
              Manager.offline := None;
              Manager.registry := Some Fixture.pg |} in
  exists res w',
    Manager.ValidateAndEnforce m (Fixture.host "fp-a" 100) "K"
      (Fixture.world Stored.nodes []) = (res, w') /\
    exists info, res = Ok info /\ info_NodeCount info = 2.
Proof.
  intros m.
  pose (r := Validate (Fixture.online "1" "") (validation_of "K" "fp-a")
               (Fixture.world Stored.nodes [])).
  assert (Hval : Validate (Fixture.online "1" "") (validation_of "K" "fp-a")
                   (Fixture.world Stored.nodes [])
                 = (Ok {| Valid := true; Reason := ""; Plan := "pro"; ExpiresAt := None;
                          resp_Features := Fixture.valid_features;
                          ActivationRemaining := 3 |}, snd r)) by reflexivity.
  destruct enforce_counts_this_node as [Hpg _].
  destruct (Hpg Fixture.pg m (Fixture.host "fp-a" 100) "K" _ _ _ "fp-a" _
              eq_refl eq_refl eq_refl Hval eq_refl eq_refl Stored_nodes_unique eq_refl)
    as (res & w' & Hrun & _ & Hin & _).
  exists res, w'. split; [exact Hrun |].
  destruct Hin as (info & stored & Hres & _ & Hcount & _).
  - right. vm_compute. discriminate.
  - exists info. split; [exact Hres | exact Hcount].
Defined.

(** The node "fp-b" shuts down. *)
Lemma Shutdown_removes_own_record_witness :
  let m := {| Manager.client := None; Manager.offline := None;
              Manager.registry := Some Fixture.mongo |} in
  exists w',
    Manager.Shutdown m (Fixture.host "fp-b" 100) (Fixture.world Stored.nodes [])
      = (None, w') /\
    rows (conn w') = [Fixture.node "fp-a" "K" 10 10; Fixture.node "fp-c" "K" 5 40].
Proof.
  intros m.
  destruct Shutdown_removes_own_record as [_ Hmongo].
  destruct (Hmongo Fixture.mongo m (Fixture.host "fp-b" 100)
              (Fixture.world Stored.nodes [])) as [_ Hrun].
  destruct (Hrun eq_refl Stored_nodes_unique) as (res & w' & Hshut & _ & Hres & Hrows).
  exists w'. split; [rewrite Hshut, Hres; reflexivity | rewrite Hrows; reflexivity].
Defined.

(** A second node of a license for two joins and leaves. *)
Lemma enforce_then_Shutdown_witness :
  let m := {| Manager.client := Some (Fixture.online "1" "");
              Manager.offline := None;
              Manager.registry := Some Fixture.mongo |} in
  let h := Fixture.host "node-3" 100 in
  let w := Fixture.world [Fixture.node "fp-a" "K" 10 10] [] in
  exists info w' w'',
    Manager.ValidateAndEnforce m h "K" w = (Ok info, w') /\
    info_NodeCount info = 2 /\
    Manager.Shutdown m h w' = (None, w'') /\
    rows (conn w'') = [Fixture.node "fp-a" "K" 10 10].
Proof.
  intros m h w.
  pose (r := Validate (Fixture.online "1" "") (validation_of "K" "node-3") w).
  assert (Hval : Validate (Fixture.online "1" "") (validation_of "K" "node-3") w
                 = (Ok {| Valid := true; Reason := ""; Plan := "pro"; ExpiresAt := None;
                          resp_Features := Fixture.valid_features;
                          ActivationRemaining := 3 |}, snd r)) by reflexivity.
  assert (Huniq : unique_fingerprints (rows (conn w)))
    by (apply (bool_decide_unpack _); vm_compute; exact I).
  destruct enforce_then_Shutdown as [_ Hmongo].
  destruct (Hmongo Fixture.mongo m h "K" w _ _ "node-3" _
              eq_refl eq_refl eq_refl Hval eq_refl eq_refl Huniq eq_refl
              eq_refl eq_refl)
    as (info & w' & w'' & Hrun & Hcount & Hshut & Hrows).
  exists info, w', w''. split; [exact Hrun |]. split; [exact Hcount |].
  split; [exact Hshut | exact Hrows].
Defined.

End ManagerStepsExamples.

Section GrantingExamples.
#[local] Existing Instance Granting.lib.

(** The license allows two CPUs per node and the host has four. *)
Lemma cpu_limit_stops_before_registry_witness :
  let lite := {| ManagerLite.client := Some (Fixture.online "1" "");
                 ManagerLite.offline := None |} in
  let w := Fixture.world Stored.nodes [] in
  exists e w1,
    ManagerLite.ValidateAndEnforce lite (Fixture.host "node-3" 100) "K" w = (Err e, w1) /\
    errors_Is e ErrCPULimitExceeded = true /\
    conn w1 = conn w.
Proof.
  intros lite w.
  pose (r := Validate (Fixture.online "1" "") (validation_of "K" "node-3") w).
  assert (Hval : Validate (Fixture.online "1" "") (validation_of "K" "node-3") w
                 = (Ok {| Valid := true; Reason := ""; Plan := "pro"; ExpiresAt := None;
                          resp_Features := Some {[ "max_cpu_per_node" := Float64 2 0 ]};
                          ActivationRemaining := 3 |}, snd r)) by reflexivity.
  assert (Hpos : 0 < 2) by lia.
  assert (Hover : 2 < 4) by lia.
  destruct (cpu_limit_stops_before_registry
              {| Manager.client := None; Manager.offline := None;
                 Manager.registry := Some Fixture.pg |}
              lite (Fixture.host "node-3" 100) "K" w _ (Fixture.online "1" "")
              "node-3" _ Hval eq_refl Hpos Hover)
    as (e & His & _ & Hlite & Hconn & _).
  exists e, (snd r). split; [apply Hlite; reflexivity |].
  split; [exact His | exact Hconn].
Defined.

(** The server accepts the activation and the store refuses the connection. *)
Lemma ActivateNode_registers_after_activation_witness :
  let m := {| Manager.client := Some (Fixture.online "1" "");
              Manager.offline := None;
              Manager.registry := Some Fixture.pg |} in
  let w := {| conn := Stored.failing; trace := [] |} in
  exists e w',
    Manager.ActivateNode m (Fixture.host "node-3" 100) "K" w = (Err e, w') /\
    Error e = "register node: register node: connection refused" /\
    rows (conn w') = Stored.nodes.
Proof.
  intros m w.
  pose (h := Fixture.host "node-3" 100).
  pose (r := Activate (Fixture.online "1" "") (activation_of h "K" "node-3") w).
  assert (Hact : Activate (Fixture.online "1" "") (activation_of h "K" "node-3") w
                 = (Ok Granting.activation, snd r)) by reflexivity.
  destruct ActivateNode_registers_after_activation as [Hpg _].
  pose proof (Hpg Fixture.pg m h "K" w _ (Fixture.online "1" "") "node-3" _
                eq_refl eq_refl eq_refl Hact Stored_nodes_unique) as Hrun.
  cbv beta iota in Hrun.
  destruct Hrun as (res & w' & Hrun & _ & (e & Hres & Htext) & Hrows).
  exists e, w'. split; [rewrite <- Hres; exact Hrun |].
  split; [exact Htext | exact Hrows].
Defined.

End GrantingExamples.
